(** * ytdown-client: a shallow embedding of [app.py]

    The development follows the three classes of the program that carry
    logic: [VideoInfoFetcher] (duration formatting), [DownloadWorker]
    (format selector, progress hook, run) and the main window
    [YouTubeDownloader] (queue, selection, batch bookkeeping).

    Conventions.
    - Python numbers that may be [int] or [float] are rationals ([Q]);
      floating point rounding is not modelled, [/] is exact division.
    - A value that may be [None] is a [pyval].
    - Qt signals are data: a worker's emissions are a list of [signal]s and
      the main window's slots are state transformers.
    - Widgets are objects in a store, addressed by handles, because both the
      layout and the [queue_items] dictionary refer to the same widget.
    - Left out: style sheets, captions of buttons and of the mode label, the
      visibility of the secondary buttons, thumbnails, the HTTP headers and
      post-processor options handed to the engine.  None of them is read
      back by the program. *)

From Stdlib Require Import ZArith QArith Qround Qabs Lqa Lia.
From Stdlib Require Import String Ascii List DecimalString.
From stdpp Require Import gmap strings list fin_maps.

Open Scope string_scope.
Open Scope list_scope.
Open Scope Z_scope.

(** String concatenation may unfold on a constructor. *)
#[local] Arguments String.append !s1 s2 / : simpl nomatch.

(* ===================================================================== *)
(** ** Python values and string helpers                                   *)
(* ===================================================================== *)

Module Py.

(** A number or [None]. *)
Inductive pyval : Type :=
  | PyNone
  | PyNum (q : Q).

(** Truth value of [v] in a condition: [None] and zero are false. *)
Definition truthy (v : pyval) : bool :=
  match v with
  | PyNone => false
  | PyNum q => negb (Qeq_bool q 0)
  end.

(** [d.get(key, default)] on an entry that is absent ([None]) or present. *)
Definition get_default (entry : option pyval) (default : pyval) : pyval :=
  match entry with
  | Some v => v
  | None => default
  end.

(** [a or b]. *)
Definition py_or (a b : pyval) : pyval := if truthy a then a else b.

(** The outcome of code that may raise; an exception is its [str(e)]. *)
Inductive result (A : Type) : Type :=
  | Ok (a : A)
  | Raise (msg : string).
Arguments Ok {A} a.
Arguments Raise {A} msg.

(** [int(x)]: truncation towards zero. *)
Definition int (q : Q) : Z :=
  if Qle_bool 0 q then Qfloor q else Qceiling q.

(** [a // b] and [a % b] for a positive or negative divisor. *)
Definition floordiv (a b : Q) : Q := inject_Z (Qfloor (a / b)).
Definition pymod (a b : Q) : Q := (a - b * floordiv a b)%Q.

(** [str(z)] for an integer. *)
Definition str (z : Z) : string := NilZero.string_of_int (Z.to_int z).

Fixpoint zeros (n : nat) : string :=
  match n with
  | O => ""
  | S n' => String "0" (zeros n')
  end.

(** [s.zfill(w)] for a string of digits. *)
Definition zfill (w : nat) (s : string) : string :=
  zeros (w - String.length s) +:+ s.

(** [format(z, '0<w>d')]: sign first, then zero padding up to width [w]. *)
Definition format_0d (w : nat) (z : Z) : string :=
  if z <? 0 then "-" +:+ zfill (w - 1) (str (- z)) else zfill w (str z).

(** Round to the nearest integer, ties to even. *)
Definition round_half_even (q : Q) : Z :=
  let f := Qfloor q in
  match (q - inject_Z f ?= 1 # 2)%Q with
  | Lt => f
  | Gt => f + 1
  | Eq => if Z.even f then f else f + 1
  end.

(** [format(q, '.<prec>f')]. *)
Definition format_f (prec : nat) (q : Q) : string :=
  let scale := 10 ^ Z.of_nat prec in
  let m := round_half_even (Qabs q * inject_Z scale) in
  (if Qle_bool 0 q then "" else "-") +:+ str (m / scale) +:+
  match prec with
  | O => ""
  | _ => "." +:+ zfill prec (str (m mod scale))
  end.

(** [s.startswith(p)]. *)
Fixpoint startswith (s p : string) : bool :=
  match p with
  | EmptyString => true
  | String c p' =>
      match s with
      | EmptyString => false
      | String d s' => Ascii.eqb c d && startswith s' p'
      end
  end.

(** [s.replace(old, new)] for a non-empty [old]: every occurrence, found
    left to right without overlap, is replaced.  [skip] counts the
    characters of a match that are still to be dropped. *)
Fixpoint replace_from (old new : string) (skip : nat) (s : string) : string :=
  match s with
  | EmptyString => EmptyString
  | String c s' =>
      match skip with
      | S k => replace_from old new k s'
      | O =>
          if startswith s old
          then new +:+ replace_from old new (String.length old - 1) s'
          else String c (replace_from old new 0 s')
      end
  end.

Definition replace (s old new : string) : string := replace_from old new 0 s.

End Py.

Import Py.

(* ===================================================================== *)
(** ** class VideoInfo                                                    *)
(* ===================================================================== *)

Record VideoInfo : Type := mkVideoInfo {
  video_id : string;
  title : string;
  author : string;
  duration : string;
  thumbnail_url : string
}.

(* ===================================================================== *)
(** ** class VideoInfoFetcher                                             *)
(* ===================================================================== *)

Module VideoInfoFetcher.

Definition _format_duration (seconds : pyval) : string :=
  match seconds with
  | PyNone => "0:00"
  | PyNum s =>
      if negb (truthy seconds) then "0:00"
      else
        let hours := int (floordiv s 3600) in
        let minutes := int (floordiv (pymod s 3600) 60) in
        let secs := int (pymod s 60) in
        if 0 <? hours
        then str hours +:+ ":" +:+ format_0d 2 minutes +:+ ":" +:+ format_0d 2 secs
        else str minutes +:+ ":" +:+ format_0d 2 secs
  end.

End VideoInfoFetcher.

(* ===================================================================== *)
(** ** class DownloadWorker                                               *)
(* ===================================================================== *)

(** The two signals of a worker. *)
Inductive signal : Type :=
  | progress (vid : string) (percentage : Q) (speed eta : string)
  | finished (vid : string) (success : bool) (message : string).

(** The dictionary the engine passes to a progress hook.  [status] is always
    present; each other key may be absent ([None]) or present, possibly with
    the value [None] ([Some PyNone]). *)
Record progress_dict : Type := mkTick {
  status : string;
  total_bytes : option pyval;
  total_bytes_estimate : option pyval;
  downloaded_bytes : option pyval;
  speed : option pyval;
  eta : option pyval
}.

(** What the engine does during [ydl.download]: it calls the hook once per
    tick and then either returns ([None]) or raises with a message. *)
Record engine_script : Type := mkEngine {
  ticks : list progress_dict;
  outcome : option string
}.

Module DownloadWorker.

Record t : Type := mk {
  video_id : string;
  output_dir : string;
  format_type : string;
  quality : string;
  container_format : string
}.

(** The format selector built at the start of [run]. *)
Definition format_string (self : t) : string :=
  if String.eqb (format_type self) "video" then
    if String.eqb (quality self) "highest" then "bestvideo+bestaudio/best"
    else if String.eqb (quality self) "144p" then "worst"
    else
      let height := replace (quality self) "p" "" in
      "bestvideo[height<=" +:+ height +:+ "]+bestaudio/best[height<=" +:+ height +:+ "]"
  else "bestaudio/best".

Definition _format_speed (speed : pyval) : string :=
  match speed with
  | PyNone => "0 B/s"
  | PyNum v =>
      if negb (truthy speed) then "0 B/s"
      else if Qlt_le_dec v 1024 then format_f 0 v +:+ " B/s"
      else if Qlt_le_dec v (1024 * 1024) then format_f 1 (v / 1024) +:+ " KB/s"
      else format_f 2 (v / (1024 * 1024)) +:+ " MB/s"
  end.

Definition _format_time (seconds : pyval) : string :=
  match seconds with
  | PyNone => "Unknown"
  | PyNum s =>
      if negb (truthy seconds) || (if Qlt_le_dec s 0 then true else false)
      then "Unknown"
      else
        let hours := int (floordiv s 3600) in
        let minutes := int (floordiv (pymod s 3600) 60) in
        let secs := int (pymod s 60) in
        if 0 <? hours
        then str hours +:+ "h " +:+ str minutes +:+ "m " +:+ str secs +:+ "s"
        else if 0 <? minutes
        then str minutes +:+ "m " +:+ str secs +:+ "s"
        else str secs +:+ "s"
  end.

(** The locals [total] and [downloaded] of the hook. *)
Definition total_of (d : progress_dict) : pyval :=
  py_or (get_default (total_bytes d) PyNone)
        (get_default (total_bytes_estimate d) (PyNum 0)).

Definition downloaded_of (d : progress_dict) : pyval :=
  get_default (downloaded_bytes d) (PyNum 0).

(** The percentage computed by the hook for a tick being downloaded.
    Comparing or dividing [None] raises a [TypeError]. *)
Definition percentage_of (d : progress_dict) : result Q :=
  match total_of d with
  | PyNone => Raise "'>' not supported between instances of 'NoneType' and 'int'"
  | PyNum total =>
      if Qlt_le_dec 0 total then
        match downloaded_of d with
        | PyNone => Raise "unsupported operand type(s) for /: 'NoneType' and 'int'"
        | PyNum downloaded => Ok ((downloaded / total) * 100)%Q
        end
      else Ok 0%Q
  end.

(** [_progress_hook] with the value of [self._is_running] it reads.  It
    raises, or emits at most one [progress] signal. *)
Definition _progress_hook (self : t) (_is_running : bool) (d : progress_dict)
  : result (list signal) :=
  if negb _is_running then Raise "Download cancelled"
  else if String.eqb (status d) "downloading" then
    match percentage_of d with
    | Raise e => Raise e
    | Ok percentage =>
        let speed_str := _format_speed (get_default (speed d) (PyNum 0)) in
        let eta_str := _format_time (get_default (eta d) (PyNum 0)) in
        Ok [progress (video_id self) percentage speed_str eta_str]
    end
  else Ok [].

(** When [stop()] takes effect.  The worker reads [_is_running] at
    checkpoints: checkpoint 0 is the test just before [ydl.download], and
    checkpoint [i] for [i >= 1] is the [i]-th call of the hook.
    [Some k] means that [stop()] happened before checkpoint [k] and after
    all earlier ones; [None] means that it never happened. *)
Definition is_running_at (stop : option nat) (checkpoint : nat) : bool :=
  match stop with
  | None => true
  | Some k => (checkpoint <? k)%nat
  end.

(** [ydl.download([url])]: the hook is called for every tick in turn; the
    first exception it raises aborts the download.  The result is the
    signals emitted so far and the exception that ended the call, if any. *)
Fixpoint download (self : t) (stop : option nat) (checkpoint : nat)
    (ds : list progress_dict) (final : option string)
  : list signal * option string :=
  match ds with
  | [] => ([], final)
  | d :: ds' =>
      match _progress_hook self (is_running_at stop checkpoint) d with
      | Raise e => ([], Some e)
      | Ok sigs =>
          let '(rest, exn) := download self stop (S checkpoint) ds' final in
          (sigs ++ rest, exn)
      end
  end.

(** [run]: the signals the worker emits, in order. *)
Definition run (self : t) (engine : engine_script) (stop : option nat)
  : list signal :=
  if is_running_at stop 0 then
    let '(sigs, exn) := download self stop 1 (ticks engine) (outcome engine) in
    match exn with
    | None =>
        sigs ++ [finished (video_id self) true "Download completed successfully!"]
    | Some e =>
        sigs ++ [finished (video_id self) false ("Download failed: " +:+ e)]
    end
  else [].

End DownloadWorker.

(* ===================================================================== *)
(** ** Python dictionaries that are iterated: insertion-ordered           *)
(* ===================================================================== *)

Module Dict.

Fixpoint get {V : Type} (k : string) (d : list (string * V)) : option V :=
  match d with
  | [] => None
  | (k', v) :: d' => if String.eqb k k' then Some v else get k d'
  end.

(** [d[k] = v]: an existing key keeps its position, a new key goes last. *)
Fixpoint set {V : Type} (k : string) (v : V) (d : list (string * V))
  : list (string * V) :=
  match d with
  | [] => [(k, v)]
  | (k', v') :: d' =>
      if String.eqb k k' then (k, v) :: d' else (k', v') :: set k v d'
  end.

(** [del d[k]]. *)
Fixpoint del {V : Type} (k : string) (d : list (string * V))
  : list (string * V) :=
  match d with
  | [] => []
  | (k', v') :: d' =>
      if String.eqb k k' then del k d' else (k', v') :: del k d'
  end.

Definition keys {V : Type} (d : list (string * V)) : list string := d.*1.

Definition mem {V : Type} (k : string) (d : list (string * V)) : bool :=
  match get k d with Some _ => true | None => false end.

End Dict.

(* ===================================================================== *)
(** ** class VideoQueueItem                                               *)
(* ===================================================================== *)

Module VideoQueueItem.

Record t : Type := mk {
  video_info : VideoInfo;
  is_selected : bool;
  checkbox : bool;               (* checkbox.isChecked() *)
  progress_bar_visible : bool;
  progress_bar_value : Z;        (* argument of the last setValue *)
  status_label_visible : bool;
  status_label : string          (* status_label.text() *)
}.

(** [__init__] and [_setup_ui]. *)
Definition init (v : VideoInfo) : t := mk v false false false 0 false "".

Definition update_progress (percentage : Q) (speed eta : string) (w : t) : t :=
  mk (video_info w) (is_selected w) (checkbox w)
     true (int percentage)
     true ("Speed: " +:+ speed +:+ " | ETA: " +:+ eta).

Definition mark_completed (w : t) : t :=
  mk (video_info w) (is_selected w) (checkbox w)
     false (progress_bar_value w)
     true "✓ Download completed".

Definition mark_failed (error : string) (w : t) : t :=
  mk (video_info w) (is_selected w) (checkbox w)
     false (progress_bar_value w)
     true ("✗ Failed: " +:+ error).

End VideoQueueItem.

(* ===================================================================== *)
(** ** class YouTubeDownloader (the main window)                          *)
(* ===================================================================== *)

(** A child of the display area: a queue item, or the frame that
    [_display_single_video] builds. *)
Inductive widget : Type :=
  | ItemWidget (it : VideoQueueItem.t)
  | SingleVideoFrame (v : VideoInfo).

(** A [QMessageBox] that was shown. *)
Inductive dialog : Type :=
  | information (title text : string)
  | warning (title text : string).

(** The choices read from the radio button and the two combo boxes when the
    download button is pressed. *)
Record download_options : Type := mkOptions {
  opt_format_type : string;
  opt_quality : string;
  opt_container_format : string
}.

Module YouTubeDownloader.

Record t : Type := mk {
  video_queue : list VideoInfo;
  queue_items : list (string * nat);  (* dict: video id -> widget handle, in insertion order *)
  widgets : gmap nat widget;  (* the store of live widgets *)
  next_handle : nat;  (* the next unused handle *)
  video_layout : list nat;  (* children of the display area, top to bottom *)
  download_workers : list DownloadWorker.t;
  output_directory : string;
  is_queue_mode : bool;
  selected_videos : gset string;
  viewing_single_in_queue : bool;
  active_downloads : Z;
  total_downloads : Z;
  download_progress : gmap string Q;
  download_btn_enabled : bool;
  progress_bar_visible : bool;
  progress_bar_value : Z;  (* argument of the last setValue *)
  status_label : string;  (* text of the main status line *)
  dialogs : list dialog  (* message boxes shown, oldest first *)
}.

(** Assignment to one attribute of [self]. *)
Definition set_video_queue (x : list VideoInfo) (s : t) : t :=
  mk x (queue_items s) (widgets s) (next_handle s) (video_layout s)
    (download_workers s) (output_directory s) (is_queue_mode s)
    (selected_videos s) (viewing_single_in_queue s) (active_downloads s)
    (total_downloads s) (download_progress s) (download_btn_enabled s)
    (progress_bar_visible s) (progress_bar_value s) (status_label s)
    (dialogs s).
Definition set_queue_items (x : list (string * nat)) (s : t) : t :=
  mk (video_queue s) x (widgets s) (next_handle s) (video_layout s)
    (download_workers s) (output_directory s) (is_queue_mode s)
    (selected_videos s) (viewing_single_in_queue s) (active_downloads s)
    (total_downloads s) (download_progress s) (download_btn_enabled s)
    (progress_bar_visible s) (progress_bar_value s) (status_label s)
    (dialogs s).
Definition set_widgets (x : gmap nat widget) (s : t) : t :=
  mk (video_queue s) (queue_items s) x (next_handle s) (video_layout s)
    (download_workers s) (output_directory s) (is_queue_mode s)
    (selected_videos s) (viewing_single_in_queue s) (active_downloads s)
    (total_downloads s) (download_progress s) (download_btn_enabled s)
    (progress_bar_visible s) (progress_bar_value s) (status_label s)
    (dialogs s).
Definition set_next_handle (x : nat) (s : t) : t :=
  mk (video_queue s) (queue_items s) (widgets s) x (video_layout s)
    (download_workers s) (output_directory s) (is_queue_mode s)
    (selected_videos s) (viewing_single_in_queue s) (active_downloads s)
    (total_downloads s) (download_progress s) (download_btn_enabled s)
    (progress_bar_visible s) (progress_bar_value s) (status_label s)
    (dialogs s).
Definition set_video_layout (x : list nat) (s : t) : t :=
  mk (video_queue s) (queue_items s) (widgets s) (next_handle s) x
    (download_workers s) (output_directory s) (is_queue_mode s)
    (selected_videos s) (viewing_single_in_queue s) (active_downloads s)
    (total_downloads s) (download_progress s) (download_btn_enabled s)
    (progress_bar_visible s) (progress_bar_value s) (status_label s)
    (dialogs s).
Definition set_download_workers (x : list DownloadWorker.t) (s : t) : t :=
  mk (video_queue s) (queue_items s) (widgets s) (next_handle s)
    (video_layout s) x (output_directory s) (is_queue_mode s)
    (selected_videos s) (viewing_single_in_queue s) (active_downloads s)
    (total_downloads s) (download_progress s) (download_btn_enabled s)
    (progress_bar_visible s) (progress_bar_value s) (status_label s)
    (dialogs s).
Definition set_output_directory (x : string) (s : t) : t :=
  mk (video_queue s) (queue_items s) (widgets s) (next_handle s)
    (video_layout s) (download_workers s) x (is_queue_mode s)
    (selected_videos s) (viewing_single_in_queue s) (active_downloads s)
    (total_downloads s) (download_progress s) (download_btn_enabled s)
    (progress_bar_visible s) (progress_bar_value s) (status_label s)
    (dialogs s).
Definition set_is_queue_mode (x : bool) (s : t) : t :=
  mk (video_queue s) (queue_items s) (widgets s) (next_handle s)
    (video_layout s) (download_workers s) (output_directory s) x
    (selected_videos s) (viewing_single_in_queue s) (active_downloads s)
    (total_downloads s) (download_progress s) (download_btn_enabled s)
    (progress_bar_visible s) (progress_bar_value s) (status_label s)
    (dialogs s).
Definition set_selected_videos (x : gset string) (s : t) : t :=
  mk (video_queue s) (queue_items s) (widgets s) (next_handle s)
    (video_layout s) (download_workers s) (output_directory s)
    (is_queue_mode s) x (viewing_single_in_queue s) (active_downloads s)
    (total_downloads s) (download_progress s) (download_btn_enabled s)
    (progress_bar_visible s) (progress_bar_value s) (status_label s)
    (dialogs s).
Definition set_viewing_single_in_queue (x : bool) (s : t) : t :=
  mk (video_queue s) (queue_items s) (widgets s) (next_handle s)
    (video_layout s) (download_workers s) (output_directory s)
    (is_queue_mode s) (selected_videos s) x (active_downloads s)
    (total_downloads s) (download_progress s) (download_btn_enabled s)
    (progress_bar_visible s) (progress_bar_value s) (status_label s)
    (dialogs s).
Definition set_active_downloads (x : Z) (s : t) : t :=
  mk (video_queue s) (queue_items s) (widgets s) (next_handle s)
    (video_layout s) (download_workers s) (output_directory s)
    (is_queue_mode s) (selected_videos s) (viewing_single_in_queue s) x
    (total_downloads s) (download_progress s) (download_btn_enabled s)
    (progress_bar_visible s) (progress_bar_value s) (status_label s)
    (dialogs s).
Definition set_total_downloads (x : Z) (s : t) : t :=
  mk (video_queue s) (queue_items s) (widgets s) (next_handle s)
    (video_layout s) (download_workers s) (output_directory s)
    (is_queue_mode s) (selected_videos s) (viewing_single_in_queue s)
    (active_downloads s) x (download_progress s) (download_btn_enabled s)
    (progress_bar_visible s) (progress_bar_value s) (status_label s)
    (dialogs s).
Definition set_download_progress (x : gmap string Q) (s : t) : t :=
  mk (video_queue s) (queue_items s) (widgets s) (next_handle s)
    (video_layout s) (download_workers s) (output_directory s)
    (is_queue_mode s) (selected_videos s) (viewing_single_in_queue s)
    (active_downloads s) (total_downloads s) x (download_btn_enabled s)
    (progress_bar_visible s) (progress_bar_value s) (status_label s)
    (dialogs s).
Definition set_download_btn_enabled (x : bool) (s : t) : t :=
  mk (video_queue s) (queue_items s) (widgets s) (next_handle s)
    (video_layout s) (download_workers s) (output_directory s)
    (is_queue_mode s) (selected_videos s) (viewing_single_in_queue s)
    (active_downloads s) (total_downloads s) (download_progress s) x
    (progress_bar_visible s) (progress_bar_value s) (status_label s)
    (dialogs s).
Definition set_progress_bar_visible (x : bool) (s : t) : t :=
  mk (video_queue s) (queue_items s) (widgets s) (next_handle s)
    (video_layout s) (download_workers s) (output_directory s)
    (is_queue_mode s) (selected_videos s) (viewing_single_in_queue s)
    (active_downloads s) (total_downloads s) (download_progress s)
    (download_btn_enabled s) x (progress_bar_value s) (status_label s)
    (dialogs s).
Definition set_progress_bar_value (x : Z) (s : t) : t :=
  mk (video_queue s) (queue_items s) (widgets s) (next_handle s)
    (video_layout s) (download_workers s) (output_directory s)
    (is_queue_mode s) (selected_videos s) (viewing_single_in_queue s)
    (active_downloads s) (total_downloads s) (download_progress s)
    (download_btn_enabled s) (progress_bar_visible s) x (status_label s)
    (dialogs s).
Definition set_status_label (x : string) (s : t) : t :=
  mk (video_queue s) (queue_items s) (widgets s) (next_handle s)
    (video_layout s) (download_workers s) (output_directory s)
    (is_queue_mode s) (selected_videos s) (viewing_single_in_queue s)
    (active_downloads s) (total_downloads s) (download_progress s)
    (download_btn_enabled s) (progress_bar_visible s) (progress_bar_value s)
    x (dialogs s).
Definition set_dialogs (x : list dialog) (s : t) : t :=
  mk (video_queue s) (queue_items s) (widgets s) (next_handle s)
    (video_layout s) (download_workers s) (output_directory s)
    (is_queue_mode s) (selected_videos s) (viewing_single_in_queue s)
    (active_downloads s) (total_downloads s) (download_progress s)
    (download_btn_enabled s) (progress_bar_visible s) (progress_bar_value s)
    (status_label s) x.

(** [__init__].  The output directory is the user's download folder. *)
Definition init (downloads_dir : string) : t :=
  mk [] [] ∅ 0%nat [] [] downloads_dir false ∅ false 0 0 ∅ false false 0 "" [].

(** The queue item registered for a video id, if any. *)
Definition item_of (s : t) (vid : string) : option VideoQueueItem.t :=
  match Dict.get vid (queue_items s) with
  | Some h =>
      match widgets s !! h with
      | Some (ItemWidget it) => Some it
      | _ => None
      end
  | None => None
  end.

(** Apply a method to the widget [self.queue_items[vid]]. *)
Definition with_item (vid : string) (f : VideoQueueItem.t -> VideoQueueItem.t)
    (s : t) : t :=
  match Dict.get vid (queue_items s) with
  | Some h =>
      match widgets s !! h with
      | Some (ItemWidget it) => set_widgets (<[h := ItemWidget (f it)]> (widgets s)) s
      | _ => s
      end
  | None => s
  end.

Definition queued_ids (s : t) : list string := video_id <$> video_queue s.

Definition _add_queue_item (v : VideoInfo) (s : t) : t :=
  let h := next_handle s in
  let s := set_next_handle (S h) s in
  let s := set_widgets (<[h := ItemWidget (VideoQueueItem.init v)]> (widgets s)) s in
  let s := set_video_layout (video_layout s ++ [h]) s in
  set_queue_items (Dict.set (video_id v) h (queue_items s)) s.

Definition _display_single_video (v : VideoInfo) (s : t) : t :=
  let h := next_handle s in
  let s := set_next_handle (S h) s in
  let s := set_widgets (<[h := SingleVideoFrame v]> (widgets s)) s in
  set_video_layout (video_layout s ++ [h]) s.

Definition _clear_video_display (s : t) : t :=
  let s := set_widgets (foldr delete (widgets s) (video_layout s)) s in
  let s := set_video_layout [] s in
  let s := set_queue_items [] s in
  set_selected_videos ∅ s.

(** [_add_to_queue] has no [return]: its value is [None] on both paths. *)
Definition _add_to_queue (v : VideoInfo) (s : t) : pyval * t :=
  if bool_decide (video_id v ∈ queued_ids s) then (PyNone, s)
  else
    let s := set_video_queue (video_queue s ++ [v]) s in
    let s := _add_queue_item v s in
    (PyNone, set_download_btn_enabled true s).

Definition _remove_from_queue (vid : string) (s : t) : t :=
  let s := set_video_queue
             (List.filter (fun v => negb (String.eqb (video_id v) vid))
                          (video_queue s)) s in
  let s :=
    match Dict.get vid (queue_items s) with
    | Some h =>
        let s := set_video_layout
                   (List.filter (fun h' => negb (Nat.eqb h' h)) (video_layout s)) s in
        let s := set_widgets (delete h (widgets s)) s in
        set_queue_items (Dict.del vid (queue_items s)) s
    | None => s
    end in
  let s := set_selected_videos (selected_videos s ∖ {[vid]}) s in
  if (List.length (video_queue s) =? 0)%nat then
    let s := set_download_btn_enabled false s in
    let s := set_is_queue_mode false s in
    set_viewing_single_in_queue false s
  else s.

Definition _on_item_selection_changed (vid : string) (selected : bool) (s : t) : t :=
  if selected then set_selected_videos ({[vid]} ∪ selected_videos s) s
  else set_selected_videos (selected_videos s ∖ {[vid]}) s.

(** [VideoQueueItem.set_selected] on the widget with handle [h].  Changing
    the check box makes it emit [selection_changed], which is connected to
    [_on_item_selection_changed] and runs at once. *)
Definition set_selected (h : nat) (selected : bool) (s : t) : t :=
  match widgets s !! h with
  | Some (ItemWidget it) =>
      let it' := VideoQueueItem.mk (VideoQueueItem.video_info it) selected selected
                   (VideoQueueItem.progress_bar_visible it)
                   (VideoQueueItem.progress_bar_value it)
                   (VideoQueueItem.status_label_visible it)
                   (VideoQueueItem.status_label it) in
      let s := set_widgets (<[h := ItemWidget it']> (widgets s)) s in
      if Bool.eqb (VideoQueueItem.checkbox it) selected then s
      else _on_item_selection_changed
             (video_id (VideoQueueItem.video_info it)) selected s
  | _ => s
  end.

Definition _delete_selected (s : t) : t :=
  let s := foldl (fun s vid => _remove_from_queue vid s) s
                 (elements (selected_videos s)) in
  set_selected_videos ∅ s.

Definition _cancel_selection (s : t) : t :=
  let s := foldl (fun s vid =>
                    match Dict.get vid (queue_items s) with
                    | Some h => set_selected h false s
                    | None => s
                    end) s (elements (selected_videos s)) in
  set_selected_videos ∅ s.

Definition _on_queue_item_clicked (vid : string) (s : t) : t :=
  if negb (is_queue_mode s) then s
  else
    match List.find (fun v => String.eqb (video_id v) vid) (video_queue s) with
    | None => s
    | Some video_info =>
        let s := set_viewing_single_in_queue true s in
        let s := _clear_video_display s in
        _display_single_video video_info s
    end.

Definition _back_to_queue (s : t) : t :=
  if negb (viewing_single_in_queue s) || negb (is_queue_mode s) then s
  else
    let s := set_viewing_single_in_queue false s in
    let s := _clear_video_display s in
    foldl (fun s v => _add_queue_item v s) s (video_queue s).

Definition _toggle_mode (s : t) : t :=
  match video_queue s with
  | [] => s
  | first :: _ =>
      let s := set_is_queue_mode (negb (is_queue_mode s)) s in
      let s := set_viewing_single_in_queue false s in
      if is_queue_mode s then
        let s := _clear_video_display s in
        foldl (fun s v => _add_queue_item v s) s (video_queue s)
      else
        let s := _clear_video_display s in
        _display_single_video first s
  end.

Definition _on_video_info_fetched (video_info : VideoInfo) (s : t) : t :=
  if is_queue_mode s then snd (_add_to_queue video_info s)
  else
    let s := _clear_video_display s in
    let s := set_video_queue [video_info] s in
    let s := _display_single_video video_info s in
    set_download_btn_enabled true s.

Definition _on_playlist_fetched (videos : list VideoInfo) (s : t) : t :=
  let s := _clear_video_display s in
  let s := set_video_queue videos s in
  let s := set_is_queue_mode true s in
  let s := set_viewing_single_in_queue false s in
  let s := foldl (fun s v => _add_queue_item v s) s videos in
  set_download_btn_enabled (0 <? List.length videos)%nat s.

Definition _browse_output (directory : string) (s : t) : t :=
  if String.eqb directory "" then s else set_output_directory directory s.

(** One round of the loop (or the single branch) of [_start_download]:
    create the worker, keep it, start it, and initialise its progress. *)
Definition new_worker (o : download_options) (video : VideoInfo) (s : t)
  : DownloadWorker.t :=
  DownloadWorker.mk (video_id video) (output_directory s)
    (opt_format_type o) (opt_quality o) (opt_container_format o).

Definition start_worker (o : download_options) (video : VideoInfo) (s : t) : t :=
  let worker := new_worker o video s in
  let s := set_download_workers (download_workers s ++ [worker]) s in
  set_download_progress (<[video_id video := 0%Q]> (download_progress s)) s.

Definition bulk_view (s : t) : bool :=
  is_queue_mode s && negb (viewing_single_in_queue s).

Definition _start_download (o : download_options) (s : t) : t :=
  match video_queue s with
  | [] => s
  | first :: _ =>
      if bulk_view s then
        let s := set_download_btn_enabled false s in
        let s := set_progress_bar_visible true s in
        let s := set_progress_bar_value 0 s in
        let s := set_active_downloads (Z.of_nat (List.length (video_queue s))) s in
        let s := set_total_downloads (Z.of_nat (List.length (video_queue s))) s in
        let s := set_download_progress ∅ s in
        let s := set_download_workers [] s in
        let s := set_status_label
                   ("Starting " +:+ str (total_downloads s) +:+ " downloads...") s in
        foldl (fun s video => start_worker o video s) s (video_queue s)
      else
        let s := set_download_btn_enabled false s in
        let s := set_progress_bar_visible true s in
        let s := set_progress_bar_value 0 s in
        let s := set_status_label "Starting download..." s in
        let s := set_active_downloads 1 s in
        let s := set_total_downloads 1 s in
        let s := set_download_progress ∅ s in
        let s := set_download_workers [] s in
        start_worker o first s
  end.

(** [sum(d.values())]. *)
Definition values (d : gmap string Q) : list Q := (map_to_list d).*2.
Definition sum (l : list Q) : Q := foldl Qplus 0%Q l.

(** The local [avg_progress] of [_on_download_progress]. *)
Definition avg_progress (d : gmap string Q) : Q :=
  (sum (values d) / inject_Z (Z.of_nat (size d)))%Q.

Definition counts_line (s : t) : string :=
  "Downloading " +:+ str (active_downloads s) +:+ " files... (" +:+
  str (total_downloads s - active_downloads s) +:+ "/" +:+
  str (total_downloads s) +:+ " completed)".

Definition _on_download_progress (vid : string) (percentage : Q)
    (speed eta : string) (s : t) : t :=
  let s := set_download_progress (<[vid := percentage]> (download_progress s)) s in
  let s := with_item vid (VideoQueueItem.update_progress percentage speed eta) s in
  if (size (download_progress s) =? 0)%nat then s
  else
    let s := set_progress_bar_value (int (avg_progress (download_progress s))) s in
    if bulk_view s then set_status_label (counts_line s) s
    else set_status_label ("Speed: " +:+ speed +:+ " | ETA: " +:+ eta) s.

(** The generator expression under [all(...)]. *)
Definition all_success (s : t) : bool :=
  forallb (fun v =>
             match item_of s (video_id v) with
             | Some it => startswith (VideoQueueItem.status_label it) "✓"
             | None => true
             end)
          (List.filter (fun v => Dict.mem (video_id v) (queue_items s))
                       (video_queue s)).

Definition _on_download_finished (vid : string) (success : bool)
    (message : string) (s : t) : t :=
  let s := set_active_downloads (active_downloads s - 1) s in
  let s :=
    if success then with_item vid VideoQueueItem.mark_completed s
    else with_item vid
           (VideoQueueItem.mark_failed (replace message "Download failed: " "")) s in
  if active_downloads s <=? 0 then
    let s := set_download_btn_enabled true s in
    let s := set_progress_bar_visible false s in
    if all_success s then
      let text := "All " +:+ str (total_downloads s) +:+
                  " downloads completed successfully!" in
      let s := set_status_label text s in
      let s := set_dialogs (dialogs s ++ [information "Success" text]) s in
      if bulk_view s then
        foldl (fun s vid => _remove_from_queue vid s) s (Dict.keys (queue_items s))
      else s
    else
      let s := set_status_label
                 "Downloads completed with some errors. Check individual statuses." s in
      set_dialogs
        (dialogs s ++
         [warning "Completed with Errors"
            (str (total_downloads s - active_downloads s) +:+
             " downloads completed, but some had errors. Check the queue for details.")])
        s
  else set_status_label (counts_line s) s.

(** *** Events of the main window

    Each event is one slot invocation on the coordinating thread.  A queue
    item can only be operated while it is a child of the display area. *)
Inductive event : Type :=
  | info_fetched (v : VideoInfo)
  | playlist_fetched (videos : list VideoInfo)
  | delete_clicked (h : nat)
  | checkbox_clicked (h : nat)
  | item_clicked (h : nat)
  | delete_selected_clicked
  | cancel_selection_clicked
  | back_clicked
  | toggle_mode_clicked
  | browse_chosen (directory : string)
  | download_clicked (o : download_options)
  | worker_signal (sg : signal).

(** The queue item behind a handle that is on display. *)
Definition shown_item (s : t) (h : nat) : option VideoQueueItem.t :=
  if bool_decide (h ∈ video_layout s) then
    match widgets s !! h with
    | Some (ItemWidget it) => Some it
    | _ => None
    end
  else None.

(** The user ticks or unticks the check box of item [h]. *)
Definition checkbox_toggled (h : nat) (it : VideoQueueItem.t) (s : t) : t :=
  let b := negb (VideoQueueItem.checkbox it) in
  let it' := VideoQueueItem.mk (VideoQueueItem.video_info it)
               (VideoQueueItem.is_selected it) b
               (VideoQueueItem.progress_bar_visible it)
               (VideoQueueItem.progress_bar_value it)
               (VideoQueueItem.status_label_visible it)
               (VideoQueueItem.status_label it) in
  let s := set_widgets (<[h := ItemWidget it']> (widgets s)) s in
  _on_item_selection_changed (video_id (VideoQueueItem.video_info it)) b s.

Definition deliver (sg : signal) (s : t) : t :=
  match sg with
  | progress vid percentage speed eta => _on_download_progress vid percentage speed eta s
  | finished vid success message => _on_download_finished vid success message s
  end.

Definition handle (e : event) (s : t) : t :=
  match e with
  | info_fetched v => _on_video_info_fetched v s
  | playlist_fetched videos => _on_playlist_fetched videos s
  | delete_clicked h =>
      match shown_item s h with
      | Some it => _remove_from_queue (video_id (VideoQueueItem.video_info it)) s
      | None => s
      end
  | checkbox_clicked h =>
      match shown_item s h with
      | Some it => checkbox_toggled h it s
      | None => s
      end
  | item_clicked h =>
      match shown_item s h with
      | Some it => _on_queue_item_clicked (video_id (VideoQueueItem.video_info it)) s
      | None => s
      end
  | delete_selected_clicked => _delete_selected s
  | cancel_selection_clicked => _cancel_selection s
  | back_clicked => _back_to_queue s
  | toggle_mode_clicked => _toggle_mode s
  | browse_chosen directory => _browse_output directory s
  | download_clicked o => _start_download o s
  | worker_signal sg => deliver sg s
  end.

(** Run a sequence of events, oldest first. *)
Definition run_events (es : list event) (s : t) : t :=
  foldl (fun s e => handle e s) s es.

Definition deliver_all (sgs : list signal) (s : t) : t :=
  foldl (fun s sg => deliver sg s) s sgs.

End YouTubeDownloader.

(* ===================================================================== *)
(** ** Notions used to state the properties                               *)
(* ===================================================================== *)

(** The decimal digit [d] as a character, for [0 <= d <= 9]. *)
Definition digit_char (d : Z) : ascii := ascii_of_nat (48 + Z.to_nat d).

(** The field [MM] or [SS] of a rendered duration: exactly two digits. *)
Definition two_digits (m : Z) : string :=
  String (digit_char (m / 10)) (String (digit_char (m mod 10)) "").

Definition is_digit (c : ascii) : bool :=
  (48 <=? nat_of_ascii c)%nat && (nat_of_ascii c <=? 57)%nat.

(** A height as it appears in a quality such as [720p]: decimal digits. *)
Fixpoint all_digits (s : string) : bool :=
  match s with
  | EmptyString => true
  | String c s' => is_digit c && all_digits s'
  end.

(** The selector for the best video of height at most [h] merged with the
    best audio. *)
Definition height_selector (h : string) : string :=
  "bestvideo[height<=" +:+ h +:+ "]+bestaudio/best[height<=" +:+ h +:+ "]".

Definition is_finished (sg : signal) : bool :=
  match sg with
  | finished _ _ _ => true
  | progress _ _ _ _ => false
  end.

Definition is_progress (sg : signal) : bool := negb (is_finished sg).

(** The video id a signal carries. *)
Definition signal_vid (sg : signal) : string :=
  match sg with
  | progress vid _ _ _ => vid
  | finished vid _ _ => vid
  end.

(** How many terminal events a sequence of signals contains. *)
Definition terminal_count (l : list signal) : nat :=
  List.length (List.filter is_finished l).

(** The emissions of one task: progress events, then one terminal event. *)
Definition task_stream (l : list signal) : Prop :=
  exists ps sg,
    l = ps ++ [sg] /\ Forall (fun p => is_progress p = true) ps /\
    is_finished sg = true.

(** The records that a press of the download button turns into tasks: the
    whole queue in the bulk view, the first record otherwise. *)
Definition batch_records (s : YouTubeDownloader.t) : list VideoInfo :=
  if YouTubeDownloader.bulk_view s then YouTubeDownloader.video_queue s
  else take 1 (YouTubeDownloader.video_queue s).

(** [interleaving streams evs]: [evs] delivers every signal of every stream,
    each stream in its own order, with no order imposed across streams. *)
Inductive interleaving : list (list signal) -> list signal -> Prop :=
  | interleaving_done (streams : list (list signal)) :
      Forall (fun st => st = []) streams -> interleaving streams []
  | interleaving_next (streams : list (list signal)) (i : nat) (sg : signal)
      (rest evs : list signal) :
      streams !! i = Some (sg :: rest) ->
      interleaving (<[i := rest]> streams) evs ->
      interleaving streams (sg :: evs).

(** The signals that carry one video id within a delivery sequence. *)
Definition signals_of (vid : string) (l : list signal) : list signal :=
  List.filter (fun sg => String.eqb (signal_vid sg) vid) l.

(** *** Concrete inputs *)

Definition sample_worker : DownloadWorker.t :=
  DownloadWorker.mk "abc" "/home/user/Downloads" "video" "720p" "mp4".

(** A tick whose estimated total is below the bytes already received. *)
Definition overshoot_tick : progress_dict :=
  mkTick "downloading" None (Some (PyNum 100)) (Some (PyNum 150)) None None.

Definition halfway_tick : progress_dict :=
  mkTick "downloading" (Some (PyNum 200)) None (Some (PyNum 100))
         (Some (PyNum 2048)) (Some (PyNum 125)).

(** An engine that reports one tick and then succeeds. *)
Definition overshoot_engine : engine_script := mkEngine [overshoot_tick] None.
Definition halfway_engine : engine_script := mkEngine [halfway_tick] None.

(** The attributes of the batch that the queue operations leave alone. *)
Definition same_batch (s s' : YouTubeDownloader.t) : Prop :=
  YouTubeDownloader.active_downloads s' = YouTubeDownloader.active_downloads s /\
  YouTubeDownloader.total_downloads s' = YouTubeDownloader.total_downloads s /\
  YouTubeDownloader.download_progress s' = YouTubeDownloader.download_progress s /\
  YouTubeDownloader.download_workers s' = YouTubeDownloader.download_workers s /\
  YouTubeDownloader.output_directory s' = YouTubeDownloader.output_directory s.

(** A stream of a task that is under way: nothing left, or progress events
    and the terminal event still to come. *)
Definition pending_stream (st : list signal) : Prop := st = [] \/ task_stream st.

Definition video_a : VideoInfo :=
  mkVideoInfo "aaa" "First" "Ann" "1:05" "https://i.ytimg.com/vi/aaa/hqdefault.jpg".
Definition video_b : VideoInfo :=
  mkVideoInfo "bbb" "Second" "Bob" "0:00" "https://i.ytimg.com/vi/bbb/hqdefault.jpg".
Definition video_c : VideoInfo :=
  mkVideoInfo "ccc" "Third" "Cy" "1:01:01" "https://i.ytimg.com/vi/ccc/hqdefault.jpg".

Definition sample_options : download_options := mkOptions "video" "720p" "mp4".

(** The main window right after start-up. *)
Definition fresh_window : YouTubeDownloader.t :=
  YouTubeDownloader.init "/home/user/Downloads".

(** The main window after a playlist of three videos was fetched. *)
Definition playlist_window : YouTubeDownloader.t :=
  YouTubeDownloader.run_events
    [YouTubeDownloader.playlist_fetched [video_a; video_b; video_c]]
    fresh_window.

(** The counters and the output directory agree in two states. *)
Definition same_batch_counts (s s' : YouTubeDownloader.t) : Prop :=
  YouTubeDownloader.active_downloads s' = YouTubeDownloader.active_downloads s /\
  YouTubeDownloader.total_downloads s' = YouTubeDownloader.total_downloads s /\
  YouTubeDownloader.output_directory s' = YouTubeDownloader.output_directory s.

(** The progress map after a sequence of signals, and the latest percentage
    among the signals of one task. *)
Definition apply_progress (d : gmap string Q) (l : list signal) : gmap string Q :=
  foldl (fun d sg =>
           match sg with
           | progress vid p _ _ => <[vid := p]> d
           | finished _ _ _ => d
           end) d l.

Definition latest (l : list signal) (before : option Q) : option Q :=
  foldl (fun acc sg =>
           match sg with
           | progress _ p _ _ => Some p
           | finished _ _ _ => acc
           end) before l.

(** A percentage in the range of a progress bar. *)
Definition in_range (q : Q) : Prop := (0 <= q)%Q /\ (q <= 100)%Q.

(** The main window showing one fetched video, and the same window after
    the download was started and the first signal of a run on
    [overshoot_engine] was delivered. *)
Definition single_window : YouTubeDownloader.t :=
  YouTubeDownloader.run_events [YouTubeDownloader.info_fetched video_a]
    fresh_window.

Definition overshoot_window : YouTubeDownloader.t :=
  YouTubeDownloader.deliver_all
    (take 1 (DownloadWorker.run
               (YouTubeDownloader.new_worker sample_options video_a single_window)
               overshoot_engine None))
    (YouTubeDownloader._start_download sample_options single_window).

(** Two tasks' progress events, in two delivery orders. *)
Definition order_ab : list signal :=
  [progress "aaa" 10 "1 B/s" "9s"; progress "bbb" 30 "1 B/s" "7s";
   progress "aaa" 50 "1 B/s" "5s"].
Definition order_ba : list signal :=
  [progress "aaa" 10 "1 B/s" "9s"; progress "aaa" 50 "1 B/s" "5s";
   progress "bbb" 30 "1 B/s" "7s"].

Definition video_d : VideoInfo :=
  mkVideoInfo "ddd" "Fourth" "Di" "2:00" "https://i.ytimg.com/vi/ddd/hqdefault.jpg".

(** A fetched playlist that lists the same video twice. *)
Definition duplicate_window : YouTubeDownloader.t :=
  YouTubeDownloader.run_events
    [YouTubeDownloader.playlist_fetched [video_a; video_a]] fresh_window.

(** ... then one of the two frames is deleted with its button, and the
    check box of the frame that is still shown is ticked. *)
Definition orphan_window : YouTubeDownloader.t :=
  YouTubeDownloader.run_events
    [YouTubeDownloader.delete_clicked 1; YouTubeDownloader.checkbox_clicked 0]
    duplicate_window.

(** A download of the single video shown, which then fails. *)
Definition failed_single_window : YouTubeDownloader.t :=
  YouTubeDownloader.run_events
    [YouTubeDownloader.download_clicked sample_options;
     YouTubeDownloader.worker_signal
       (finished "aaa" false "Download failed: HTTP Error 403: Forbidden")]
    single_window.

(** A bulk download of three records: two succeed, one fails. *)
Definition partial_failure_window : YouTubeDownloader.t :=
  YouTubeDownloader.run_events
    [YouTubeDownloader.download_clicked sample_options;
     YouTubeDownloader.worker_signal
       (finished "bbb" true "Download completed successfully!");
     YouTubeDownloader.worker_signal
       (finished "aaa" false "Download failed: HTTP Error 403: Forbidden");
     YouTubeDownloader.worker_signal
       (finished "ccc" true "Download completed successfully!")]
    playlist_window.

(** A bulk download of three records that all succeed. *)
Definition all_success_window : YouTubeDownloader.t :=
  YouTubeDownloader.run_events
    [YouTubeDownloader.download_clicked sample_options;
     YouTubeDownloader.worker_signal
       (finished "bbb" true "Download completed successfully!");
     YouTubeDownloader.worker_signal
       (finished "aaa" true "Download completed successfully!");
     YouTubeDownloader.worker_signal
       (finished "ccc" true "Download completed successfully!")]
    playlist_window.

(** From the playlist, the first item is opened in the single view and a
    further video is fetched, which joins the queue. *)
Definition mixed_view_window : YouTubeDownloader.t :=
  YouTubeDownloader.run_events
    [YouTubeDownloader.item_clicked 0; YouTubeDownloader.info_fetched video_d]
    playlist_window.

(** ... and the download started from there succeeds. *)
Definition mixed_view_done_window : YouTubeDownloader.t :=
  YouTubeDownloader.run_events
    [YouTubeDownloader.download_clicked sample_options;
     YouTubeDownloader.worker_signal
       (finished "aaa" true "Download completed successfully!")]
    mixed_view_window.

(** The states the main window can be in: those reached from start-up by
    some sequence of events. *)
Definition reachable (s : YouTubeDownloader.t) : Prop :=
  exists dir es, s = YouTubeDownloader.run_events es (YouTubeDownloader.init dir).

(** Every registered queue item belongs to a queued record, and no queue
    item is registered in single mode. *)
Definition registered_ok (s : YouTubeDownloader.t) : Prop :=
  (forall k, k ∈ Dict.keys (YouTubeDownloader.queue_items s) ->
             k ∈ YouTubeDownloader.queued_ids s) /\
  (YouTubeDownloader.is_queue_mode s = false ->
   YouTubeDownloader.queue_items s = []).

(** The queue, the registry of items and the mode agree in two states. *)
Definition same_queue (s s' : YouTubeDownloader.t) : Prop :=
  YouTubeDownloader.video_queue s' = YouTubeDownloader.video_queue s /\
  YouTubeDownloader.queue_items s' = YouTubeDownloader.queue_items s /\
  YouTubeDownloader.is_queue_mode s' = YouTubeDownloader.is_queue_mode s /\
  YouTubeDownloader.viewing_single_in_queue s' =
    YouTubeDownloader.viewing_single_in_queue s.

(** ... and the download started from that mixed view fails. *)
Definition mixed_view_failed_window : YouTubeDownloader.t :=
  YouTubeDownloader.run_events
    [YouTubeDownloader.download_clicked sample_options;
     YouTubeDownloader.worker_signal
       (finished "aaa" false "Download failed: HTTP Error 403: Forbidden")]
    mixed_view_window.

(** What the selection needs of the view: selected ids are queued; every
    displayed queue item is the one registered under its own id; handles on
    display are below the next free handle; queued ids are distinct. *)
Definition view_ok (q : list VideoInfo) (items : list (string * nat))
    (w : gmap nat widget) (n : nat) (layout : list nat) (sel : gset string)
  : Prop :=
  (forall k, k ∈ sel -> k ∈ video_id <$> q) /\
  (forall h it, h ∈ layout -> w !! h = Some (ItemWidget it) ->
     Dict.get (video_id (VideoQueueItem.video_info it)) items = Some h) /\
  (forall h, h ∈ layout -> (h < n)%nat) /\
  NoDup (video_id <$> q).

Definition selection_ok (s : YouTubeDownloader.t) : Prop :=
  view_ok (YouTubeDownloader.video_queue s) (YouTubeDownloader.queue_items s)
    (YouTubeDownloader.widgets s) (YouTubeDownloader.next_handle s)
    (YouTubeDownloader.video_layout s) (YouTubeDownloader.selected_videos s).

(** A fetched playlist lists no video twice. *)
Definition distinct_ids (e : YouTubeDownloader.event) : Prop :=
  match e with
  | YouTubeDownloader.playlist_fetched videos => NoDup (video_id <$> videos)
  | _ => True
  end.

(** The streams of the three tasks of the playlist batch, each on an engine
    that reports one tick and succeeds, and one order of delivery. *)
Definition sample_stream (vid : string) : list signal :=
  [progress vid (100 / 200 * 100) "2.0 KB/s" "2m 5s";
   finished vid true "Download completed successfully!"].

Definition sample_streams : list (list signal) :=
  [sample_stream "aaa"; sample_stream "bbb"; sample_stream "ccc"].

Definition sample_delivery : list signal :=
  [progress "aaa" (100 / 200 * 100) "2.0 KB/s" "2m 5s";
   progress "bbb" (100 / 200 * 100) "2.0 KB/s" "2m 5s";
   finished "aaa" true "Download completed successfully!";
   progress "ccc" (100 / 200 * 100) "2.0 KB/s" "2m 5s";
   finished "ccc" true "Download completed successfully!";
   finished "bbb" true "Download completed successfully!"].

(** Another order of delivery of the same streams. *)
Definition sample_delivery_2 : list signal :=
  [progress "ccc" (100 / 200 * 100) "2.0 KB/s" "2m 5s";
   finished "ccc" true "Download completed successfully!";
   progress "aaa" (100 / 200 * 100) "2.0 KB/s" "2m 5s";
   progress "bbb" (100 / 200 * 100) "2.0 KB/s" "2m 5s";
   finished "bbb" true "Download completed successfully!";
   finished "aaa" true "Download completed successfully!"].

(** *** Further concrete inputs *)

(** A tick whose total is missing while its estimate is [None]. *)
Definition unknown_estimate_tick : progress_dict :=
  mkTick "downloading" None (Some PyNone) (Some (PyNum 10)) None None.

(** Two ticks, then success. *)
Definition two_tick_engine : engine_script :=
  mkEngine [halfway_tick; overshoot_tick] None.

(** Two ticks, then an error of the engine. *)
Definition failing_engine : engine_script :=
  mkEngine [halfway_tick; overshoot_tick] (Some "HTTP Error 403: Forbidden").

(** In the single view of a queue item the window is in queue mode. *)
Definition mode_ok (s : YouTubeDownloader.t) : Prop :=
  YouTubeDownloader.viewing_single_in_queue s = true ->
  YouTubeDownloader.is_queue_mode s = true.

(** A playlist is fetched and the check box of its second item is ticked. *)
Definition ticked_events : list YouTubeDownloader.event :=
  [YouTubeDownloader.playlist_fetched [video_a; video_b; video_c];
   YouTubeDownloader.checkbox_clicked 1].

(** The playlist batch with the tasks of [bbb] and [ccc] done and the task
    of [aaa] still active. *)
Definition one_left_window : YouTubeDownloader.t :=
  YouTubeDownloader.run_events
    [YouTubeDownloader.download_clicked sample_options;
     YouTubeDownloader.worker_signal
       (finished "bbb" true "Download completed successfully!");
     YouTubeDownloader.worker_signal
       (finished "ccc" true "Download completed successfully!")]
    playlist_window.

(** *** Inputs with overlapping downloads and late changes of the queue *)

(** A tick with 30 of 100 bytes received, and an engine that reports it and
    then succeeds. *)
Definition thirty_tick : progress_dict :=
  mkTick "downloading" (Some (PyNum 100)) None (Some (PyNum 30)) None None.
Definition thirty_engine : engine_script := mkEngine [thirty_tick] None.

(** Single mode: a video is fetched and its download is started. *)
Definition first_batch_window : YouTubeDownloader.t :=
  YouTubeDownloader.run_events
    [YouTubeDownloader.info_fetched video_a;
     YouTubeDownloader.download_clicked sample_options]
    fresh_window.

(** ... the progress event of its task arrives, and a second video is
    fetched while the task is still running. *)
Definition refetched_window : YouTubeDownloader.t :=
  YouTubeDownloader.run_events
    [YouTubeDownloader.worker_signal
       (progress "aaa" (100 / 200 * 100) "2.0 KB/s" "2m 5s");
     YouTubeDownloader.info_fetched video_b]
    first_batch_window.

(** ... the download button is pressed again. *)
Definition second_batch_window : YouTubeDownloader.t :=
  YouTubeDownloader.run_events
    [YouTubeDownloader.download_clicked sample_options] refetched_window.

(** ... the first task ends. *)
Definition count_zero_window : YouTubeDownloader.t :=
  YouTubeDownloader.run_events
    [YouTubeDownloader.worker_signal
       (finished "aaa" true "Download completed successfully!")]
    second_batch_window.

(** ... the progress event of the second task arrives. *)
Definition late_progress_window : YouTubeDownloader.t :=
  YouTubeDownloader.run_events
    [YouTubeDownloader.worker_signal
       (progress "bbb" (100 / 200 * 100) "2.0 KB/s" "2m 5s")]
    count_zero_window.

(** ... and the second task ends. *)
Definition overlap_end_window : YouTubeDownloader.t :=
  YouTubeDownloader.run_events
    [YouTubeDownloader.worker_signal
       (finished "bbb" true "Download completed successfully!")]
    late_progress_window.

(** The two tasks of the batch started from [duplicate_window], one on each
    engine, and two orders in which their signals may be delivered. *)
Definition duplicate_streams : list (list signal) :=
  [DownloadWorker.run
     (DownloadWorker.mk "aaa" "/home/user/Downloads" "video" "720p" "mp4")
     halfway_engine None;
   DownloadWorker.run
     (DownloadWorker.mk "aaa" "/home/user/Downloads" "video" "720p" "mp4")
     thirty_engine None].

Definition duplicate_order_1 : list signal :=
  [progress "aaa" (100 / 200 * 100) "2.0 KB/s" "2m 5s";
   progress "aaa" (30 / 100 * 100) "0 B/s" "Unknown";
   finished "aaa" true "Download completed successfully!";
   finished "aaa" true "Download completed successfully!"].

Definition duplicate_order_2 : list signal :=
  [progress "aaa" (30 / 100 * 100) "0 B/s" "Unknown";
   progress "aaa" (100 / 200 * 100) "2.0 KB/s" "2m 5s";
   finished "aaa" true "Download completed successfully!";
   finished "aaa" true "Download completed successfully!"].

(** From the playlist, the first item is opened in the single view. *)
Definition opened_item_window : YouTubeDownloader.t :=
  YouTubeDownloader.run_events [YouTubeDownloader.item_clicked 0] playlist_window.

(** ... its download is started, a further video is fetched while the task
    runs, and the task fails. *)
Definition late_fetch_window : YouTubeDownloader.t :=
  YouTubeDownloader.run_events
    [YouTubeDownloader.download_clicked sample_options;
     YouTubeDownloader.info_fetched video_d;
     YouTubeDownloader.worker_signal
       (finished "aaa" false "Download failed: HTTP Error 403: Forbidden")]
    opened_item_window.

(** A bulk download of three records in which the first task fails, its
    queue item is deleted with its button, and the other two succeed. *)
Definition deleted_failure_window : YouTubeDownloader.t :=
  YouTubeDownloader.run_events
    [YouTubeDownloader.download_clicked sample_options;
     YouTubeDownloader.worker_signal
       (finished "aaa" false "Download failed: HTTP Error 403: Forbidden");
     YouTubeDownloader.delete_clicked 0;
     YouTubeDownloader.worker_signal
       (finished "bbb" true "Download completed successfully!");
     YouTubeDownloader.worker_signal
       (finished "ccc" true "Download completed successfully!")]
    playlist_window.

(** [m] is the integer nearest to [v]: the distance is below one half, or
    it is exactly one half and [m] is the even one of the two candidates. *)
Definition nearest_even (v : Q) (m : Z) : Prop :=
  (Qabs (v - inject_Z m) < 1 # 2)%Q \/
  ((Qabs (v - inject_Z m) == 1 # 2)%Q /\ Z.even m = true).

(* ===================================================================== *)
(** ** Further code: the options handed to the engine, the option lists   *)
(**    of the window, and the metadata fetcher                            *)
(* ===================================================================== *)

(** The rest of the options that [DownloadWorker.run] builds. *)
Module DownloadOptions.

Inductive postprocessor : Type :=
  | FFmpegExtractAudio (preferredcodec preferredquality : string)
  | FFmpegVideoConvertor (preferedformat : string).

(** The local [quality_map]. *)
Definition quality_map : list (string * string) :=
  [("320 kbps", "320"); ("256 kbps", "256"); ("192 kbps", "192");
   ("128 kbps", "128"); ("96 kbps", "96")].

(** [quality_map.get(self.quality, "192")]. *)
Definition bitrate (self : DownloadWorker.t) : string :=
  match Dict.get (DownloadWorker.quality self) quality_map with
  | Some b => b
  | None => "192"
  end.

(** [ydl_opts['postprocessors']], the empty list when the key is not set. *)
Definition postprocessors (self : DownloadWorker.t) : list postprocessor :=
  if String.eqb (DownloadWorker.format_type self) "audio" then
    [FFmpegExtractAudio (DownloadWorker.container_format self) (bitrate self)]
  else if negb (String.eqb (DownloadWorker.container_format self) "mp4") then
    [FFmpegVideoConvertor (DownloadWorker.container_format self)]
  else [].

(** [ydl_opts['merge_output_format']], when set. *)
Definition merge_output_format (self : DownloadWorker.t) : option string :=
  if String.eqb (DownloadWorker.format_type self) "audio" then None
  else Some (DownloadWorker.container_format self).

End DownloadOptions.

(** The items of the two combo boxes; the argument is
    [self.video_radio.isChecked()]. *)
Module Combo.

Definition _update_format_options (video : bool) : list string :=
  if video then ["mp4"; "mkv"; "webm"; "avi"; "mov"]
  else ["mp3"; "m4a"; "opus"; "wav"; "flac"].

Definition _update_quality_options (video : bool) : list string :=
  if video then ["highest"; "1080p"; "720p"; "480p"; "360p"; "240p"; "144p"]
  else ["320 kbps"; "256 kbps"; "192 kbps"; "128 kbps"; "96 kbps"].

(** [format_type] as [_start_download] computes it. *)
Definition format_type (video : bool) : string :=
  if video then "video" else "audio".

End Combo.

(** [VideoInfoFetcher.run].  What the engine reports for one video: each key
    is absent or, when present, holds a string ([duration]: a number or
    [None]). *)
Record entry_dict : Type := mkEntry {
  entry_id : option string;
  entry_title : option string;
  entry_uploader : option string;
  entry_duration : option pyval
}.

(** The outcome of [ydl.extract_info]: an exception, a result with the key
    [entries] (a null or empty entry is [None]), or a result without it. *)
Inductive extraction : Type :=
  | ExtractionError (msg : string)
  | PlaylistResult (entries : list (option entry_dict))
  | VideoResult (info : entry_dict).

Module FetcherRun.

(** The three signals of the fetcher. *)
Inductive fetch_signal : Type :=
  | info_fetched (v : VideoInfo)
  | playlist_fetched (videos : list VideoInfo)
  | error_occurred (msg : string).

Definition get_str (entry : option string) (default : string) : string :=
  match entry with
  | Some v => v
  | None => default
  end.

(** The [VideoInfo] built from an entry, in either branch. *)
Definition video_info_of (d : entry_dict) : VideoInfo :=
  let video_id := get_str (entry_id d) "" in
  mkVideoInfo video_id
    (get_str (entry_title d) "Unknown Title")
    (get_str (entry_uploader d) "Unknown")
    (VideoInfoFetcher._format_duration
       (get_default (entry_duration d) (PyNum 0)))
    ("https://i.ytimg.com/vi/" +:+ video_id +:+ "/hqdefault.jpg").

(** The loop over [info['entries']]: entries that are false are skipped. *)
Fixpoint collect (entries : list (option entry_dict)) : list VideoInfo :=
  match entries with
  | [] => []
  | None :: rest => collect rest
  | Some entry :: rest => video_info_of entry :: collect rest
  end.

(** The signals [run] emits. *)
Definition run (x : extraction) : list fetch_signal :=
  match x with
  | ExtractionError msg => [error_occurred msg]
  | PlaylistResult entries => [playlist_fetched (collect entries)]
  | VideoResult info => [info_fetched (video_info_of info)]
  end.

(** The slot of the main window a fetch signal is connected to;
    [_on_fetch_error] only shows a message box. *)
Definition to_event (sg : fetch_signal) : option YouTubeDownloader.event :=
  match sg with
  | info_fetched v => Some (YouTubeDownloader.info_fetched v)
  | playlist_fetched videos => Some (YouTubeDownloader.playlist_fetched videos)
  | error_occurred _ => None
  end.

End FetcherRun.

(** Two entries around a null one; the second has no id. *)
Definition sample_entries : list (option entry_dict) :=
  [Some (mkEntry (Some "aaa") (Some "First") (Some "Ann") (Some (PyNum 65)));
   None;
   Some (mkEntry None None None None)].

(* ===================================================================== *)
(** * Properties                                                         *)
(* ===================================================================== *)

(** ** Examples from the specification *)

Example duration_examples :
  VideoInfoFetcher._format_duration (PyNum 0) = "0:00" /\
  VideoInfoFetcher._format_duration (PyNum 65) = "1:05" /\
  VideoInfoFetcher._format_duration (PyNum 3661) = "1:01:01".
Proof. vm_compute. auto. Qed.

Example speed_examples :
  DownloadWorker._format_speed (PyNum 500) = "500 B/s" /\
  DownloadWorker._format_speed (PyNum 2048) = "2.0 KB/s" /\
  DownloadWorker._format_speed (PyNum 5000000) = "4.77 MB/s".
Proof. vm_compute. auto. Qed.

Example time_examples :
  DownloadWorker._format_time (PyNum 0) = "Unknown" /\
  DownloadWorker._format_time (PyNum (-3)) = "Unknown" /\
  DownloadWorker._format_time (PyNum 45) = "45s" /\
  DownloadWorker._format_time (PyNum 125) = "2m 5s" /\
  DownloadWorker._format_time (PyNum 3725) = "1h 2m 5s".
Proof. vm_compute. auto. Qed.

(** ** Arithmetic of the Python helpers on integers *)

Section PyArith.

Lemma int_inject_Z (z : Z) : int (inject_Z z) = z.
Proof.
  unfold int. destruct (Qle_bool 0 (inject_Z z)).
  - apply Qfloor_Z.
  - apply Qceiling_Z.
Qed.

Lemma floordiv_inject_Z (n m : Z) :
  floordiv (inject_Z n) (inject_Z m) = inject_Z (n / m).
Proof. unfold floordiv. now rewrite <- Zdiv_Qdiv. Qed.

Lemma pymod_inject_Z (n m : Z) :
  m <> 0 -> (pymod (inject_Z n) (inject_Z m) == inject_Z (n mod m))%Q.
Proof.
  intros Hm. unfold pymod. rewrite floordiv_inject_Z.
  rewrite (Z.mod_eq n m Hm).
  unfold Z.sub. rewrite inject_Z_plus, inject_Z_opp, inject_Z_mult. ring.
Qed.

Lemma floordiv_comp (a b c : Q) : (a == b)%Q -> floordiv a c = floordiv b c.
Proof.
  intros H. unfold floordiv. f_equal. apply Qfloor_comp. now rewrite H.
Qed.

Lemma int_comp (a b : Q) : (a == b)%Q -> int a = int b.
Proof.
  intros H. unfold int.
  assert (Hb : Qle_bool 0 a = Qle_bool 0 b).
  { apply eq_true_iff_eq. rewrite !Qle_bool_iff. now rewrite H. }
  rewrite Hb. destruct (Qle_bool 0 b).
  - now apply Qfloor_comp.
  - now apply Qceiling_comp.
Qed.

Lemma truthy_inject_Z (z : Z) : truthy (PyNum (inject_Z z)) = negb (z =? 0).
Proof.
  unfold truthy, Qeq_bool, inject_Z. simpl. now rewrite Z.mul_1_r.
Qed.

(** Zero padding to width two agrees with the two-digit field below 100. *)
Lemma format_0d_two_digits (m : Z) :
  0 <= m < 100 -> format_0d 2 m = two_digits m.
Proof.
  intros Hm.
  assert (Hall : forallb (fun k => String.eqb (format_0d 2 (Z.of_nat k))
                                     (two_digits (Z.of_nat k)))
                         (seq 0 100) = true) by (vm_compute; reflexivity).
  rewrite forallb_forall in Hall.
  specialize (Hall (Z.to_nat m)).
  rewrite Z2Nat.id in Hall by lia.
  apply String.eqb_eq, Hall, in_seq. lia.
Qed.

End PyArith.

(** ** Duration formatting *)

Section FormatDuration.

Import VideoInfoFetcher.

(** The three fields the formatter computes for an integer duration. *)
Lemma format_duration_fields (n : Z) :
  n <> 0 ->
  _format_duration (PyNum (inject_Z n)) =
    if 0 <? n / 3600
    then str (n / 3600) +:+ ":" +:+ format_0d 2 ((n mod 3600) / 60) +:+ ":" +:+
         format_0d 2 (n mod 60)
    else str ((n mod 3600) / 60) +:+ ":" +:+ format_0d 2 (n mod 60).
Proof.
  intros Hn. unfold _format_duration.
  rewrite truthy_inject_Z.
  destruct (Z.eqb_spec n 0) as [->|_]; [congruence|]. cbn [negb].
  change 3600%Q with (inject_Z 3600). change 60%Q with (inject_Z 60).
  rewrite floordiv_inject_Z, int_inject_Z.
  rewrite (floordiv_comp _ _ _ (pymod_inject_Z n 3600 ltac:(lia))).
  rewrite floordiv_inject_Z, int_inject_Z.
  rewrite (int_comp _ _ (pymod_inject_Z n 60 ltac:(lia))), int_inject_Z.
  reflexivity.
Qed.

(** C10: for a non-negative integer number of seconds, the formatter gives
    "0:00" for zero (and for an unknown duration), H:MM:SS from one hour on
    and M:SS below, where MM and SS are two-digit fields; 0, 65 and 3661
    render as "0:00", "1:05" and "1:01:01". *)
Theorem format_duration_correct (n : Z) :
  0 <= n ->
  _format_duration PyNone = "0:00" /\
  (n = 0 -> _format_duration (PyNum (inject_Z n)) = "0:00") /\
  (3600 <= n ->
   _format_duration (PyNum (inject_Z n)) =
     str (n / 3600) +:+ ":" +:+ two_digits ((n mod 3600) / 60) +:+ ":" +:+
     two_digits (n mod 60)) /\
  (0 < n < 3600 ->
   _format_duration (PyNum (inject_Z n)) =
     str (n / 60) +:+ ":" +:+ two_digits (n mod 60)) /\
  _format_duration (PyNum 0) = "0:00" /\
  _format_duration (PyNum 65) = "1:05" /\
  _format_duration (PyNum 3661) = "1:01:01".
Proof.
  intros Hn. split; [reflexivity|]. split; [now intros ->|].
  assert (Hs : 0 <= n mod 60 < 100) by (pose proof (Z.mod_pos_bound n 60); lia).
  split; [|split].
  - intros Hh. rewrite format_duration_fields by lia.
    assert (Hq : 0 < n / 3600) by (apply Z.div_str_pos; lia).
    destruct (Z.ltb_spec 0 (n / 3600)); [|lia].
    assert (Hm : 0 <= (n mod 3600) / 60 < 100).
    { pose proof (Z.mod_pos_bound n 3600).
      split; [apply Z.div_pos; lia|].
      apply Z.div_lt_upper_bound; lia. }
    now rewrite !format_0d_two_digits.
  - intros Hm. rewrite format_duration_fields by lia.
    rewrite (Z.div_small n 3600) by lia. rewrite (Z.mod_small n 3600) by lia.
    cbn [Z.ltb Z.compare]. now rewrite format_0d_two_digits.
  - repeat split; vm_compute; reflexivity.
Qed.

Lemma format_duration_correct_witness :
  0 <= 3725 /\
  _format_duration (PyNum (inject_Z 3725)) =
    str 1 +:+ ":" +:+ two_digits 2 +:+ ":" +:+ two_digits 5.
Proof.
  split; [lia|].
  exact (proj1 (proj2 (proj2 (format_duration_correct 3725 ltac:(lia))))
               ltac:(lia)).
Defined.

End FormatDuration.

(** ** The format selector *)

Section FormatSelector.

Import DownloadWorker.

Lemma is_digit_not_p (c : ascii) : is_digit c = true -> c <> "p"%char.
Proof. intros H ->. vm_compute in H. discriminate. Qed.

(** Removing every [p] from a height followed by [p] leaves the height. *)
Lemma replace_height (h : string) :
  all_digits h = true -> replace (h +:+ "p") "p" "" = h.
Proof.
  unfold replace. induction h as [|c h IH]; intros Hd.
  - reflexivity.
  - cbn [all_digits] in Hd. apply andb_prop in Hd as [Hc Hh].
    change (String c h +:+ "p") with (String c (h +:+ "p")).
    cbn [replace_from startswith].
    destruct (Ascii.eqb_spec "p" c) as [<-|_].
    + vm_compute in Hc. discriminate.
    + cbn [andb]. now rewrite IH.
Qed.

Lemma height_not_highest (h : string) : h +:+ "p" <> "highest".
Proof.
  intros E.
  do 8 (destruct h as [|? h]; [discriminate E|]).
  discriminate E.
Qed.

(** C5: the selector is determined by kind and quality: video/highest is
    the best video and audio merge, video/144p is "worst", video/Hp for any
    other height H is best video of height at most H merged with best audio,
    and audio with any quality is best audio; 720p is height-constrained. *)
Theorem format_string_correct (self : DownloadWorker.t) :
  (format_type self = "video" -> quality self = "highest" ->
   format_string self = "bestvideo+bestaudio/best") /\
  (format_type self = "video" -> quality self = "144p" ->
   format_string self = "worst") /\
  (forall h, format_type self = "video" -> all_digits h = true ->
   h <> "144" -> quality self = h +:+ "p" ->
   format_string self = height_selector h) /\
  (format_type self = "audio" -> format_string self = "bestaudio/best") /\
  (format_type self = "video" -> quality self = "720p" ->
   format_string self = "bestvideo[height<=720]+bestaudio/best[height<=720]").
Proof.
  assert (Hh : forall h, format_type self = "video" -> all_digits h = true ->
                h <> "144" -> quality self = h +:+ "p" ->
                format_string self = height_selector h).
  { intros h Hk Hd Hne Hq. unfold format_string. rewrite Hk, Hq.
    cbn [String.eqb Ascii.eqb Bool.eqb].
    destruct (String.eqb_spec (h +:+ "p") "highest") as [E|_];
      [now apply height_not_highest in E|].
    destruct (String.eqb_spec (h +:+ "p") "144p") as [E|_].
    - exfalso. apply Hne.
      do 3 (destruct h as [|? h]; [discriminate E|]).
      destruct h as [|? h]; [simpl in E; congruence|].
      destruct h; discriminate E.
    - now rewrite replace_height. }
  repeat split.
  - intros Hk Hq. unfold format_string. now rewrite Hk, Hq.
  - intros Hk Hq. unfold format_string. now rewrite Hk, Hq.
  - exact Hh.
  - intros Hk. unfold format_string. now rewrite Hk.
  - intros Hk Hq.
    apply (Hh "720"); [assumption | reflexivity | discriminate | assumption].
Qed.

Lemma format_string_correct_witness :
  format_string (DownloadWorker.mk "dQw4w9WgXcQ" "/tmp" "video" "1080p" "mp4")
  = height_selector "1080".
Proof.
  apply (proj1 (proj2 (proj2 (format_string_correct
           (DownloadWorker.mk "dQw4w9WgXcQ" "/tmp" "video" "1080p" "mp4"))))
         "1080");
    solve [reflexivity | discriminate].
Defined.

End FormatSelector.

(** ** The progress hook *)

Section ProgressHook.

Import DownloadWorker.

Lemma progress_hook_downloading (self : DownloadWorker.t) (d : progress_dict)
    (p : Q) :
  status d = "downloading" -> percentage_of d = Ok p ->
  _progress_hook self true d =
    Ok [progress (video_id self) p
          (_format_speed (get_default (speed d) (PyNum 0)))
          (_format_time (get_default (eta d) (PyNum 0)))].
Proof.
  intros Hs Hp. unfold _progress_hook. cbn [negb]. now rewrite Hs, Hp.
Qed.

(** Against C4 as stated: the hook does not clamp; 150 bytes received of an
    estimated 100 are reported as 150 percent. *)
Lemma progress_hook_overshoot :
  _progress_hook sample_worker true overshoot_tick =
    Ok [progress "abc" (150 / 100 * 100) "0 B/s" "Unknown"] /\
  ~ (150 / 100 * 100 <= 100)%Q.
Proof. split; [reflexivity|]. intros H. vm_compute in H. now apply H. Qed.

(** C4 (amended): for a tick with status "downloading" whose total is a
    number, the reported percentage is downloaded/total * 100 when the total
    is positive and 0 otherwise; it is not clamped, but it is non-negative
    when downloaded is, and at most 100 when downloaded is at most the total. *)
Theorem progress_hook_percentage (self : DownloadWorker.t) (d : progress_dict)
    (total : Q) :
  status d = "downloading" ->
  total_of d = PyNum total ->
  ((total <= 0)%Q ->
   _progress_hook self true d =
     Ok [progress (video_id self) 0
           (_format_speed (get_default (speed d) (PyNum 0)))
           (_format_time (get_default (eta d) (PyNum 0)))]) /\
  (forall downloaded : Q,
     (0 < total)%Q -> downloaded_of d = PyNum downloaded ->
     _progress_hook self true d =
       Ok [progress (video_id self) (downloaded / total * 100)
             (_format_speed (get_default (speed d) (PyNum 0)))
             (_format_time (get_default (eta d) (PyNum 0)))] /\
     ((0 <= downloaded)%Q -> (0 <= downloaded / total * 100)%Q) /\
     ((downloaded <= total)%Q -> (downloaded / total * 100 <= 100)%Q)).
Proof.
  intros Hs Ht. split.
  - intros Hle. apply progress_hook_downloading; [assumption|].
    unfold percentage_of. rewrite Ht.
    destruct (Qlt_le_dec 0 total) as [Hlt|_]; [|reflexivity].
    exfalso. apply (Qlt_not_le _ _ Hlt Hle).
  - intros downloaded Hpos Hd. split; [|split].
    + apply progress_hook_downloading; [assumption|].
      unfold percentage_of. rewrite Ht, Hd.
      destruct (Qlt_le_dec 0 total) as [_|Hle]; [reflexivity|].
      exfalso. apply (Qlt_not_le _ _ Hpos Hle).
    + intros H0. apply Qmult_le_0_compat; [|discriminate].
      apply Qle_shift_div_l; [assumption|]. now rewrite Qmult_0_l.
    + intros Hle.
      assert (H1 : (downloaded / total <= 1)%Q).
      { apply Qle_shift_div_r; [assumption|]. now rewrite Qmult_1_l. }
      apply Qle_trans with (1 * 100)%Q; [|discriminate].
      apply Qmult_le_compat_r; [assumption|discriminate].
Qed.

Lemma progress_hook_percentage_witness :
  _progress_hook sample_worker true halfway_tick =
    Ok [progress "abc" (100 / 200 * 100) "2.0 KB/s" "2m 5s"] /\
  (100 / 200 * 100 <= 100)%Q.
Proof.
  pose proof (progress_hook_percentage sample_worker halfway_tick 200
                eq_refl eq_refl) as [_ H].
  destruct (H 100%Q eq_refl eq_refl) as (He & _ & Hle).
  split; [exact He|]. apply Hle. discriminate.
Defined.

End ProgressHook.

(** ** The signals of one run *)

Section WorkerRun.

Import DownloadWorker.

Lemma progress_hook_signals (self : DownloadWorker.t) (b : bool)
    (d : progress_dict) (sigs : list signal) :
  _progress_hook self b d = Ok sigs ->
  Forall (fun p => is_progress p = true) sigs.
Proof.
  unfold _progress_hook. destruct (negb b); [discriminate|].
  destruct (String.eqb (status d) "downloading").
  - destruct (percentage_of d); [|discriminate].
    intros [= <-]. repeat constructor.
  - intros [= <-]. constructor.
Qed.

(** During [ydl.download] only progress signals are emitted. *)
Lemma download_signals (self : DownloadWorker.t) (stop : option nat)
    (ds : list progress_dict) (final : option string) (checkpoint : nat) :
  Forall (fun p => is_progress p = true)
         (fst (download self stop checkpoint ds final)).
Proof.
  revert checkpoint. induction ds as [|d ds IH]; intros checkpoint; cbn.
  - constructor.
  - destruct (_progress_hook self (is_running_at stop checkpoint) d)
      as [sigs|e] eqn:Hh; cbn; [|constructor].
    specialize (IH (S checkpoint)).
    destruct (download self stop (S checkpoint) ds final) as [rest exn]. cbn in *.
    apply Forall_app. split; [|assumption].
    eapply progress_hook_signals; eassumption.
Qed.

(** A run that passes the test before [ydl.download] emits progress events
    and then exactly one terminal event. *)
Lemma run_task_stream (self : DownloadWorker.t) (engine : engine_script)
    (stop : option nat) :
  is_running_at stop 0 = true -> task_stream (run self engine stop).
Proof.
  intros Hr. unfold run. rewrite Hr.
  pose proof (download_signals self stop (ticks engine) (outcome engine) 1) as Hp.
  destruct (download self stop 1 (ticks engine) (outcome engine)) as [sigs exn].
  cbn in Hp. destruct exn as [e|]; eexists sigs, _; (split; [reflexivity|]);
    split; auto.
Qed.

Lemma terminal_count_app (l1 l2 : list signal) :
  terminal_count (l1 ++ l2) = (terminal_count l1 + terminal_count l2)%nat.
Proof. unfold terminal_count. now rewrite List.filter_app, List.length_app. Qed.

Lemma terminal_count_progress (ps : list signal) :
  Forall (fun p => is_progress p = true) ps -> terminal_count ps = 0%nat.
Proof.
  unfold terminal_count, is_progress. induction 1 as [|p ps Hp _ IH]; [reflexivity|].
  cbn. destruct (is_finished p); [discriminate|]. exact IH.
Qed.

Lemma task_stream_terminal_count (l : list signal) :
  task_stream l -> terminal_count l = 1%nat.
Proof.
  intros (ps & sg & -> & Hps & Hsg).
  rewrite terminal_count_app, terminal_count_progress by assumption.
  unfold terminal_count. cbn. now rewrite Hsg.
Qed.

(** No run emits more than one terminal event. *)
Lemma run_terminal_count_le (self : DownloadWorker.t) (engine : engine_script)
    (stop : option nat) :
  (terminal_count (run self engine stop) <= 1)%nat.
Proof.
  destruct (is_running_at stop 0) eqn:Hr.
  - rewrite (task_stream_terminal_count _ (run_task_stream self engine stop Hr)).
    lia.
  - unfold run. rewrite Hr. cbn. lia.
Qed.

(** C6 (the failing case): when [stop()] has been called before the run
    reaches its test of [_is_running], the run emits nothing at all, so the
    task has no terminal event; a cancellation during the download, by
    contrast, ends in one failure event. *)
Theorem run_stopped_before_download_is_silent
    (self : DownloadWorker.t) (engine : engine_script) :
  run self engine (Some 0%nat) = [] /\
  terminal_count (run self engine (Some 0%nat)) = 0%nat /\
  run sample_worker halfway_engine (Some 1%nat) =
    [finished "abc" false "Download failed: Download cancelled"].
Proof. repeat split. Qed.

End WorkerRun.

(** ** Bookkeeping of a batch *)

(** Reduce attribute reads of a state built by assignments. *)
Ltac state_simpl :=
  cbn [
       YouTubeDownloader.set_video_queue YouTubeDownloader.set_queue_items
       YouTubeDownloader.set_widgets YouTubeDownloader.set_next_handle
       YouTubeDownloader.set_video_layout
       YouTubeDownloader.set_download_workers
       YouTubeDownloader.set_output_directory
       YouTubeDownloader.set_is_queue_mode
       YouTubeDownloader.set_selected_videos
       YouTubeDownloader.set_viewing_single_in_queue
       YouTubeDownloader.set_active_downloads
       YouTubeDownloader.set_total_downloads
       YouTubeDownloader.set_download_progress
       YouTubeDownloader.set_download_btn_enabled
       YouTubeDownloader.set_progress_bar_visible
       YouTubeDownloader.set_progress_bar_value
       YouTubeDownloader.set_status_label YouTubeDownloader.set_dialogs
       YouTubeDownloader.video_queue YouTubeDownloader.queue_items
       YouTubeDownloader.widgets YouTubeDownloader.next_handle
       YouTubeDownloader.video_layout YouTubeDownloader.download_workers
       YouTubeDownloader.output_directory YouTubeDownloader.is_queue_mode
       YouTubeDownloader.selected_videos
       YouTubeDownloader.viewing_single_in_queue
       YouTubeDownloader.active_downloads
       YouTubeDownloader.total_downloads
       YouTubeDownloader.download_progress
       YouTubeDownloader.download_btn_enabled
       YouTubeDownloader.progress_bar_visible
       YouTubeDownloader.progress_bar_value YouTubeDownloader.status_label
       YouTubeDownloader.dialogs ].

Ltac state_simpl_in H :=
  cbn [
       YouTubeDownloader.set_video_queue YouTubeDownloader.set_queue_items
       YouTubeDownloader.set_widgets YouTubeDownloader.set_next_handle
       YouTubeDownloader.set_video_layout
       YouTubeDownloader.set_download_workers
       YouTubeDownloader.set_output_directory
       YouTubeDownloader.set_is_queue_mode
       YouTubeDownloader.set_selected_videos
       YouTubeDownloader.set_viewing_single_in_queue
       YouTubeDownloader.set_active_downloads
       YouTubeDownloader.set_total_downloads
       YouTubeDownloader.set_download_progress
       YouTubeDownloader.set_download_btn_enabled
       YouTubeDownloader.set_progress_bar_visible
       YouTubeDownloader.set_progress_bar_value
       YouTubeDownloader.set_status_label YouTubeDownloader.set_dialogs
       YouTubeDownloader.video_queue YouTubeDownloader.queue_items
       YouTubeDownloader.widgets YouTubeDownloader.next_handle
       YouTubeDownloader.video_layout YouTubeDownloader.download_workers
       YouTubeDownloader.output_directory YouTubeDownloader.is_queue_mode
       YouTubeDownloader.selected_videos
       YouTubeDownloader.viewing_single_in_queue
       YouTubeDownloader.active_downloads
       YouTubeDownloader.total_downloads
       YouTubeDownloader.download_progress
       YouTubeDownloader.download_btn_enabled
       YouTubeDownloader.progress_bar_visible
       YouTubeDownloader.progress_bar_value YouTubeDownloader.status_label
       YouTubeDownloader.dialogs ] in H.

Section Bookkeeping.

Import YouTubeDownloader.

Lemma same_batch_refl (s : YouTubeDownloader.t) : same_batch s s.
Proof. now repeat split. Qed.

Lemma same_batch_trans (s1 s2 s3 : YouTubeDownloader.t) :
  same_batch s1 s2 -> same_batch s2 s3 -> same_batch s1 s3.
Proof.
  unfold same_batch. intros (? & ? & ? & ? & ?) (? & ? & ? & ? & ?).
  repeat split; congruence.
Qed.

Lemma with_item_same_batch (vid : string)
    (f : VideoQueueItem.t -> VideoQueueItem.t) (s : YouTubeDownloader.t) :
  same_batch s (with_item vid f s).
Proof.
  unfold with_item. destruct (Dict.get vid (queue_items s)) as [h|];
    [|apply same_batch_refl].
  destruct (widgets s !! h) as [[it|v]|]; try apply same_batch_refl.
  now repeat split.
Qed.

Lemma remove_from_queue_same_batch (vid : string) (s : YouTubeDownloader.t) :
  same_batch s (_remove_from_queue vid s).
Proof.
  unfold _remove_from_queue. state_simpl.
  destruct (Dict.get vid (queue_items s)); state_simpl;
    match goal with |- context [if ?c then _ else _] => destruct c end;
    now repeat split.
Qed.

Lemma remove_all_same_batch (vids : list string) (s : YouTubeDownloader.t) :
  same_batch s (foldl (fun s vid => _remove_from_queue vid s) s vids).
Proof.
  revert s. induction vids as [|vid vids IH]; intros s; cbn.
  - apply same_batch_refl.
  - eapply same_batch_trans; [apply remove_from_queue_same_batch|apply IH].
Qed.

(** A progress event leaves the counters alone. *)
Lemma on_download_progress_counts (vid : string) (p : Q) (speed eta : string)
    (s : YouTubeDownloader.t) :
  active_downloads (_on_download_progress vid p speed eta s) = active_downloads s /\
  total_downloads (_on_download_progress vid p speed eta s) = total_downloads s.
Proof.
  unfold _on_download_progress.
  set (s1 := set_download_progress _ s).
  pose proof (with_item_same_batch vid
                (VideoQueueItem.update_progress p speed eta) s1) as (Ha & Ht & _).
  set (s2 := with_item _ _ s1) in *.
  destruct (size (download_progress s2) =? 0)%nat; [now rewrite Ha, Ht|].
  destruct (bulk_view _); state_simpl; now rewrite Ha, Ht.
Qed.

(** Each terminal event decrements the number of active downloads by one. *)
Lemma on_download_finished_active (vid : string) (ok : bool) (msg : string)
    (s : YouTubeDownloader.t) :
  active_downloads (_on_download_finished vid ok msg s) = active_downloads s - 1.
Proof.
  unfold _on_download_finished.
  set (s1 := set_active_downloads _ s).
  set (s2 := if ok then _ else _).
  assert (Ha : active_downloads s2 = active_downloads s - 1).
  { subst s2. destruct ok;
      match goal with |- active_downloads (with_item ?v ?f ?x) = _ =>
        destruct (with_item_same_batch v f x) as (-> & _) end; reflexivity. }
  destruct (active_downloads s2 <=? 0); state_simpl; [|assumption].
  match goal with |- context [if all_success ?x then _ else _] =>
    destruct (all_success x) end; state_simpl; [|assumption].
  match goal with |- context [if bulk_view ?x then _ else _] =>
    destruct (bulk_view x) end; state_simpl; [|assumption].
  match goal with |- active_downloads (foldl _ ?x ?l) = _ =>
    destruct (remove_all_same_batch l x) as (-> & _) end.
  state_simpl. assumption.
Qed.

Lemma deliver_active (sg : signal) (s : YouTubeDownloader.t) :
  active_downloads (deliver sg s) =
  active_downloads s - (if is_finished sg then 1 else 0).
Proof.
  destruct sg as [vid p sp et|vid ok msg]; cbn [deliver is_finished].
  - rewrite (proj1 (on_download_progress_counts vid p sp et s)). lia.
  - apply on_download_finished_active.
Qed.

(** After delivering [l], the counter has dropped by the number of terminal
    events in [l]. *)
Lemma deliver_all_active (l : list signal) (s : YouTubeDownloader.t) :
  active_downloads (deliver_all l s) =
  active_downloads s - Z.of_nat (terminal_count l).
Proof.
  unfold deliver_all. revert s. induction l as [|sg l IH]; intros s.
  - cbn. lia.
  - cbn [foldl]. rewrite IH, deliver_active.
    unfold terminal_count. cbn [List.filter].
    destruct (is_finished sg); cbn [List.length]; lia.
Qed.

End Bookkeeping.

(** ** Interleavings of task streams *)

Section Interleaving.

Lemma task_stream_tail (sg : signal) (rest : list signal) :
  task_stream (sg :: rest) ->
  (rest = [] /\ is_finished sg = true) \/
  (task_stream rest /\ is_progress sg = true).
Proof.
  intros (ps & fin & E & Hps & Hfin).
  destruct ps as [|p ps]; cbn in E; injection E as -> ->.
  - now left.
  - right. apply Forall_cons in Hps as [Hp Hps]. split; [|assumption].
    now exists ps, fin.
Qed.

(** An interleaving is a rearrangement of all the signals of all streams. *)
Lemma interleaving_perm (streams : list (list signal)) (evs : list signal) :
  interleaving streams evs -> evs ≡ₚ concat streams.
Proof.
  induction 1 as [streams Hnil|streams i sg rest evs Hi _ IH].
  - induction Hnil as [|st streams -> _ IH]; [reflexivity|exact IH].
  - rewrite IH. clear IH.
    rewrite <- (take_drop_middle streams i (sg :: rest) Hi) at 2.
    rewrite insert_take_drop by (eapply lookup_lt_Some; eassumption).
    rewrite !concat_app. cbn [concat].
    rewrite (Permutation_middle (concat (take i streams))). reflexivity.
Qed.

Lemma terminal_count_perm (l1 l2 : list signal) :
  l1 ≡ₚ l2 -> terminal_count l1 = terminal_count l2.
Proof.
  intros H. unfold terminal_count.
  apply Permutation_length. induction H; cbn.
  - reflexivity.
  - destruct (is_finished x); [now constructor|assumption].
  - destruct (is_finished x), (is_finished y);
      try reflexivity; now constructor.
  - etransitivity; eassumption.
Qed.

Lemma terminal_count_concat (streams : list (list signal)) :
  Forall task_stream streams ->
  terminal_count (concat streams) = List.length streams.
Proof.
  induction 1 as [|st streams Hst _ IH]; [reflexivity|].
  cbn [concat]. rewrite terminal_count_app, IH.
  now rewrite (task_stream_terminal_count st Hst).
Qed.

(** The last signal of a non-empty interleaving is a terminal event. *)
Lemma interleaving_ends_terminal (streams : list (list signal))
    (evs : list signal) :
  interleaving streams evs -> Forall pending_stream streams ->
  evs = [] \/ exists evs' fin, evs = evs' ++ [fin] /\ is_finished fin = true.
Proof.
  induction 1 as [streams _|streams i sg rest evs Hi Hrest IH]; intros Hp.
  - now left.
  - right.
    assert (Hst : pending_stream (sg :: rest)).
    { eapply Forall_lookup_1; eassumption. }
    destruct Hst as [E|Hst]; [discriminate|].
    apply task_stream_tail in Hst.
    assert (Hp' : Forall pending_stream (<[i := rest]> streams)).
    { apply Forall_insert; [assumption|].
      destruct Hst as [[-> _]|[Hr _]]; [now left|now right]. }
    destruct (IH Hp') as [->|(evs' & fin & -> & Hfin)].
    + inversion Hrest as [? Hnil|]; subst.
      assert (rest = []) as ->.
      { eapply (Forall_lookup_1 _ _ i rest) in Hnil; [assumption|].
        apply list_lookup_insert_eq. eapply lookup_lt_Some; eassumption. }
      destruct Hst as [[_ Hsg]|[(ps & f & E & _) _]].
      * now exists [], sg.
      * destruct ps; discriminate.
    + now exists (sg :: evs'), fin.
Qed.

(** Delivering the streams of [n] tasks in any interleaving: a proper
    prefix contains fewer than [n] terminal events, the whole sequence [n]. *)
Lemma interleaving_prefix_count (streams : list (list signal))
    (evs pre post : list signal) :
  Forall task_stream streams -> interleaving streams evs -> evs = pre ++ post ->
  (terminal_count pre = List.length streams <-> post = []).
Proof.
  intros Hs Hi E.
  assert (Hn : terminal_count evs = List.length streams).
  { rewrite (terminal_count_perm _ _ (interleaving_perm _ _ Hi)).
    now apply terminal_count_concat. }
  rewrite E, terminal_count_app in Hn.
  split.
  - intros Hpre.
    assert (Hp : Forall pending_stream streams).
    { eapply Forall_impl; [exact Hs|]. intros st H. now right. }
    destruct (interleaving_ends_terminal _ _ Hi Hp) as [E0|(evs' & fin & E1 & Hfin)].
    + rewrite E0 in E. symmetry in E. now apply app_eq_nil in E as [_ ?].
    + destruct post as [|x0 post0]; [reflexivity|]. exfalso.
      destruct (exists_last (l := x0 :: post0) ltac:(discriminate))
        as (post' & x & Ep).
      rewrite Ep in *. rewrite E1, app_assoc in E.
      apply app_inj_tail in E as [_ <-].
      rewrite terminal_count_app in Hn.
      assert (terminal_count [fin] = 1%nat)
        by (unfold terminal_count; cbn; now rewrite Hfin).
      lia.
  - intros ->. change (terminal_count []) with 0%nat in Hn. lia.
Qed.

End Interleaving.

(** ** Starting a batch and running it to completion *)

Section Batch.

Import YouTubeDownloader.

Lemma start_workers_fold (o : download_options) (vs : list VideoInfo)
    (s : YouTubeDownloader.t) :
  download_workers (foldl (fun s video => start_worker o video s) s vs) =
    download_workers s ++ ((fun v => new_worker o v s) <$> vs) /\
  same_batch_counts s (foldl (fun s video => start_worker o video s) s vs).
Proof.
  revert s. induction vs as [|v vs IH]; intros s; cbn [foldl fmap list_fmap].
  - rewrite app_nil_r. now repeat split.
  - destruct (IH (start_worker o v s)) as (Hw & Ha & Ht & Hd).
    rewrite Hw. unfold same_batch_counts. rewrite Ha, Ht, Hd.
    unfold start_worker. state_simpl. rewrite <- app_assoc.
    now repeat split.
Qed.

(** X25: a batch that runs alone.  Pressing the download button with a
    non-empty queue creates one worker per record of the batch (the whole
    queue in the bulk view, the first record otherwise), each with the
    record's video id, the window's output directory and the chosen format
    type, quality and container, and sets both counters to the batch size;
    every terminal event lowers the active count by exactly one; and when,
    after the press, exactly the signals of these workers' runs (each past
    its test of [_is_running]) are delivered, in any interleaving that keeps
    each worker's order, the active count is zero after a prefix exactly
    when nothing is left to deliver. *)
Theorem batch_bookkeeping (s : YouTubeDownloader.t) (o : download_options) :
  video_queue s <> [] ->
  download_workers (_start_download o s) =
    (fun v => DownloadWorker.mk (video_id v) (output_directory s)
                (opt_format_type o) (opt_quality o) (opt_container_format o))
      <$> batch_records s /\
  active_downloads (_start_download o s) =
    Z.of_nat (List.length (batch_records s)) /\
  total_downloads (_start_download o s) =
    Z.of_nat (List.length (batch_records s)) /\
  (forall s' vid ok msg,
     active_downloads (_on_download_finished vid ok msg s') =
     active_downloads s' - 1) /\
  (forall streams evs pre post,
     Forall2 (fun w st => exists engine stop,
                DownloadWorker.is_running_at stop 0 = true /\
                st = DownloadWorker.run w engine stop)
             (download_workers (_start_download o s)) streams ->
     interleaving streams evs -> evs = pre ++ post ->
     (active_downloads (deliver_all pre (_start_download o s)) = 0 <->
      post = [])).
Proof.
  intros Hq.
  assert (H3 : download_workers (_start_download o s) =
                 (fun v => new_worker o v s) <$> batch_records s /\
               active_downloads (_start_download o s) =
                 Z.of_nat (List.length (batch_records s)) /\
               total_downloads (_start_download o s) =
                 Z.of_nat (List.length (batch_records s))).
  { unfold _start_download, batch_records.
    destruct (video_queue s) as [|first rest] eqn:Eq; [congruence|].
    destruct (bulk_view s).
    - match goal with |- context [foldl _ ?x ?l] =>
        destruct (start_workers_fold o l x) as (Hw & Ha & Ht & _) end.
      rewrite Hw, Ha, Ht. state_simpl. rewrite Eq. now repeat split.
    - unfold start_worker. state_simpl. now repeat split. }
  destruct H3 as (Hw & Ha & Ht).
  split; [exact Hw|]. split; [exact Ha|]. split; [exact Ht|]. split.
  - intros. apply on_download_finished_active.
  - intros streams evs pre post Hrun Hint Hsplit.
    assert (Hs : Forall task_stream streams).
    { clear -Hrun. induction Hrun as [|w st ws sts (engine & stop & Hr & ->) _ IH];
        constructor; [now apply run_task_stream|assumption]. }
    pose proof (interleaving_prefix_count _ _ _ _ Hs Hint Hsplit) as Hcount.
    apply Forall2_length in Hrun. rewrite Hw, length_fmap in Hrun.
    rewrite deliver_all_active, Ha, <- Hcount. lia.
Qed.

Lemma batch_bookkeeping_witness :
  video_queue playlist_window <> [] /\
  active_downloads (_start_download sample_options playlist_window) = 3 /\
  List.length (download_workers (_start_download sample_options playlist_window))
    = 3%nat /\
  interleaving sample_streams sample_delivery /\
  active_downloads
    (deliver_all sample_delivery
       (_start_download sample_options playlist_window)) = 0.
Proof.
  assert (Hq : video_queue playlist_window <> []) by discriminate.
  destruct (batch_bookkeeping playlist_window sample_options Hq)
    as (Hw & Ha & _ & _ & Hzero).
  assert (Hint : interleaving sample_streams sample_delivery).
  { unfold sample_delivery, sample_streams, sample_stream.
    eapply (interleaving_next _ 0); [reflexivity|].
    eapply (interleaving_next _ 1); [reflexivity|].
    eapply (interleaving_next _ 0); [reflexivity|].
    eapply (interleaving_next _ 2); [reflexivity|].
    eapply (interleaving_next _ 2); [reflexivity|].
    eapply (interleaving_next _ 1); [reflexivity|].
    apply interleaving_done. repeat constructor. }
  split; [exact Hq|]. split; [exact Ha|].
  split; [rewrite Hw, length_fmap; vm_compute; reflexivity|].
  split; [exact Hint|].
  apply (Hzero sample_streams sample_delivery sample_delivery []).
  - rewrite Hw.
    replace (batch_records playlist_window) with [video_a; video_b; video_c]
      by (vm_compute; reflexivity).
    repeat constructor; exists halfway_engine, None;
      (split; [reflexivity|vm_compute; reflexivity]).
  - exact Hint.
  - symmetry. apply app_nil_r.
  - reflexivity.
Defined.

(** C1 (the failing case): two downloads that overlap.  In single mode a
    video is fetched and its download started, which disables the download
    button; a second video fetched while the task runs enables the button
    again, and a second press resets both counters to 1.  The signals
    delivered are those of the runs of the two workers.  When the first
    task ends the active count is 0 and the completion is announced while
    the second task is still running; its progress event is processed
    after that; and its terminal event leaves the active count at -1. *)
Theorem overlapping_batches_lose_count :
  download_btn_enabled first_batch_window = false /\
  download_workers first_batch_window =
    [DownloadWorker.mk "aaa" "/home/user/Downloads" "video" "720p" "mp4"] /\
  DownloadWorker.run
    (DownloadWorker.mk "aaa" "/home/user/Downloads" "video" "720p" "mp4")
    halfway_engine None =
    [progress "aaa" (100 / 200 * 100) "2.0 KB/s" "2m 5s";
     finished "aaa" true "Download completed successfully!"] /\
  download_btn_enabled refetched_window = true /\
  active_downloads refetched_window = 1 /\
  download_workers second_batch_window =
    [DownloadWorker.mk "bbb" "/home/user/Downloads" "video" "720p" "mp4"] /\
  DownloadWorker.run
    (DownloadWorker.mk "bbb" "/home/user/Downloads" "video" "720p" "mp4")
    halfway_engine None =
    [progress "bbb" (100 / 200 * 100) "2.0 KB/s" "2m 5s";
     finished "bbb" true "Download completed successfully!"] /\
  active_downloads second_batch_window = 1 /\
  total_downloads second_batch_window = 1 /\
  progress_bar_value second_batch_window = 0 /\
  active_downloads count_zero_window = 0 /\
  status_label count_zero_window = "All 1 downloads completed successfully!" /\
  progress_bar_value count_zero_window = 0 /\
  progress_bar_value late_progress_window = 50 /\
  status_label late_progress_window = "Speed: 2.0 KB/s | ETA: 2m 5s" /\
  active_downloads overlap_end_window = -1.
Proof. vm_compute. auto 20. Qed.

End Batch.

(** ** The video id of a worker's signals *)

Section SignalIds.

Import DownloadWorker.

Lemma progress_hook_own_id (self : DownloadWorker.t) (b : bool)
    (d : progress_dict) (sigs : list signal) :
  _progress_hook self b d = Ok sigs ->
  Forall (fun sg => signal_vid sg = video_id self) sigs.
Proof.
  unfold _progress_hook. destruct (negb b); [discriminate|].
  destruct (String.eqb (status d) "downloading").
  - destruct (percentage_of d); [|discriminate].
    intros [= <-]. repeat constructor.
  - intros [= <-]. constructor.
Qed.

Lemma download_own_id (self : DownloadWorker.t) (stop : option nat)
    (ds : list progress_dict) (final : option string) (checkpoint : nat) :
  Forall (fun sg => signal_vid sg = video_id self)
         (fst (download self stop checkpoint ds final)).
Proof.
  revert checkpoint. induction ds as [|d ds IH]; intros checkpoint; cbn.
  - constructor.
  - destruct (_progress_hook self (is_running_at stop checkpoint) d)
      as [sigs|e] eqn:Hh; cbn; [|constructor].
    specialize (IH (S checkpoint)).
    destruct (download self stop (S checkpoint) ds final) as [rest exn]. cbn in *.
    apply Forall_app. split; [|assumption].
    eapply progress_hook_own_id; eassumption.
Qed.

Lemma signals_of_app (vid : string) (l1 l2 : list signal) :
  signals_of vid (l1 ++ l2) = signals_of vid l1 ++ signals_of vid l2.
Proof. apply List.filter_app. Qed.

Lemma signals_of_foreign (vid : string) (l : list (list signal)) :
  Forall (Forall (fun sg => signal_vid sg <> vid)) l ->
  signals_of vid (concat l) = [].
Proof.
  induction 1 as [|st l Hst _ IH]; [reflexivity|].
  cbn [concat]. rewrite signals_of_app, IH, app_nil_r.
  clear -Hst. induction Hst as [|sg st Hsg _ IH]; [reflexivity|].
  unfold signals_of in *. cbn [List.filter]. rewrite IH.
  destruct (String.eqb_spec (signal_vid sg) vid); [contradiction|reflexivity].
Qed.

(** When every stream carries one video id of its own, the signals of an
    id come in the same order in every interleaving: that of its stream. *)
Lemma interleaving_signals_of (ids : list string)
    (streams : list (list signal)) (evs : list signal) :
  NoDup ids ->
  Forall2 (fun v st => Forall (fun sg => signal_vid sg = v) st) ids streams ->
  interleaving streams evs ->
  forall vid, signals_of vid evs = signals_of vid (concat streams).
Proof.
  intros Hnd H2 Hi.
  induction Hi as [streams Hnil|streams i sg rest evs Hl Hi IH]; intros vid.
  - clear H2. induction Hnil as [|st l -> _ IH]; [reflexivity|exact IH].
  - destruct (Forall2_lookup_r _ _ _ _ _ H2 Hl) as (v & Hv & Hown).
    assert (H2' : Forall2 (fun v st => Forall (fun sg => signal_vid sg = v) st)
                    ids (<[i := rest]> streams)).
    { rewrite <- (list_insert_id ids i v Hv).
      apply Forall2_insert; [exact H2|]. now apply Forall_inv_tail in Hown. }
    specialize (IH H2' vid).
    rewrite insert_take_drop in IH by (eapply lookup_lt_Some; exact Hl).
    rewrite <- (take_drop_middle streams i (sg :: rest) Hl).
    rewrite concat_app, signals_of_app in IH |- *.
    cbn [concat] in IH |- *. rewrite <- app_comm_cons.
    unfold signals_of at 1 3. cbn [List.filter].
    fold (signals_of vid evs).
    fold (signals_of vid (rest ++ concat (drop (S i) streams))).
    destruct (String.eqb_spec (signal_vid sg) vid) as [Heq|Hne]; [|exact IH].
    assert (Hpre : signals_of vid (concat (take i streams)) = []).
    { apply signals_of_foreign. apply Forall_lookup. intros j st Hj.
      apply lookup_take_Some in Hj as [Hj Hlt].
      destruct (Forall2_lookup_r _ _ _ _ _ H2 Hj) as (vj & Hvj & Hownj).
      eapply Forall_impl; [exact Hownj|]. intros sg' -> Hvid.
      apply Forall_inv in Hown. rewrite Hown in Heq. subst vid.
      rewrite Hvid in Hvj.
      pose proof (NoDup_lookup _ _ _ _ Hnd Hv Hvj). lia. }
    rewrite Hpre in IH |- *. cbn [app] in IH |- *. now rewrite IH.
Qed.

End SignalIds.

(** ** The aggregate progress *)

Section Aggregate.

Import YouTubeDownloader.

Lemma on_download_progress_map (vid : string) (p : Q) (speed eta : string)
    (s : YouTubeDownloader.t) :
  download_progress (_on_download_progress vid p speed eta s) =
    <[vid := p]> (download_progress s) /\
  progress_bar_value (_on_download_progress vid p speed eta s) =
    int (avg_progress (<[vid := p]> (download_progress s))).
Proof.
  unfold _on_download_progress.
  set (s1 := set_download_progress _ s).
  pose proof (with_item_same_batch vid
                (VideoQueueItem.update_progress p speed eta) s1) as (_ & _ & Hd & _).
  set (s2 := with_item _ _ s1) in *.
  assert (Hm : download_progress s2 = <[vid := p]> (download_progress s))
    by (rewrite Hd; reflexivity).
  assert (Hsz : (size (download_progress s2) =? 0)%nat = false).
  { apply Nat.eqb_neq. intros Hz. apply map_size_empty_inv in Hz.
    rewrite Hm in Hz. exact (insert_non_empty _ _ _ Hz). }
  rewrite Hsz.
  destruct (bulk_view _); state_simpl; now rewrite Hm.
Qed.

Lemma on_download_finished_map (vid : string) (ok : bool) (msg : string)
    (s : YouTubeDownloader.t) :
  download_progress (_on_download_finished vid ok msg s) = download_progress s.
Proof.
  unfold _on_download_finished.
  set (s1 := set_active_downloads _ s).
  set (s2 := if ok then _ else _).
  assert (Hd : download_progress s2 = download_progress s).
  { subst s2. destruct ok;
      match goal with |- download_progress (with_item ?v ?f ?x) = _ =>
        destruct (with_item_same_batch v f x) as (_ & _ & -> & _) end;
      reflexivity. }
  destruct (active_downloads s2 <=? 0); state_simpl; [|assumption].
  match goal with |- context [if all_success ?x then _ else _] =>
    destruct (all_success x) end; state_simpl; [|assumption].
  match goal with |- context [if bulk_view ?x then _ else _] =>
    destruct (bulk_view x) end; state_simpl; [|assumption].
  match goal with |- download_progress (foldl _ ?x ?l) = _ =>
    destruct (remove_all_same_batch l x) as (_ & _ & -> & _) end.
  state_simpl. assumption.
Qed.

Lemma deliver_all_map (l : list signal) (s : YouTubeDownloader.t) :
  download_progress (deliver_all l s) = apply_progress (download_progress s) l.
Proof.
  unfold deliver_all, apply_progress. revert s.
  induction l as [|sg l IH]; intros s; [reflexivity|].
  cbn [foldl]. rewrite IH. f_equal.
  destruct sg as [vid p sp et|vid ok msg]; cbn [deliver].
  - apply on_download_progress_map.
  - apply on_download_finished_map.
Qed.

(** The entry of a task depends only on that task's own signals. *)
Lemma apply_progress_lookup (l : list signal) (d : gmap string Q) (k : string) :
  apply_progress d l !! k = latest (signals_of k l) (d !! k).
Proof.
  unfold apply_progress, latest, signals_of. revert d.
  induction l as [|sg l IH]; intros d; [reflexivity|].
  cbn [foldl List.filter]. rewrite IH.
  destruct sg as [vid p sp et|vid ok msg]; cbn [signal_vid].
  - destruct (String.eqb_spec vid k) as [->|Hne]; cbn [foldl].
    + now rewrite lookup_insert_eq.
    + now rewrite lookup_insert_ne.
  - destruct (String.eqb vid k); reflexivity.
Qed.

Lemma sum_bounds (l : list Q) (a : Q) :
  Forall in_range l ->
  (a <= foldl Qplus a l)%Q /\
  (foldl Qplus a l <= a + 100 * inject_Z (Z.of_nat (List.length l)))%Q.
Proof.
  intros Hl. revert a. induction Hl as [|q l [Hq0 Hq1] _ IH]; intros a.
  - cbn [foldl List.length]. change (inject_Z (Z.of_nat 0)) with 0%Q.
    split; lra.
  - cbn [foldl List.length]. destruct (IH (a + q)%Q) as [H1 H2].
    rewrite Nat2Z.inj_succ, <- Z.add_1_r, inject_Z_plus.
    change (inject_Z 1) with 1%Q. split; lra.
Qed.

(** The mean of a non-empty map of percentages in range is in range. *)
Lemma avg_progress_in_range (d : gmap string Q) :
  d <> ∅ -> map_Forall (fun _ q => in_range q) d -> in_range (avg_progress d).
Proof.
  intros Hne Hall. unfold avg_progress, sum, values.
  assert (Hn : (0 < inject_Z (Z.of_nat (size d)))%Q).
  { change 0%Q with (inject_Z 0). rewrite <- Zlt_Qlt.
    assert (size d <> 0%nat) by (intros Hz; now apply map_size_empty_inv in Hz).
    lia. }
  assert (Hl : Forall in_range (map_to_list d).*2).
  { apply map_Forall_to_list in Hall. apply Forall_fmap.
    eapply Forall_impl; [exact Hall|]. now intros [k q]. }
  destruct (sum_bounds _ 0 Hl) as [H1 H2].
  rewrite length_fmap, length_map_to_list in H2.
  split.
  - apply Qle_shift_div_l; [assumption|]. lra.
  - apply Qle_shift_div_r; [assumption|]. lra.
Qed.

(** Against C2 as stated: the aggregate can leave the range [0,100]; here
    a batch of one task at 150 percent. *)
Lemma aggregate_exceeds_100 :
  download_progress overshoot_window = {[ "aaa" := (150 / 100 * 100)%Q ]} /\
  progress_bar_value overshoot_window = 150 /\
  ~ in_range (avg_progress (download_progress overshoot_window)).
Proof.
  assert (Hd : download_progress overshoot_window =
               {[ "aaa" := (150 / 100 * 100)%Q ]}).
  { unfold overshoot_window. rewrite deliver_all_map. cbn.
    apply insert_insert_eq. }
  split; [exact Hd|]. split.
  - vm_compute. reflexivity.
  - rewrite Hd. unfold avg_progress, values.
    rewrite map_to_list_singleton, map_size_singleton.
    intros [_ H]. vm_compute in H. now apply H.
Qed.

(** With duplicate video ids the order between two tasks matters: the two
    workers started from a playlist that lists [aaa] twice write the same
    entry, and two interleavings of their runs end at 30 and at 50. *)
Lemma duplicate_ids_order_matters :
  Forall2 (fun w st => exists engine, st = DownloadWorker.run w engine None)
    (download_workers (_start_download sample_options duplicate_window))
    duplicate_streams /\
  interleaving duplicate_streams duplicate_order_1 /\
  interleaving duplicate_streams duplicate_order_2 /\
  progress_bar_value
    (deliver_all duplicate_order_1
       (_start_download sample_options duplicate_window)) = 30 /\
  progress_bar_value
    (deliver_all duplicate_order_2
       (_start_download sample_options duplicate_window)) = 50.
Proof.
  split; [|split; [|split]].
  - replace (download_workers (_start_download sample_options duplicate_window))
      with [DownloadWorker.mk "aaa" "/home/user/Downloads" "video" "720p" "mp4";
            DownloadWorker.mk "aaa" "/home/user/Downloads" "video" "720p" "mp4"]
      by (vm_compute; reflexivity).
    unfold duplicate_streams. repeat constructor.
    + now exists halfway_engine.
    + now exists thirty_engine.
  - eapply (interleaving_next _ 0); [reflexivity|].
    eapply (interleaving_next _ 1); [reflexivity|].
    eapply (interleaving_next _ 0); [reflexivity|].
    eapply (interleaving_next _ 1); [reflexivity|].
    apply interleaving_done. repeat constructor.
  - eapply (interleaving_next _ 1); [reflexivity|].
    eapply (interleaving_next _ 0); [reflexivity|].
    eapply (interleaving_next _ 0); [reflexivity|].
    eapply (interleaving_next _ 1); [reflexivity|].
    apply interleaving_done. repeat constructor.
  - vm_compute. auto.
Qed.

(** C2 (amended): after every progress event the aggregate shown is the
    integer part of the arithmetic mean of the values in the progress map
    (mean times number of entries is their sum); the mean lies in [0,100]
    whenever every stored value does; two delivery orders that agree, for
    every video id, on the order of the signals carrying that id end in the
    same map and the same mean; and so do any two interleavings of the runs
    of workers whose video ids are pairwise distinct. *)
Theorem aggregate_progress :
  (forall s vid p speed eta,
     download_progress (_on_download_progress vid p speed eta s) =
       <[vid := p]> (download_progress s) /\
     progress_bar_value (_on_download_progress vid p speed eta s) =
       int (avg_progress (download_progress
                            (_on_download_progress vid p speed eta s)))) /\
  (forall d : gmap string Q,
     d <> ∅ ->
     (avg_progress d * inject_Z (Z.of_nat (size d)) == sum (values d))%Q) /\
  (forall d : gmap string Q,
     d <> ∅ -> map_Forall (fun _ q => in_range q) d ->
     in_range (avg_progress d)) /\
  (forall l1 l2 s,
     (forall vid, signals_of vid l1 = signals_of vid l2) ->
     download_progress (deliver_all l1 s) = download_progress (deliver_all l2 s) /\
     avg_progress (download_progress (deliver_all l1 s)) =
     avg_progress (download_progress (deliver_all l2 s))) /\
  (forall ws streams evs1 evs2 s,
     NoDup (DownloadWorker.video_id <$> ws) ->
     Forall2 (fun w st => exists engine stop,
                st = DownloadWorker.run w engine stop) ws streams ->
     interleaving streams evs1 -> interleaving streams evs2 ->
     download_progress (deliver_all evs1 s) =
       download_progress (deliver_all evs2 s) /\
     avg_progress (download_progress (deliver_all evs1 s)) =
     avg_progress (download_progress (deliver_all evs2 s))).
Proof.
  assert (Hsame : forall l1 l2 s,
            (forall vid, signals_of vid l1 = signals_of vid l2) ->
            download_progress (deliver_all l1 s) =
              download_progress (deliver_all l2 s) /\
            avg_progress (download_progress (deliver_all l1 s)) =
            avg_progress (download_progress (deliver_all l2 s))).
  { intros l1 l2 s Hsame.
    assert (Hd : download_progress (deliver_all l1 s) =
                 download_progress (deliver_all l2 s)).
    { rewrite !deliver_all_map. apply map_eq. intros k.
      now rewrite !apply_progress_lookup, Hsame. }
    split; [exact Hd|now rewrite Hd]. }
  split; [|split; [|split; [|split]]].
  - intros s vid p speed eta.
    destruct (on_download_progress_map vid p speed eta s) as [Hm Hb].
    split; [exact Hm|]. now rewrite Hb, Hm.
  - intros d Hne. unfold avg_progress.
    rewrite Qmult_comm, Qmult_div_r; [reflexivity|].
    change 0%Q with (inject_Z 0). rewrite inject_Z_injective.
    assert (size d <> 0%nat) by (intros Hz; now apply map_size_empty_inv in Hz).
    lia.
  - exact avg_progress_in_range.
  - exact Hsame.
  - intros ws streams evs1 evs2 s Hnd Hrun Hi1 Hi2. apply Hsame. intros vid.
    assert (Hown : Forall2 (fun v st => Forall (fun sg => signal_vid sg = v) st)
                     (DownloadWorker.video_id <$> ws) streams).
    { apply Forall2_fmap_l. eapply Forall2_impl; [exact Hrun|].
      intros w st (engine & stop & ->). unfold DownloadWorker.run.
      destruct (DownloadWorker.is_running_at stop 0); [|constructor].
      pose proof (download_own_id w stop (ticks engine) (outcome engine) 1) as Hp.
      destruct (DownloadWorker.download w stop 1 (ticks engine) (outcome engine))
        as [sigs exn].
      cbn [fst] in Hp.
      destruct exn; apply Forall_app; split; auto; repeat constructor. }
    rewrite (interleaving_signals_of _ _ _ Hnd Hown Hi1).
    now rewrite (interleaving_signals_of _ _ _ Hnd Hown Hi2).
Qed.

Lemma aggregate_progress_witness :
  download_progress (deliver_all order_ab playlist_window) =
    download_progress (deliver_all order_ba playlist_window) /\
  download_progress
    (deliver_all sample_delivery
       (_start_download sample_options playlist_window)) =
    download_progress
      (deliver_all sample_delivery_2
         (_start_download sample_options playlist_window)).
Proof.
  split.
  - refine (proj1 (proj1 (proj2 (proj2 (proj2 aggregate_progress)))
                     order_ab order_ba playlist_window _)).
    intros vid. unfold signals_of, order_ab, order_ba.
    cbn [List.filter signal_vid].
    destruct (String.eqb_spec "aaa" vid) as [<-|_]; [reflexivity|].
    destruct (String.eqb "bbb" vid); reflexivity.
  - refine (proj1 (proj2 (proj2 (proj2 (proj2 aggregate_progress)))
                     [DownloadWorker.mk "aaa" "/home/user/Downloads" "video" "720p" "mp4";
                      DownloadWorker.mk "bbb" "/home/user/Downloads" "video" "720p" "mp4";
                      DownloadWorker.mk "ccc" "/home/user/Downloads" "video" "720p" "mp4"]
                     sample_streams sample_delivery sample_delivery_2
                     (_start_download sample_options playlist_window) _ _ _ _)).
    + apply (bool_decide_unpack _). vm_compute. reflexivity.
    + repeat constructor; exists halfway_engine, None; vm_compute; reflexivity.
    + unfold sample_delivery, sample_streams, sample_stream.
      eapply (interleaving_next _ 0); [reflexivity|].
      eapply (interleaving_next _ 1); [reflexivity|].
      eapply (interleaving_next _ 0); [reflexivity|].
      eapply (interleaving_next _ 2); [reflexivity|].
      eapply (interleaving_next _ 2); [reflexivity|].
      eapply (interleaving_next _ 1); [reflexivity|].
      apply interleaving_done. repeat constructor.
    + unfold sample_delivery_2, sample_streams, sample_stream.
      eapply (interleaving_next _ 2); [reflexivity|].
      eapply (interleaving_next _ 2); [reflexivity|].
      eapply (interleaving_next _ 0); [reflexivity|].
      eapply (interleaving_next _ 1); [reflexivity|].
      eapply (interleaving_next _ 1); [reflexivity|].
      eapply (interleaving_next _ 0); [reflexivity|].
      apply interleaving_done. repeat constructor.
Defined.

End Aggregate.

(** ** Scenarios *)

Section Scenarios.

Import YouTubeDownloader.

Example partial_failure_scenario :
  status_label partial_failure_window =
    "Downloads completed with some errors. Check individual statuses." /\
  video_queue partial_failure_window = [video_a; video_b; video_c] /\
  active_downloads partial_failure_window = 0.
Proof. vm_compute. auto. Qed.

Example all_success_scenario :
  status_label all_success_window = "All 3 downloads completed successfully!" /\
  video_queue all_success_window = [] /\
  queue_items all_success_window = [].
Proof. vm_compute. auto. Qed.

(** C3 (the failing case): a download started from the single-video view
    whose only task reports failure is nevertheless announced as "All 1
    downloads completed successfully!"; in the bulk view, a batch of three
    with one failure is announced as completed with errors and no record is
    removed. *)
Theorem failed_single_download_reported_as_success :
  active_downloads failed_single_window = 0 /\
  status_label failed_single_window = "All 1 downloads completed successfully!" /\
  dialogs failed_single_window =
    [information "Success" "All 1 downloads completed successfully!"] /\
  status_label partial_failure_window =
    "Downloads completed with some errors. Check individual statuses." /\
  video_queue partial_failure_window = [video_a; video_b; video_c].
Proof. vm_compute. auto 10. Qed.

End Scenarios.

(** ** The queue store *)

Section QueueStore.

Import YouTubeDownloader.

(** Against C8 as stated: [_add_to_queue] never returns a true value; here
    the record is new and is appended, and the call evaluates to [None]. *)
Lemma add_to_queue_returns_none :
  (video_id video_d ∉ queued_ids playlist_window) /\
  video_queue (snd (_add_to_queue video_d playlist_window)) =
    [video_a; video_b; video_c; video_d] /\
  fst (_add_to_queue video_d playlist_window) = PyNone /\
  truthy (fst (_add_to_queue video_d playlist_window)) = false.
Proof.
  split; [|vm_compute; auto].
  intros H. apply list_elem_of_In in H. cbn in H.
  repeat (destruct H as [H|H]; [discriminate H|]). exact H.
Qed.

(** C8 (amended): appending a record whose id is already queued changes
    nothing; appending a record whose id is absent puts it at the end of the
    queue, after the records already there; in both cases the call has no
    return value ([None]). *)
Theorem add_to_queue_dedup (s : YouTubeDownloader.t) (v : VideoInfo) :
  (video_id v ∈ queued_ids s ->
   snd (_add_to_queue v s) = s /\ fst (_add_to_queue v s) = PyNone) /\
  (video_id v ∉ queued_ids s ->
   video_queue (snd (_add_to_queue v s)) = video_queue s ++ [v] /\
   fst (_add_to_queue v s) = PyNone).
Proof.
  unfold _add_to_queue. split; intros Hin.
  - now rewrite bool_decide_eq_true_2.
  - rewrite bool_decide_eq_false_2 by assumption. now split.
Qed.

Lemma add_to_queue_dedup_witness :
  (video_id video_b ∈ queued_ids playlist_window) /\
  snd (_add_to_queue video_b playlist_window) = playlist_window.
Proof.
  assert (Hin : video_id video_b ∈ queued_ids playlist_window).
  { apply list_elem_of_In. cbn. auto. }
  split; [exact Hin|].
  exact (proj1 (proj1 (add_to_queue_dedup playlist_window video_b) Hin)).
Defined.

(** Removal takes the id out of the queue and out of the selection in the
    same step. *)
Lemma remove_from_queue_both (vid : string) (s : YouTubeDownloader.t) :
  (vid ∉ queued_ids (_remove_from_queue vid s)) /\
  (vid ∉ selected_videos (_remove_from_queue vid s)).
Proof.
  unfold _remove_from_queue. state_simpl.
  set (q := List.filter _ (video_queue s)).
  assert (Hq : vid ∉ video_id <$> q).
  { subst q. intros Hin. apply list_elem_of_fmap in Hin as (v & -> & Hv).
    apply list_elem_of_In, List.filter_In in Hv as [_ Hv].
    now rewrite String.eqb_refl in Hv. }
  destruct (Dict.get vid (queue_items s)); state_simpl;
    destruct (List.length q =? 0)%nat; state_simpl;
    (split; [exact Hq|]);
    apply not_elem_of_difference; right; now apply elem_of_singleton.
Qed.

(** C9 (the failing case): when a fetched playlist lists a video twice, two
    frames are shown but only one is registered; deleting removes both
    records and one frame, and ticking the frame that is left selects an id
    that is no longer queued. *)
Theorem selection_outlives_record :
  video_queue duplicate_window = [video_a; video_a] /\
  video_layout duplicate_window = [0%nat; 1%nat] /\
  queue_items duplicate_window = [("aaa", 1%nat)] /\
  video_queue orphan_window = [] /\
  video_layout orphan_window = [0%nat] /\
  selected_videos orphan_window = {["aaa"]} /\
  ~ (forall vid, vid ∈ selected_videos orphan_window ->
                 vid ∈ queued_ids orphan_window).
Proof.
  assert (Hsel : selected_videos orphan_window = {["aaa"]}).
  { vm_compute selected_videos. set_solver. }
  repeat split; try (vm_compute; reflexivity); try exact Hsel.
  intros H. specialize (H "aaa"). rewrite Hsel in H.
  assert (Hq : queued_ids orphan_window = []) by (vm_compute; reflexivity).
  rewrite Hq in H. eapply not_elem_of_nil, H. set_solver.
Qed.

End QueueStore.

(** ** The registry of queue items *)

Section Registry.

Import YouTubeDownloader.

Lemma dict_keys_set {V : Type} (k k' : string) (v : V) (d : list (string * V)) :
  k' ∈ Dict.keys (Dict.set k v d) <-> k' = k \/ k' ∈ Dict.keys d.
Proof.
  unfold Dict.keys. induction d as [|[k0 v0] d IH]; cbn.
  - rewrite list_elem_of_singleton. split; [auto|]. intros [?|H]; [assumption|].
    now apply elem_of_nil in H.
  - destruct (String.eqb_spec k k0) as [->|Hne]; cbn;
      rewrite !elem_of_cons; [tauto|]. rewrite IH. tauto.
Qed.

Lemma dict_keys_del {V : Type} (k k' : string) (d : list (string * V)) :
  k' ∈ Dict.keys (Dict.del k d) <-> k' <> k /\ k' ∈ Dict.keys d.
Proof.
  unfold Dict.keys. induction d as [|[k0 v0] d IH]; cbn.
  - split; [intros H; now apply elem_of_nil in H|intros [_ H]; exact H].
  - destruct (String.eqb_spec k k0) as [->|Hne]; cbn; rewrite ?elem_of_cons, IH.
    + split; [tauto|]. intros [Hne [->|H]]; [congruence|tauto].
    + split; [intros [->|[? ?]]; [split; [congruence|auto]|tauto]|tauto].
Qed.

Lemma same_queue_refl (s : YouTubeDownloader.t) : same_queue s s.
Proof. now repeat split. Qed.

Lemma same_queue_trans (s1 s2 s3 : YouTubeDownloader.t) :
  same_queue s1 s2 -> same_queue s2 s3 -> same_queue s1 s3.
Proof.
  unfold same_queue. intros (? & ? & ? & ?) (? & ? & ? & ?).
  repeat split; congruence.
Qed.

Lemma same_queue_registered (s s' : YouTubeDownloader.t) :
  same_queue s s' -> registered_ok s -> registered_ok s'.
Proof.
  unfold same_queue, registered_ok, queued_ids.
  intros (-> & -> & -> & _). tauto.
Qed.

Lemma with_item_same_queue (vid : string)
    (f : VideoQueueItem.t -> VideoQueueItem.t) (s : YouTubeDownloader.t) :
  same_queue s (with_item vid f s).
Proof.
  unfold with_item. destruct (Dict.get vid (queue_items s)) as [h|];
    [|apply same_queue_refl].
  destruct (widgets s !! h) as [[it|v]|]; try apply same_queue_refl.
  now repeat split.
Qed.

Lemma selection_changed_same_queue (vid : string) (b : bool)
    (s : YouTubeDownloader.t) :
  same_queue s (_on_item_selection_changed vid b s).
Proof. unfold _on_item_selection_changed. destruct b; now repeat split. Qed.

Lemma set_selected_same_queue (h : nat) (b : bool) (s : YouTubeDownloader.t) :
  same_queue s (set_selected h b s).
Proof.
  unfold set_selected. destruct (widgets s !! h) as [[it|v]|];
    try apply same_queue_refl.
  destruct (Bool.eqb _ _); [now repeat split|].
  eapply same_queue_trans; [|apply selection_changed_same_queue].
  now repeat split.
Qed.

Lemma clear_registered (s : YouTubeDownloader.t) :
  registered_ok (_clear_video_display s).
Proof.
  split; [|reflexivity]. cbn. intros k H. now apply elem_of_nil in H.
Qed.

Lemma display_single_same_queue (v : VideoInfo) (s : YouTubeDownloader.t) :
  same_queue s (_display_single_video v s).
Proof. now repeat split. Qed.

Lemma add_queue_item_registered (v : VideoInfo) (s : YouTubeDownloader.t) :
  video_id v ∈ queued_ids s -> is_queue_mode s = true ->
  registered_ok s -> registered_ok (_add_queue_item v s).
Proof.
  intros Hv Hm [Hk _]. unfold registered_ok, queued_ids, _add_queue_item.
  state_simpl. split.
  - intros k. rewrite dict_keys_set. intros [->|H]; [exact Hv|now apply Hk].
  - congruence.
Qed.

Lemma add_queue_items_registered (vs : list VideoInfo) (s : YouTubeDownloader.t) :
  (forall v, v ∈ vs -> video_id v ∈ queued_ids s) -> is_queue_mode s = true ->
  registered_ok s ->
  registered_ok (foldl (fun s v => _add_queue_item v s) s vs).
Proof.
  revert s. induction vs as [|v vs IH]; intros s Hvs Hm Hs; [exact Hs|].
  cbn [foldl]. apply IH.
  - intros v' Hv'. apply Hvs. now right.
  - exact Hm.
  - apply add_queue_item_registered; [|assumption..]. apply Hvs. now left.
Qed.

Lemma remove_from_queue_registered (vid : string) (s : YouTubeDownloader.t) :
  registered_ok s -> registered_ok (_remove_from_queue vid s).
Proof.
  intros [Hk Hm]. unfold _remove_from_queue. state_simpl.
  set (q := List.filter _ (video_queue s)).
  assert (Hq : forall k, k <> vid -> k ∈ queued_ids s -> k ∈ video_id <$> q).
  { intros k Hne Hin. unfold queued_ids in Hin.
    apply list_elem_of_fmap in Hin as (v & -> & Hv).
    apply list_elem_of_fmap. exists v. split; [reflexivity|].
    subst q. apply list_elem_of_In, List.filter_In. split.
    - now apply list_elem_of_In.
    - apply negb_true_iff, String.eqb_neq. exact Hne. }
  assert (Hkeys : forall k,
            k ∈ Dict.keys (match Dict.get vid (queue_items s) with
                           | Some _ => Dict.del vid (queue_items s)
                           | None => queue_items s
                           end) -> k ∈ video_id <$> q).
  { intros k Hin. destruct (Dict.get vid (queue_items s)) as [h|] eqn:Hg.
    - apply dict_keys_del in Hin as [Hne Hin]. auto.
    - apply Hq; [|auto]. intros ->.
      clear -Hg Hin. unfold Dict.keys in Hin.
      induction (queue_items s) as [|[k0 v0] d IH]; cbn in *.
      + now apply elem_of_nil in Hin.
      + destruct (String.eqb_spec vid k0); [discriminate|].
        apply elem_of_cons in Hin as [?|Hin]; [congruence|auto]. }
  assert (Hnil : q = [] ->
            match Dict.get vid (queue_items s) with
            | Some _ => Dict.del vid (queue_items s)
            | None => queue_items s
            end = []).
  { intros Eq. rewrite Eq in Hkeys.
    destruct (match Dict.get vid (queue_items s) with
              | Some _ => _ | None => _ end) as [|[k v] d]; [reflexivity|].
    specialize (Hkeys k ltac:(left)). now apply elem_of_nil in Hkeys. }
  unfold registered_ok, queued_ids.
  destruct (Dict.get vid (queue_items s)) as [h|] eqn:Hg; state_simpl;
    (destruct (List.length q =? 0)%nat eqn:Hlen; state_simpl;
     [apply Nat.eqb_eq, length_zero_iff_nil in Hlen;
      split; [intros k Hin; rewrite (Hnil Hlen) in Hin; now apply elem_of_nil in Hin
             |intros _; exact (Hnil Hlen)]
     |split; [exact Hkeys|]]).
  - intros Hf. now rewrite (Hm Hf).
  - exact Hm.
Qed.

Lemma remove_all_registered (vids : list string) (s : YouTubeDownloader.t) :
  registered_ok s ->
  registered_ok (foldl (fun s vid => _remove_from_queue vid s) s vids).
Proof.
  revert s. induction vids as [|vid vids IH]; intros s Hs; [exact Hs|].
  cbn [foldl]. now apply IH, remove_from_queue_registered.
Qed.

End Registry.

(** ** Every slot keeps the registry sound *)

Section RegistryInvariant.

Import YouTubeDownloader.

Lemma items_nil_registered (s : YouTubeDownloader.t) :
  queue_items s = [] -> registered_ok s.
Proof.
  intros E. unfold registered_ok. rewrite E. split; [|reflexivity].
  intros k H. now apply elem_of_nil in H.
Qed.

Lemma add_to_queue_registered (v : VideoInfo) (s : YouTubeDownloader.t) :
  is_queue_mode s = true -> registered_ok s ->
  registered_ok (snd (_add_to_queue v s)).
Proof.
  intros Hm Hs. unfold _add_to_queue.
  destruct (bool_decide _); [exact Hs|]. cbn [snd].
  eapply same_queue_registered;
    [|apply (add_queue_item_registered v (set_video_queue (video_queue s ++ [v]) s))].
  - now repeat split.
  - unfold queued_ids. state_simpl. rewrite fmap_app. apply elem_of_app.
    right. now left.
  - exact Hm.
  - destruct Hs as [Hk Hn]. unfold registered_ok, queued_ids. state_simpl. split.
    + intros k Hin. rewrite fmap_app. apply elem_of_app. left. now apply Hk.
    + exact Hn.
Qed.

Lemma video_info_fetched_registered (v : VideoInfo) (s : YouTubeDownloader.t) :
  registered_ok s -> registered_ok (_on_video_info_fetched v s).
Proof.
  intros Hs. unfold _on_video_info_fetched.
  destruct (is_queue_mode s) eqn:Hm.
  - now apply add_to_queue_registered.
  - now apply items_nil_registered.
Qed.

Lemma playlist_fetched_registered (vs : list VideoInfo) (s : YouTubeDownloader.t) :
  registered_ok (_on_playlist_fetched vs s).
Proof.
  unfold _on_playlist_fetched.
  eapply same_queue_registered; [|apply add_queue_items_registered].
  - now repeat split.
  - intros v Hv. unfold queued_ids. state_simpl.
    apply list_elem_of_fmap. now exists v.
  - reflexivity.
  - now apply items_nil_registered.
Qed.

Lemma queue_item_clicked_registered (vid : string) (s : YouTubeDownloader.t) :
  registered_ok s -> registered_ok (_on_queue_item_clicked vid s).
Proof.
  intros Hs. unfold _on_queue_item_clicked.
  destruct (negb (is_queue_mode s)); [exact Hs|].
  destruct (List.find _ _); [|exact Hs].
  now apply items_nil_registered.
Qed.

Lemma delete_selected_registered (s : YouTubeDownloader.t) :
  registered_ok s -> registered_ok (_delete_selected s).
Proof.
  intros Hs. unfold _delete_selected.
  eapply same_queue_registered; [|apply remove_all_registered, Hs].
  now repeat split.
Qed.

Lemma cancel_selection_same_queue (s : YouTubeDownloader.t) :
  same_queue s (_cancel_selection s).
Proof.
  unfold _cancel_selection.
  assert (H : forall vids s0,
            same_queue s0
              (foldl (fun s vid =>
                        match Dict.get vid (queue_items s) with
                        | Some h => set_selected h false s
                        | None => s
                        end) s0 vids)).
  { induction vids as [|vid vids IH]; intros s0; [apply same_queue_refl|].
    cbn [foldl]. eapply same_queue_trans; [|apply IH].
    destruct (Dict.get vid (queue_items s0));
      [apply set_selected_same_queue|apply same_queue_refl]. }
  eapply same_queue_trans; [apply H|]. now repeat split.
Qed.

Lemma back_to_queue_registered (s : YouTubeDownloader.t) :
  registered_ok s -> registered_ok (_back_to_queue s).
Proof.
  intros Hs. unfold _back_to_queue.
  destruct (viewing_single_in_queue s); cbn [negb orb]; [|exact Hs].
  destruct (is_queue_mode s) eqn:Hm; cbn [negb]; [|exact Hs].
  apply add_queue_items_registered.
  - intros v Hv. unfold queued_ids. state_simpl.
    apply list_elem_of_fmap. now exists v.
  - exact Hm.
  - now apply items_nil_registered.
Qed.

Lemma toggle_mode_registered (s : YouTubeDownloader.t) :
  registered_ok s -> registered_ok (_toggle_mode s).
Proof.
  intros Hs. unfold _toggle_mode.
  destruct (video_queue s) as [|first rest] eqn:Hq; [exact Hs|].
  state_simpl. destruct (negb (is_queue_mode s)) eqn:Hm.
  - apply add_queue_items_registered.
    + intros v Hv. unfold queued_ids. state_simpl.
      apply list_elem_of_fmap. now exists v.
    + reflexivity.
    + now apply items_nil_registered.
  - now apply items_nil_registered.
Qed.

Lemma start_workers_same_queue (o : download_options) (vs : list VideoInfo)
    (s : YouTubeDownloader.t) :
  same_queue s (foldl (fun s video => start_worker o video s) s vs).
Proof.
  revert s. induction vs as [|v vs IH]; intros s; [apply same_queue_refl|].
  cbn [foldl]. eapply same_queue_trans; [|apply IH]. now repeat split.
Qed.

Lemma start_download_same_queue (o : download_options) (s : YouTubeDownloader.t) :
  same_queue s (_start_download o s).
Proof.
  unfold _start_download.
  destruct (video_queue s) as [|first rest] eqn:Hq; [apply same_queue_refl|].
  destruct (bulk_view s).
  - eapply same_queue_trans; [|apply start_workers_same_queue].
    now repeat split.
  - now repeat split.
Qed.

Lemma on_download_progress_same_queue (vid : string) (p : Q) (speed eta : string)
    (s : YouTubeDownloader.t) :
  same_queue s (_on_download_progress vid p speed eta s).
Proof.
  unfold _on_download_progress.
  set (s1 := set_download_progress _ s).
  assert (H1 : same_queue s s1) by now repeat split.
  pose proof (with_item_same_queue vid
                (VideoQueueItem.update_progress p speed eta) s1) as H2.
  set (s2 := with_item _ _ s1) in *.
  pose proof (same_queue_trans _ _ _ H1 H2) as H3.
  destruct (size (download_progress s2) =? 0)%nat; [exact H3|].
  eapply same_queue_trans; [exact H3|].
  destruct (bulk_view _); now repeat split.
Qed.

Lemma on_download_finished_registered (vid : string) (ok : bool) (msg : string)
    (s : YouTubeDownloader.t) :
  registered_ok s -> registered_ok (_on_download_finished vid ok msg s).
Proof.
  intros Hs. unfold _on_download_finished.
  set (s1 := set_active_downloads _ s).
  set (s2 := if ok then _ else _).
  assert (H2 : registered_ok s2).
  { eapply same_queue_registered; [|exact Hs].
    eapply (same_queue_trans _ s1); [now repeat split|].
    subst s2. destruct ok; apply with_item_same_queue. }
  destruct (active_downloads s2 <=? 0).
  - match goal with |- context [if all_success ?x then _ else _] =>
      destruct (all_success x) end.
    + match goal with |- context [if bulk_view ?x then _ else _] =>
        destruct (bulk_view x) end.
      * apply remove_all_registered.
        eapply same_queue_registered; [|exact H2]. now repeat split.
      * eapply same_queue_registered; [|exact H2]. now repeat split.
    + eapply same_queue_registered; [|exact H2]. now repeat split.
  - eapply same_queue_registered; [|exact H2]. now repeat split.
Qed.

Lemma handle_registered (e : event) (s : YouTubeDownloader.t) :
  registered_ok s -> registered_ok (handle e s).
Proof.
  intros Hs. destruct e as [v|vs|h|h|h| | | | |dir|o|sg]; cbn [handle].
  - now apply video_info_fetched_registered.
  - apply playlist_fetched_registered.
  - destruct (shown_item s h); [|exact Hs]. now apply remove_from_queue_registered.
  - destruct (shown_item s h); [|exact Hs].
    eapply same_queue_registered; [|exact Hs]. unfold checkbox_toggled.
    eapply same_queue_trans; [|apply selection_changed_same_queue].
    now repeat split.
  - destruct (shown_item s h); [|exact Hs]. now apply queue_item_clicked_registered.
  - now apply delete_selected_registered.
  - eapply same_queue_registered; [apply cancel_selection_same_queue|exact Hs].
  - now apply back_to_queue_registered.
  - now apply toggle_mode_registered.
  - unfold _browse_output. destruct (String.eqb dir ""); [exact Hs|].
    eapply same_queue_registered; [|exact Hs]. now repeat split.
  - eapply same_queue_registered; [apply start_download_same_queue|exact Hs].
  - destruct sg as [vid p sp et|vid ok msg]; cbn [deliver].
    + eapply same_queue_registered;
        [apply on_download_progress_same_queue|exact Hs].
    + now apply on_download_finished_registered.
Qed.

(** In every state the window can reach, registered items belong to queued
    records and single mode has no registered item. *)
Lemma reachable_registered (s : YouTubeDownloader.t) :
  reachable s -> registered_ok s.
Proof.
  intros (dir & es & ->). unfold run_events.
  assert (H0 : registered_ok (init dir)) by now apply items_nil_registered.
  revert H0. generalize (init dir). induction es as [|e es IH]; intros s Hs.
  - exact Hs.
  - cbn [foldl]. now apply IH, handle_registered.
Qed.

End RegistryInvariant.

(** ** The verdict at the end of a batch *)

Section Verdict.

Import YouTubeDownloader.

Lemma all_success_iff (s : YouTubeDownloader.t) :
  all_success s = true <->
  (forall v it, v ∈ video_queue s -> item_of s (video_id v) = Some it ->
                startswith (VideoQueueItem.status_label it) "✓" = true).
Proof.
  unfold all_success. rewrite forallb_forall. split.
  - intros H v it Hv Hit. specialize (H v). rewrite Hit in H. apply H.
    apply List.filter_In. split; [now apply list_elem_of_In|].
    unfold item_of in Hit. unfold Dict.mem.
    destruct (Dict.get (video_id v) (queue_items s)); [reflexivity|discriminate].
  - intros H v Hv. apply List.filter_In in Hv as [Hv _].
    destruct (item_of s (video_id v)) as [it|] eqn:Hit; [|reflexivity].
    eapply H; [apply list_elem_of_In|]; eassumption.
Qed.

Lemma all_success_unregistered (s : YouTubeDownloader.t) :
  queue_items s = [] -> all_success s = true.
Proof.
  intros E. apply all_success_iff. intros v it _. unfold item_of.
  rewrite E. discriminate.
Qed.

Lemma with_item_unregistered (vid : string)
    (f : VideoQueueItem.t -> VideoQueueItem.t) (s : YouTubeDownloader.t) :
  queue_items s = [] -> with_item vid f s = s.
Proof. intros E. unfold with_item. now rewrite E. Qed.

(** What progress events leave untouched when no item is registered. *)
Lemma deliver_progress_unregistered (ps : list signal) (s : YouTubeDownloader.t) :
  Forall (fun p => is_progress p = true) ps -> queue_items s = [] ->
  queue_items (deliver_all ps s) = [] /\
  video_queue (deliver_all ps s) = video_queue s /\
  bulk_view (deliver_all ps s) = bulk_view s /\
  active_downloads (deliver_all ps s) = active_downloads s /\
  total_downloads (deliver_all ps s) = total_downloads s /\
  dialogs (deliver_all ps s) = dialogs s.
Proof.
  unfold deliver_all. intros Hps. revert s.
  induction Hps as [|p ps Hp _ IH]; intros s E; [now repeat split|].
  cbn [foldl]. destruct p as [vid pc sp et|]; [|discriminate]. cbn [deliver].
  destruct (on_download_progress_same_queue vid pc sp et s) as (Hq & Hi & Hm & Hv).
  destruct (on_download_progress_counts vid pc sp et s) as (Ha & Ht).
  assert (Hd : dialogs (_on_download_progress vid pc sp et s) = dialogs s).
  { unfold _on_download_progress. rewrite with_item_unregistered by exact E.
    state_simpl. destruct (size _ =? 0)%nat; [reflexivity|].
    destruct (bulk_view _); reflexivity. }
  destruct (IH (_on_download_progress vid pc sp et s)) as (-> & -> & -> & -> & -> & ->);
    [congruence|].
  unfold bulk_view. rewrite Hq, Hm, Hv, Ha, Ht, Hd. now repeat split.
Qed.

(** A download started outside the bulk view while no queue item is
    registered is announced as a full success although its task failed. *)
Lemma unregistered_failure_is_success (s : YouTubeDownloader.t)
    (o : download_options) (first : VideoInfo) (rest : list VideoInfo)
    (ps : list signal) (msg : string) :
  video_queue s = first :: rest -> bulk_view s = false -> queue_items s = [] ->
  Forall (fun p => is_progress p = true) ps ->
  status_label (deliver_all (ps ++ [finished (video_id first) false msg])
                            (_start_download o s)) =
    "All 1 downloads completed successfully!" /\
  dialogs (deliver_all (ps ++ [finished (video_id first) false msg])
                       (_start_download o s)) =
    dialogs s ++ [information "Success" "All 1 downloads completed successfully!"] /\
  video_queue (deliver_all (ps ++ [finished (video_id first) false msg])
                           (_start_download o s)) = video_queue s.
Proof.
  intros Hq Hb Hi Hps.
  set (s0 := _start_download o s).
  assert (H0 : queue_items s0 = [] /\ video_queue s0 = video_queue s /\
               bulk_view s0 = false /\ active_downloads s0 = 1 /\
               total_downloads s0 = 1 /\ dialogs s0 = dialogs s).
  { subst s0. unfold _start_download. rewrite Hq, Hb.
    unfold bulk_view in *. state_simpl. unfold start_worker. state_simpl.
    now repeat split. }
  destruct H0 as (Hi0 & Hq0 & Hb0 & Ha0 & Ht0 & Hd0).
  destruct (deliver_progress_unregistered ps s0 Hps Hi0)
    as (Hi1 & Hq1 & Hb1 & Ha1 & Ht1 & Hd1).
  unfold deliver_all in *. rewrite foldl_app. cbn [foldl deliver].
  set (s1 := foldl _ s0 ps) in *.
  unfold _on_download_finished.
  rewrite with_item_unregistered by exact Hi1.
  state_simpl. rewrite Ha1, Ha0. change (1 - 1 <=? 0) with true. cbn iota.
  rewrite all_success_unregistered by exact Hi1.
  state_simpl.
  replace (bulk_view _) with false by (symmetry; rewrite <- Hb0, <- Hb1; reflexivity).
  state_simpl. rewrite Ht1, Ht0, Hd1, Hd0, Hq1, Hq0. now repeat split.
Qed.

Lemma reachable_init (dir : string) : reachable (init dir).
Proof. now exists dir, []. Qed.

Lemma reachable_run_events (es : list event) (s : YouTubeDownloader.t) :
  reachable s -> reachable (run_events es s).
Proof.
  intros (dir & es0 & ->). exists dir, (es0 ++ es).
  unfold run_events. now rewrite foldl_app.
Qed.

(** Against C7 as stated: a download can start from the single view while
    an item is registered.  After opening a queue item and fetching a
    further video, the verdict inspects the new item, and the batch is
    announced as completed with errors whether its task failed or
    succeeded. *)
Lemma single_view_with_registered_item :
  reachable mixed_view_window /\
  bulk_view mixed_view_window = false /\
  viewing_single_in_queue mixed_view_window = true /\
  queue_items mixed_view_window = [("ddd", 4%nat)] /\
  status_label mixed_view_failed_window =
    "Downloads completed with some errors. Check individual statuses." /\
  status_label mixed_view_done_window =
    "Downloads completed with some errors. Check individual statuses.".
Proof.
  split.
  - unfold mixed_view_window, playlist_window, fresh_window.
    do 2 apply reachable_run_events. apply reachable_init.
  - vm_compute. auto 10.
Qed.

(** The last terminal event of a batch, handled while no queue item is
    registered: the verdict is a full success whatever the event reports. *)
Lemma empty_registry_verdict (s : YouTubeDownloader.t) (vid : string)
    (ok : bool) (msg : string) :
  queue_items s = [] -> active_downloads s <= 1 ->
  status_label (_on_download_finished vid ok msg s) =
    "All " +:+ str (total_downloads s) +:+ " downloads completed successfully!" /\
  dialogs (_on_download_finished vid ok msg s) =
    dialogs s ++
    [information "Success"
       ("All " +:+ str (total_downloads s) +:+
        " downloads completed successfully!")] /\
  video_queue (_on_download_finished vid ok msg s) = video_queue s.
Proof.
  intros Hi Ha. unfold _on_download_finished.
  destruct ok; rewrite with_item_unregistered by exact Hi; state_simpl;
    (destruct (Z.leb_spec (active_downloads s - 1) 0) as [_|Hgt]; [|lia]);
    rewrite all_success_unregistered by exact Hi; state_simpl;
    unfold bulk_view; state_simpl;
    destruct (is_queue_mode s && negb (viewing_single_in_queue s));
    rewrite ?Hi; cbn [Dict.keys fmap list_fmap foldl]; state_simpl;
    now repeat split.
Qed.

(** C7 (amended): the verdict inspects the status labels of the registered
    queue items of queued records, and only those; in single mode no item is
    ever registered, and opening a queue item in the single view clears the
    registry; whenever the last terminal event of a batch is handled while
    no item is registered, the check is vacuous and the batch is announced
    as a full success whatever that event reports; this is what happens to
    a download started outside the bulk view with no item registered when
    only progress events are handled before its terminal event, a failure.
    An empty registry at the start is not enough: in the example a video
    fetched while the task runs is registered, and the failure is then
    announced as completed with errors. *)
Theorem single_view_verdict :
  (forall s,
     all_success s = true <->
     (forall v it, v ∈ video_queue s -> item_of s (video_id v) = Some it ->
                   startswith (VideoQueueItem.status_label it) "✓" = true)) /\
  (forall s, reachable s -> is_queue_mode s = false -> queue_items s = []) /\
  (forall s vid,
     _on_queue_item_clicked vid s = s \/
     (viewing_single_in_queue (_on_queue_item_clicked vid s) = true /\
      queue_items (_on_queue_item_clicked vid s) = [])) /\
  (forall s vid ok msg,
     queue_items s = [] -> active_downloads s <= 1 ->
     status_label (_on_download_finished vid ok msg s) =
       "All " +:+ str (total_downloads s) +:+
       " downloads completed successfully!" /\
     dialogs (_on_download_finished vid ok msg s) =
       dialogs s ++
       [information "Success"
          ("All " +:+ str (total_downloads s) +:+
           " downloads completed successfully!")] /\
     video_queue (_on_download_finished vid ok msg s) = video_queue s) /\
  (forall s o first rest ps msg,
     video_queue s = first :: rest -> bulk_view s = false ->
     queue_items s = [] ->
     Forall (fun p => is_progress p = true) ps ->
     status_label (deliver_all (ps ++ [finished (video_id first) false msg])
                               (_start_download o s)) =
       "All 1 downloads completed successfully!" /\
     dialogs (deliver_all (ps ++ [finished (video_id first) false msg])
                          (_start_download o s)) =
       dialogs s ++
       [information "Success" "All 1 downloads completed successfully!"] /\
     video_queue (deliver_all (ps ++ [finished (video_id first) false msg])
                              (_start_download o s)) = video_queue s) /\
  (reachable opened_item_window /\
   bulk_view opened_item_window = false /\
   queue_items opened_item_window = [] /\
   status_label late_fetch_window =
     "Downloads completed with some errors. Check individual statuses.").
Proof.
  split; [exact all_success_iff|]. split; [|split; [|split; [|split]]].
  - intros s Hr Hm. now apply (proj2 (reachable_registered s Hr)).
  - intros s vid. unfold _on_queue_item_clicked.
    destruct (negb (is_queue_mode s)); [now left|].
    destruct (List.find _ _); [right|now left]. now split.
  - exact empty_registry_verdict.
  - exact unregistered_failure_is_success.
  - split.
    + unfold opened_item_window, playlist_window, fresh_window.
      do 2 apply reachable_run_events. apply reachable_init.
    + vm_compute. auto.
Qed.

Lemma single_view_verdict_witness :
  status_label
    (deliver_all
       ([progress "aaa" 50 "2.0 KB/s" "2m 5s"] ++
        [finished (video_id video_a) false "Download failed: HTTP Error 403"])
       (_start_download sample_options single_window)) =
    "All 1 downloads completed successfully!" /\
  status_label
    (_on_download_finished "aaa" false "Download failed: HTTP Error 403"
       (_start_download sample_options single_window)) =
    "All " +:+
    str (total_downloads (_start_download sample_options single_window)) +:+
    " downloads completed successfully!".
Proof.
  split.
  - refine (proj1 (proj1 (proj2 (proj2 (proj2 (proj2 single_view_verdict))))
                     single_window sample_options video_a []
                     [progress "aaa" 50 "2.0 KB/s" "2m 5s"]
                     "Download failed: HTTP Error 403" _ _ _ _)).
    + reflexivity.
    + reflexivity.
    + reflexivity.
    + repeat constructor.
  - refine (proj1 (proj1 (proj2 (proj2 (proj2 single_view_verdict)))
                     (_start_download sample_options single_window)
                     "aaa" false "Download failed: HTTP Error 403" _ _)).
    + reflexivity.
    + vm_compute. discriminate.
Defined.

End Verdict.

(** ** The selection, when queued ids are distinct *)

Section Selection.

Import YouTubeDownloader.

Lemma dict_get_keys {V : Type} (k : string) (v : V) (d : list (string * V)) :
  Dict.get k d = Some v -> k ∈ Dict.keys d.
Proof.
  unfold Dict.keys. induction d as [|[k0 v0] d IH]; cbn; [discriminate|].
  destruct (String.eqb_spec k k0) as [->|_]; intros H.
  - now left.
  - right. now apply IH.
Qed.

Lemma dict_get_set {V : Type} (k k' : string) (v : V) (d : list (string * V)) :
  Dict.get k' (Dict.set k v d) = if String.eqb k' k then Some v else Dict.get k' d.
Proof.
  induction d as [|[k0 v0] d IH]; cbn; [reflexivity|].
  destruct (String.eqb_spec k k0) as [->|Hne]; cbn.
  - destruct (String.eqb k' k0); reflexivity.
  - rewrite IH. destruct (String.eqb_spec k' k0) as [->|_]; [|reflexivity].
    destruct (String.eqb_spec k0 k); [congruence|reflexivity].
Qed.

Lemma dict_get_del {V : Type} (k k' : string) (d : list (string * V)) :
  Dict.get k' (Dict.del k d) = if String.eqb k' k then None else Dict.get k' d.
Proof.
  induction d as [|[k0 v0] d IH]; cbn.
  - now destruct (String.eqb k' k).
  - destruct (String.eqb_spec k k0) as [->|Hne]; cbn.
    + rewrite IH. destruct (String.eqb k' k0); reflexivity.
    + rewrite IH. destruct (String.eqb_spec k' k0) as [->|_]; [|reflexivity].
      destruct (String.eqb_spec k0 k); [congruence|reflexivity].
Qed.

Lemma shown_item_iff (s : YouTubeDownloader.t) (h : nat) (it : VideoQueueItem.t) :
  shown_item s h = Some it <->
  h ∈ video_layout s /\ widgets s !! h = Some (ItemWidget it).
Proof.
  unfold shown_item. destruct (bool_decide_reflect (h ∈ video_layout s)) as [Hin|Hn].
  - destruct (widgets s !! h) as [[it'|v]|]; split;
      try (intros [= ->]; now split); try (now intros [_ [= ->]]);
      try discriminate; now intros [_ ?].
  - split; [discriminate|tauto].
Qed.

(** The id of a displayed item is queued. *)
Lemma shown_item_queued (s : YouTubeDownloader.t) (h : nat) (it : VideoQueueItem.t) :
  registered_ok s -> selection_ok s -> shown_item s h = Some it ->
  video_id (VideoQueueItem.video_info it) ∈ queued_ids s.
Proof.
  intros [Hk _] (_ & Hreg & _) Hs. apply shown_item_iff in Hs as [Hl Hw].
  eapply Hk, dict_get_keys, Hreg; eassumption.
Qed.

(** Replacing a displayed item by one for the same video keeps the view. *)
Lemma view_ok_update (q : list VideoInfo) (items : list (string * nat))
    (w : gmap nat widget) (n : nat) (layout : list nat) (sel : gset string)
    (h : nat) (it it' : VideoQueueItem.t) :
  w !! h = Some (ItemWidget it) ->
  VideoQueueItem.video_info it' = VideoQueueItem.video_info it ->
  view_ok q items w n layout sel ->
  view_ok q items (<[h := ItemWidget it']> w) n layout sel.
Proof.
  intros Hw Hv (H1 & H2 & H3 & H4). repeat split; try assumption.
  intros h0 it0 Hl. destruct (decide (h = h0)) as [->|Hne].
  - rewrite lookup_insert_eq. intros [= <-]. rewrite Hv. now apply H2.
  - rewrite lookup_insert_ne by assumption. now apply H2.
Qed.

Lemma view_ok_sel_subset (q : list VideoInfo) (items : list (string * nat))
    (w : gmap nat widget) (n : nat) (layout : list nat) (sel sel' : gset string) :
  (forall k, k ∈ sel' -> k ∈ sel) ->
  view_ok q items w n layout sel -> view_ok q items w n layout sel'.
Proof. intros Hs (H1 & H2 & H3 & H4). repeat split; auto. Qed.

Lemma with_item_selection_ok (vid : string)
    (f : VideoQueueItem.t -> VideoQueueItem.t) (s : YouTubeDownloader.t) :
  (forall it, VideoQueueItem.video_info (f it) = VideoQueueItem.video_info it) ->
  selection_ok s -> selection_ok (with_item vid f s).
Proof.
  intros Hf Hs. unfold with_item.
  destruct (Dict.get vid (queue_items s)) as [h|]; [|exact Hs].
  destruct (widgets s !! h) as [[it|v]|] eqn:Hw; try exact Hs.
  unfold selection_ok. state_simpl. eapply view_ok_update; eauto.
Qed.

Lemma selection_changed_selection_ok (vid : string) (b : bool)
    (s : YouTubeDownloader.t) :
  vid ∈ queued_ids s \/ b = false ->
  selection_ok s -> selection_ok (_on_item_selection_changed vid b s).
Proof.
  intros Hv (H1 & H2 & H3 & H4). unfold _on_item_selection_changed, selection_ok.
  destruct b; state_simpl; (split; [|now repeat split]); intros k Hk.
  - apply elem_of_union in Hk as [Hk|Hk]; [|now apply H1].
    apply elem_of_singleton in Hk as ->. destruct Hv; [assumption|discriminate].
  - apply elem_of_difference in Hk as [Hk _]. now apply H1.
Qed.

Lemma set_selected_selection_ok (h : nat) (s : YouTubeDownloader.t) :
  selection_ok s -> selection_ok (set_selected h false s).
Proof.
  intros Hs. unfold set_selected.
  destruct (widgets s !! h) as [[it|v]|] eqn:Hw; try exact Hs.
  match goal with |- context [set_widgets ?w s] =>
    assert (H' : selection_ok (set_widgets w s)) end.
  { unfold selection_ok. state_simpl. eapply view_ok_update; eauto. }
  destruct (Bool.eqb _ _); [exact H'|].
  apply selection_changed_selection_ok; [now right|exact H'].
Qed.

Lemma clear_selection_ok (s : YouTubeDownloader.t) :
  NoDup (queued_ids s) -> selection_ok (_clear_video_display s).
Proof.
  intros Hn. unfold selection_ok, _clear_video_display. state_simpl.
  repeat split; try assumption.
  - intros k Hk. now apply elem_of_empty in Hk.
  - intros h it Hh. now apply elem_of_nil in Hh.
  - intros h Hh. now apply elem_of_nil in Hh.
Qed.

Lemma display_single_selection_ok (v : VideoInfo) (s : YouTubeDownloader.t) :
  selection_ok s -> selection_ok (_display_single_video v s).
Proof.
  intros (H1 & H2 & H3 & H4). unfold selection_ok, _display_single_video.
  state_simpl. repeat split; try assumption.
  - intros h it Hh Hw. apply elem_of_app in Hh as [Hh|Hh].
    + rewrite lookup_insert_ne in Hw by (specialize (H3 h Hh); lia). now apply H2.
    + apply list_elem_of_singleton in Hh as ->.
      rewrite lookup_insert_eq in Hw. discriminate.
  - intros h Hh. apply elem_of_app in Hh as [Hh|Hh].
    + specialize (H3 h Hh). lia.
    + apply list_elem_of_singleton in Hh as ->. lia.
Qed.

(** Adding an item for a video none of whose frames is on display. *)
Lemma add_queue_item_selection_ok (v : VideoInfo) (s : YouTubeDownloader.t) :
  (forall h it, shown_item s h = Some it ->
                video_id (VideoQueueItem.video_info it) <> video_id v) ->
  selection_ok s -> selection_ok (_add_queue_item v s).
Proof.
  intros Hfresh (H1 & H2 & H3 & H4). unfold selection_ok, _add_queue_item.
  state_simpl. repeat split; try assumption.
  - intros h it Hh Hw. rewrite dict_get_set.
    apply elem_of_app in Hh as [Hh|Hh].
    + rewrite lookup_insert_ne in Hw by (specialize (H3 h Hh); lia).
      assert (Hs : shown_item s h = Some it) by now apply shown_item_iff.
      apply Hfresh in Hs. apply String.eqb_neq in Hs. rewrite Hs. now apply H2.
    + apply list_elem_of_singleton in Hh as ->.
      rewrite lookup_insert_eq in Hw. injection Hw as <-. cbn.
      now rewrite String.eqb_refl.
  - intros h Hh. apply elem_of_app in Hh as [Hh|Hh].
    + specialize (H3 h Hh). lia.
    + apply list_elem_of_singleton in Hh as ->. lia.
Qed.

Lemma add_queue_item_shown (v : VideoInfo) (s : YouTubeDownloader.t) (h : nat)
    (it : VideoQueueItem.t) :
  selection_ok s -> shown_item (_add_queue_item v s) h = Some it ->
  shown_item s h = Some it \/ VideoQueueItem.video_info it = v.
Proof.
  intros (_ & _ & H3 & _) Hs. apply shown_item_iff in Hs as [Hh Hw].
  unfold _add_queue_item in Hh, Hw. state_simpl_in Hh. state_simpl_in Hw.
  apply elem_of_app in Hh as [Hh|Hh].
  - left. rewrite lookup_insert_ne in Hw by (specialize (H3 h Hh); lia).
    now apply shown_item_iff.
  - right. apply list_elem_of_singleton in Hh as ->.
    rewrite lookup_insert_eq in Hw. now injection Hw as <-.
Qed.

Lemma add_queue_items_selection_ok (vs : list VideoInfo) (s : YouTubeDownloader.t) :
  NoDup (video_id <$> vs) ->
  (forall h it, shown_item s h = Some it ->
                video_id (VideoQueueItem.video_info it) ∉ video_id <$> vs) ->
  selection_ok s ->
  selection_ok (foldl (fun s v => _add_queue_item v s) s vs).
Proof.
  revert s. induction vs as [|v vs IH]; intros s Hn Hfresh Hs; [exact Hs|].
  cbn [foldl]. rewrite fmap_cons in Hn. apply NoDup_cons in Hn as [Hv Hn].
  apply IH; [exact Hn| |].
  - intros h it Hsh. apply add_queue_item_shown in Hsh as [Hsh| ->]; [|exact Hv|exact Hs].
    intros Hin. eapply Hfresh; [exact Hsh|]. rewrite fmap_cons. now right.
  - apply add_queue_item_selection_ok; [|exact Hs].
    intros h it Hsh Heq. eapply Hfresh; [exact Hsh|]. rewrite fmap_cons, Heq. now left.
Qed.

Lemma clear_shown (s : YouTubeDownloader.t) (h : nat) (it : VideoQueueItem.t) :
  shown_item (_clear_video_display s) h <> Some it.
Proof.
  intros Hs. apply shown_item_iff in Hs as [Hh _]. now apply elem_of_nil in Hh.
Qed.

End Selection.

Section SelectionInvariant.

Import YouTubeDownloader.

Lemma filter_ids_subset (p : VideoInfo -> bool) (l : list VideoInfo) (k : string) :
  k ∈ video_id <$> List.filter p l -> k ∈ video_id <$> l.
Proof.
  intros H. apply list_elem_of_fmap in H as (v & -> & Hv).
  apply list_elem_of_fmap. exists v. split; [reflexivity|].
  apply list_elem_of_In. apply list_elem_of_In, List.filter_In in Hv. tauto.
Qed.

Lemma filter_ids_NoDup (p : VideoInfo -> bool) (l : list VideoInfo) :
  NoDup (video_id <$> l) -> NoDup (video_id <$> List.filter p l).
Proof.
  induction l as [|v l IH]; cbn; [auto|].
  rewrite NoDup_cons. intros [Hv Hn]. destruct (p v); [|auto].
  rewrite fmap_cons. apply NoDup_cons. split; [|auto].
  intros Hin. now apply Hv, (filter_ids_subset p).
Qed.

Lemma remove_from_queue_selection_ok (vid : string) (s : YouTubeDownloader.t) :
  selection_ok s -> selection_ok (_remove_from_queue vid s).
Proof.
  intros (H1 & H2 & H3 & H4). unfold _remove_from_queue. state_simpl.
  set (q := List.filter _ (video_queue s)).
  assert (Hq : forall k, k <> vid -> k ∈ video_id <$> video_queue s ->
                         k ∈ video_id <$> q).
  { intros k Hne Hin. apply list_elem_of_fmap in Hin as (v & -> & Hv).
    apply list_elem_of_fmap. exists v. split; [reflexivity|].
    subst q. apply list_elem_of_In, List.filter_In. split.
    - now apply list_elem_of_In.
    - apply negb_true_iff, String.eqb_neq. exact Hne. }
  assert (Hnd : NoDup (video_id <$> q)) by (subst q; now apply filter_ids_NoDup).
  assert (Hsel : forall k, k ∈ selected_videos s ∖ {[vid]} -> k ∈ video_id <$> q).
  { intros k Hk. apply elem_of_difference in Hk as [Hk Hne].
    apply Hq; [|now apply H1]. intros ->. apply Hne. now apply elem_of_singleton. }
  unfold selection_ok.
  destruct (Dict.get vid (queue_items s)) as [h0|] eqn:Hg; state_simpl;
    destruct (List.length q =? 0)%nat; state_simpl;
    (split; [exact Hsel|]); (split; [|split; [|exact Hnd]]).
  1,3: intros h it Hh Hw;
       apply list_elem_of_In, List.filter_In in Hh as [Hh Hne];
       apply list_elem_of_In in Hh;
       apply negb_true_iff, Nat.eqb_neq in Hne;
       rewrite lookup_delete_ne in Hw by congruence;
       rewrite dict_get_del;
       destruct (String.eqb_spec (video_id (VideoQueueItem.video_info it)) vid)
         as [E|_]; [|now apply H2];
       specialize (H2 h it Hh Hw); rewrite E in H2; congruence.
  1,2: intros h Hh; apply list_elem_of_In, List.filter_In in Hh as [Hh _];
       apply H3; now apply list_elem_of_In.
  1,3: exact H2.
  1,2: exact H3.
Qed.

Lemma remove_all_selection_ok (vids : list string) (s : YouTubeDownloader.t) :
  selection_ok s ->
  selection_ok (foldl (fun s vid => _remove_from_queue vid s) s vids).
Proof.
  revert s. induction vids as [|vid vids IH]; intros s Hs; [exact Hs|].
  cbn [foldl]. now apply IH, remove_from_queue_selection_ok.
Qed.

Lemma selection_ok_NoDup (s : YouTubeDownloader.t) :
  selection_ok s -> NoDup (queued_ids s).
Proof. now intros (_ & _ & _ & H). Qed.

(** Rebuilding the queue view from the queue. *)
Lemma rebuild_selection_ok (s : YouTubeDownloader.t) :
  NoDup (queued_ids s) ->
  selection_ok (foldl (fun s v => _add_queue_item v s)
                      (_clear_video_display s) (video_queue s)).
Proof.
  intros Hn. apply add_queue_items_selection_ok.
  - exact Hn.
  - intros h it Hs. now apply clear_shown in Hs.
  - now apply clear_selection_ok.
Qed.

Lemma add_to_queue_selection_ok (v : VideoInfo) (s : YouTubeDownloader.t) :
  registered_ok s -> selection_ok s -> selection_ok (snd (_add_to_queue v s)).
Proof.
  intros Hr Hs. unfold _add_to_queue.
  destruct (bool_decide_reflect (video_id v ∈ queued_ids s)) as [Hin|Hn];
    [exact Hs|]. cbn [snd].
  set (s1 := set_video_queue (video_queue s ++ [v]) s).
  assert (H1 : selection_ok s1).
  { destruct Hs as (H1 & H2 & H3 & H4). unfold selection_ok. subst s1. state_simpl.
    repeat split; try assumption.
    - intros k Hk. rewrite fmap_app. apply elem_of_app. left. now apply H1.
    - rewrite fmap_app. apply NoDup_app. split; [exact H4|]. split.
      + intros k Hk Hk'. apply list_elem_of_singleton in Hk' as ->. now apply Hn.
      + apply NoDup_singleton. }
  assert (H2 : selection_ok (_add_queue_item v s1)).
  { apply add_queue_item_selection_ok; [|exact H1].
    intros h it Hsh Heq. apply Hn. rewrite <- Heq.
    apply (shown_item_queued s h it Hr Hs). exact Hsh. }
  exact H2.
Qed.

Lemma handle_selection_ok (e : event) (s : YouTubeDownloader.t) :
  distinct_ids e -> registered_ok s -> selection_ok s ->
  selection_ok (handle e s).
Proof.
  intros He Hr Hs.
  destruct e as [v|vs|h|h|h| | | | |dir|o|sg]; cbn [handle].
  - unfold _on_video_info_fetched. destruct (is_queue_mode s).
    + now apply add_to_queue_selection_ok.
    + match goal with |- selection_ok (set_download_btn_enabled _ ?x) =>
        assert (H' : selection_ok x) end; [|exact H'].
      apply display_single_selection_ok.
      destruct (clear_selection_ok s (selection_ok_NoDup s Hs)) as (H1 & H2 & H3 & _).
      unfold selection_ok. state_simpl. repeat split; try assumption.
      * intros k Hk. now apply elem_of_empty in Hk.
      * rewrite fmap_cons. apply NoDup_singleton.
  - unfold _on_playlist_fetched.
    match goal with |- selection_ok (set_download_btn_enabled _ ?x) =>
      assert (H' : selection_ok x) end; [|exact H'].
    apply add_queue_items_selection_ok.
    + exact He.
    + intros h it Hsh. apply shown_item_iff in Hsh as [Hh _].
      now apply elem_of_nil in Hh.
    + unfold selection_ok. state_simpl. repeat split.
      * intros k Hk. now apply elem_of_empty in Hk.
      * intros h it Hh. now apply elem_of_nil in Hh.
      * intros h Hh. now apply elem_of_nil in Hh.
      * exact He.
  - destruct (shown_item s h); [|exact Hs]. now apply remove_from_queue_selection_ok.
  - destruct (shown_item s h) as [it|] eqn:Hsh; [|exact Hs].
    unfold checkbox_toggled. apply selection_changed_selection_ok.
    + left. now apply (shown_item_queued s h it).
    + apply shown_item_iff in Hsh as [_ Hw].
      unfold selection_ok. state_simpl. eapply view_ok_update; eauto.
  - destruct (shown_item s h); [|exact Hs]. unfold _on_queue_item_clicked.
    destruct (negb (is_queue_mode s)); [exact Hs|].
    destruct (List.find _ _); [|exact Hs].
    apply display_single_selection_ok.
    apply (clear_selection_ok (set_viewing_single_in_queue true s)).
    now apply selection_ok_NoDup.
  - unfold _delete_selected.
    pose proof (remove_all_selection_ok (elements (selected_videos s)) s Hs)
      as (H1 & H2 & H3 & H4).
    unfold selection_ok. state_simpl. repeat split; try assumption.
    intros k Hk. now apply elem_of_empty in Hk.
  - unfold _cancel_selection.
    assert (H : forall vids s0, selection_ok s0 ->
              selection_ok
                (foldl (fun s vid =>
                          match Dict.get vid (queue_items s) with
                          | Some h => set_selected h false s
                          | None => s
                          end) s0 vids)).
    { induction vids as [|vid vids IH]; intros s0 H0; [exact H0|].
      cbn [foldl]. apply IH.
      destruct (Dict.get vid (queue_items s0)); [|exact H0].
      now apply set_selected_selection_ok. }
    destruct (H (elements (selected_videos s)) s Hs) as (H1 & H2 & H3 & H4).
    unfold selection_ok. state_simpl. repeat split; try assumption.
    intros k Hk. now apply elem_of_empty in Hk.
  - unfold _back_to_queue.
    destruct (negb (viewing_single_in_queue s) || negb (is_queue_mode s));
      [exact Hs|].
    apply (rebuild_selection_ok (set_viewing_single_in_queue false s)).
    now apply selection_ok_NoDup.
  - unfold _toggle_mode.
    destruct (video_queue s) as [|first rest] eqn:Hq; [exact Hs|].
    state_simpl. destruct (negb (is_queue_mode s)).
    + apply (rebuild_selection_ok
               (set_viewing_single_in_queue false (set_is_queue_mode true s))).
      now apply selection_ok_NoDup.
    + apply display_single_selection_ok.
      apply (clear_selection_ok
               (set_viewing_single_in_queue false (set_is_queue_mode false s))).
      now apply selection_ok_NoDup.
  - unfold _browse_output. destruct (String.eqb dir ""); exact Hs.
  - unfold _start_download.
    destruct (video_queue s) as [|first rest] eqn:Hq; [exact Hs|].
    destruct (bulk_view s); [|exact Hs].
    match goal with |- selection_ok (foldl _ ?x ?l) =>
      assert (H : forall vs s0, selection_ok s0 ->
                selection_ok (foldl (fun s video => start_worker o video s) s0 vs))
    end.
    { induction vs as [|v vs IH]; intros s0 H0; [exact H0|].
      cbn [foldl]. apply IH. exact H0. }
    apply H. exact Hs.
  - destruct sg as [vid p sp et|vid ok msg]; cbn [deliver].
    + unfold _on_download_progress.
      set (s1 := set_download_progress _ s).
      assert (H2 : selection_ok
                     (with_item vid (VideoQueueItem.update_progress p sp et) s1)).
      { apply with_item_selection_ok; [reflexivity|exact Hs]. }
      set (s2 := with_item _ _ s1) in *.
      destruct (size (download_progress s2) =? 0)%nat; [exact H2|].
      destruct (bulk_view _); exact H2.
    + unfold _on_download_finished.
      set (s1 := set_active_downloads _ s).
      set (s2 := if ok then _ else _).
      assert (H2 : selection_ok s2).
      { subst s2. destruct ok; apply with_item_selection_ok;
          solve [reflexivity|exact Hs]. }
      destruct (active_downloads s2 <=? 0); [|exact H2].
      match goal with |- context [if all_success ?x then _ else _] =>
        destruct (all_success x) end; [|exact H2].
      match goal with |- context [if bulk_view ?x then _ else _] =>
        destruct (bulk_view x) end; [|exact H2].
      apply remove_all_selection_ok. exact H2.
Qed.

(** When no fetched playlist lists a video twice, the selected ids are
    queued ids in every state the window reaches. *)
Lemma selection_subset_when_ids_distinct (dir : string) (es : list event)
    (k : string) :
  Forall distinct_ids es ->
  k ∈ selected_videos (run_events es (init dir)) ->
  k ∈ queued_ids (run_events es (init dir)).
Proof.
  intros Hes.
  assert (H : registered_ok (run_events es (init dir)) /\
              selection_ok (run_events es (init dir))).
  { unfold run_events.
    assert (H0 : registered_ok (init dir) /\ selection_ok (init dir)).
    { split; [now apply items_nil_registered|].
      repeat split.
      - intros k0 Hk0. now apply elem_of_empty in Hk0.
      - intros h it Hh. now apply elem_of_nil in Hh.
      - intros h Hh. now apply elem_of_nil in Hh.
      - constructor. }
    revert H0. generalize (init dir).
    induction Hes as [|e es He _ IH]; intros s [Hr Hs]; [now split|].
    cbn [foldl]. apply IH. split.
    - now apply handle_registered.
    - now apply handle_selection_ok. }
  destruct H as [_ (H1 & _)]. exact (H1 k).
Qed.

End SelectionInvariant.

(** ** Removal at the end of a batch *)

Section Removal.

Import YouTubeDownloader.

(** Outside the bulk view a terminal event never touches the queue. *)
Lemma finished_keeps_queue_outside_bulk (vid : string) (ok : bool)
    (msg : string) (s : YouTubeDownloader.t) :
  bulk_view s = false ->
  video_queue (_on_download_finished vid ok msg s) = video_queue s.
Proof.
  intros Hb. unfold _on_download_finished.
  set (s1 := set_active_downloads _ s).
  set (s2 := if ok then _ else _).
  assert (H2 : same_queue s s2).
  { eapply (same_queue_trans _ s1); [now repeat split|].
    subst s2. destruct ok; apply with_item_same_queue. }
  destruct H2 as (Hq & _ & Hm & Hv).
  destruct (active_downloads s2 <=? 0); state_simpl; [|exact Hq].
  match goal with |- context [if all_success ?x then _ else _] =>
    destruct (all_success x) end; state_simpl; [|exact Hq].
  match goal with |- context [if bulk_view ?x then _ else _] =>
    replace (bulk_view x) with false end; [state_simpl; exact Hq|].
  unfold bulk_view in *. state_simpl. now rewrite Hm, Hv.
Qed.

(** While other tasks are still active a terminal event never touches the
    queue. *)
Lemma finished_keeps_queue_while_active (vid : string) (ok : bool)
    (msg : string) (s : YouTubeDownloader.t) :
  1 < active_downloads s ->
  video_queue (_on_download_finished vid ok msg s) = video_queue s.
Proof.
  intros Ha. unfold _on_download_finished.
  set (s1 := set_active_downloads _ s).
  set (s2 := if ok then _ else _).
  assert (H2 : same_queue s s2 /\ active_downloads s2 = active_downloads s - 1).
  { subst s2. destruct ok;
      match goal with |- context [with_item ?v ?f ?x] =>
        pose proof (with_item_same_queue v f x) as Hsq;
        destruct (with_item_same_batch v f x) as (Hsa & _) end;
      (split; [eapply (same_queue_trans _ s1); [now repeat split|exact Hsq]
              |rewrite Hsa; reflexivity]). }
  destruct H2 as ((Hq & _) & Hact).
  destruct (Z.leb_spec (active_downloads s2) 0); [lia|].
  state_simpl. exact Hq.
Qed.

(** A failure of a task whose queue item is registered and whose record is
    queued, arriving as the last terminal event, gives the verdict "some
    errors" and removes nothing. *)
Lemma last_failure_keeps_queue (vid : string) (msg : string)
    (s : YouTubeDownloader.t) (it : VideoQueueItem.t) :
  active_downloads s <= 1 ->
  vid ∈ queued_ids s -> item_of s vid = Some it ->
  video_queue (_on_download_finished vid false msg s) = video_queue s /\
  status_label (_on_download_finished vid false msg s) =
    "Downloads completed with some errors. Check individual statuses.".
Proof.
  intros Ha Hin Hit. unfold _on_download_finished.
  set (s1 := set_active_downloads _ s).
  set (f := VideoQueueItem.mark_failed _).
  set (s2 := with_item vid f s1).
  destruct (with_item_same_queue vid f s1) as (Hq & Hi & _).
  destruct (with_item_same_batch vid f s1) as (Hact & _).
  fold s2 in Hq, Hi, Hact.
  assert (Hit2 : item_of s2 vid = Some (f it)).
  { unfold item_of in *. rewrite Hi. subst s2. unfold with_item. subst s1.
    state_simpl. destruct (Dict.get vid (queue_items s)) as [h|]; [|discriminate].
    destruct (widgets s !! h) as [[it0|v0]|]; try discriminate.
    injection Hit as ->. state_simpl. now rewrite lookup_insert_eq. }
  destruct (Z.leb_spec (active_downloads s2) 0) as [_|Hgt];
    [|rewrite Hact in Hgt; subst s1; state_simpl_in Hgt; lia].
  match goal with |- context [if all_success ?x then _ else _] =>
    assert (Hall : all_success x = false) end.
  { apply not_true_is_false. intros Hall.
    apply list_elem_of_fmap in Hin as (v & Hv & Hvin).
    pose proof (proj1 (all_success_iff _) Hall v (f it)) as Hl.
    assert (Hlabel : startswith (VideoQueueItem.status_label (f it)) "✓" = true).
    { apply Hl.
      - state_simpl. now rewrite Hq.
      - rewrite <- Hv. exact Hit2. }
    subst f. cbn in Hlabel. discriminate. }
  rewrite Hall. state_simpl. now rewrite Hq.
Qed.

End Removal.

(** * Further properties of the code *)

(** ** One run of a worker *)

Section WorkerRunMore.

Import DownloadWorker.

(** X1: every signal a run emits, progress or terminal, carries the video id
    the worker was built with, whatever the engine does and whenever
    [stop()] is called. *)
Theorem run_signals_carry_own_id (self : DownloadWorker.t)
    (engine : engine_script) (stop : option nat) :
  Forall (fun sg => signal_vid sg = video_id self) (run self engine stop).
Proof.
  unfold run. destruct (is_running_at stop 0); [|constructor].
  pose proof (download_own_id self stop (ticks engine) (outcome engine) 1) as Hp.
  destruct (download self stop 1 (ticks engine) (outcome engine)) as [sigs exn].
  cbn in Hp. destruct exn; apply Forall_app; split; auto; repeat constructor.
Qed.

(** X2: a run that gets past its test of [_is_running] emits progress events
    followed by exactly one terminal event, which is the last signal; and no
    run at all emits more than one terminal event. *)
Theorem run_terminal_event_last (self : DownloadWorker.t)
    (engine : engine_script) (stop : option nat) :
  (terminal_count (run self engine stop) <= 1)%nat /\
  (is_running_at stop 0 = true ->
   exists ps vid ok msg,
     run self engine stop = ps ++ [finished vid ok msg] /\
     Forall (fun p => is_progress p = true) ps /\
     terminal_count (run self engine stop) = 1%nat).
Proof.
  split; [apply run_terminal_count_le|].
  intros Hr. pose proof (run_task_stream self engine stop Hr) as Hts.
  pose proof (task_stream_terminal_count _ Hts) as Hc.
  destruct Hts as (ps & sg & E & Hps & Hsg).
  destruct sg as [|vid ok msg]; [discriminate|].
  now exists ps, vid, ok, msg.
Qed.

Lemma run_terminal_event_last_witness :
  is_running_at (Some 2%nat) 0 = true /\
  terminal_count (run sample_worker two_tick_engine (Some 2%nat)) = 1%nat.
Proof.
  split; [reflexivity|].
  destruct (proj2 (run_terminal_event_last sample_worker two_tick_engine
                     (Some 2%nat)) eq_refl) as (ps & vid & ok & msg & _ & _ & H).
  exact H.
Defined.

(** With [stop()] taking effect before checkpoint [k], the download behaves
    on the ticks before [k] as if never stopped and raises at tick [k]. *)
Lemma download_cancelled (self : DownloadWorker.t) (k : nat)
    (ds : list progress_dict) (final : option string) (c : nat) :
  (c <= k)%nat -> (k - c < List.length ds)%nat ->
  snd (download self None c (take (k - c) ds) None) = None ->
  download self (Some k) c ds final =
    (fst (download self None c (take (k - c) ds) None), Some "Download cancelled").
Proof.
  revert c. induction ds as [|d ds IH]; intros c Hc Hlen Hok; [cbn in Hlen; lia|].
  cbn [download is_running_at].
  destruct (Nat.ltb_spec c k) as [Hlt|Hge].
  - replace (k - c)%nat with (S (k - S c)) in * by lia.
    cbn [take download is_running_at] in *.
    destruct (_progress_hook self true d) as [sigs|e];
      [|cbn in Hok; discriminate Hok].
    assert (Hlen' : (k - S c < List.length ds)%nat) by (cbn in Hlen; lia).
    specialize (IH (S c) ltac:(lia) Hlen').
    destruct (download self None (S c) (take (k - S c) ds) None) as [r x] eqn:Hd.
    cbn in Hok. rewrite (IH Hok). reflexivity.
  - replace (k - c)%nat with 0%nat by lia. reflexivity.
Qed.

(** X3: cancellation.  If [stop()] takes effect before the [k]-th call of
    the hook and none of the earlier calls raised, the run emits the
    progress events of the first [k - 1] ticks only and ends with the
    failure event "Download failed: Download cancelled"; the engine's own
    outcome is never reported. *)
Theorem run_cancelled_at_next_tick (self : DownloadWorker.t)
    (ds : list progress_dict) (final : option string) (k : nat) :
  (1 <= k <= List.length ds)%nat ->
  snd (download self None 1 (take (k - 1) ds) None) = None ->
  run self (mkEngine ds final) (Some k) =
    fst (download self None 1 (take (k - 1) ds) None) ++
    [finished (video_id self) false "Download failed: Download cancelled"].
Proof.
  intros Hk Hok. unfold run. cbn [ticks outcome is_running_at].
  destruct (Nat.ltb_spec 0 k); [|lia].
  rewrite (download_cancelled self k ds final 1) by (assumption || lia).
  reflexivity.
Qed.

Lemma run_cancelled_at_next_tick_witness :
  run sample_worker two_tick_engine (Some 2%nat) =
    [progress "abc" (100 / 200 * 100) "2.0 KB/s" "2m 5s";
     finished "abc" false "Download failed: Download cancelled"].
Proof.
  exact (run_cancelled_at_next_tick sample_worker
           [halfway_tick; overshoot_tick] None 2
           (conj (le_S _ _ (le_n 1)) (le_n 2)) eq_refl).
Defined.

Lemma download_stop_late (self : DownloadWorker.t) (k : nat)
    (ds : list progress_dict) (final : option string) (c : nat) :
  (c + List.length ds <= k)%nat ->
  download self (Some k) c ds final = download self None c ds final.
Proof.
  revert c. induction ds as [|d ds IH]; intros c Hk; [reflexivity|].
  cbn [download is_running_at]. cbn in Hk.
  destruct (Nat.ltb_spec c k); [|lia].
  now rewrite IH by lia.
Qed.

(** X4: a [stop()] that comes after the last call of the hook changes
    nothing: the run emits what it emits when never stopped, success
    included. *)
Theorem run_stop_after_last_tick (self : DownloadWorker.t)
    (engine : engine_script) (k : nat) :
  (List.length (ticks engine) < k)%nat ->
  run self engine (Some k) = run self engine None.
Proof.
  intros Hk. unfold run. cbn [is_running_at].
  destruct (Nat.ltb_spec 0 k); [|lia].
  now rewrite download_stop_late by lia.
Qed.

Lemma run_stop_after_last_tick_witness :
  run sample_worker two_tick_engine (Some 3%nat) =
  run sample_worker two_tick_engine None.
Proof.
  exact (run_stop_after_last_tick sample_worker two_tick_engine 3 (le_n 3)).
Defined.

Lemma download_exception (self : DownloadWorker.t) (stop : option nat)
    (ds : list progress_dict) (e : string) (c : nat) :
  snd (download self stop c ds (Some e)) <> None.
Proof.
  revert c. induction ds as [|d ds IH]; intros c; cbn [download];
    [discriminate|].
  destruct (_progress_hook self (is_running_at stop c) d); cbn [snd];
    [|discriminate].
  specialize (IH (S c)).
  now destruct (download self stop (S c) ds (Some e)).
Qed.

Lemma download_final (self : DownloadWorker.t) (ds : list progress_dict)
    (final : option string) (c : nat) :
  snd (download self None c ds None) = None ->
  download self None c ds final = (fst (download self None c ds None), final).
Proof.
  revert c. induction ds as [|d ds IH]; intros c;
    cbn [download is_running_at]; [reflexivity|].
  destruct (_progress_hook self true d); cbn [fst snd];
    [|intros H; discriminate H].
  specialize (IH (S c)).
  destruct (download self None (S c) ds final) as [r' x'] eqn:Hf.
  destruct (download self None (S c) ds None) as [r x]. cbn in *.
  intros Hx. specialize (IH Hx). now injection IH as -> ->.
Qed.

(** X5: the terminal event tells the truth about the engine.  When the
    engine ends with an error, no run reports success; and in a run that is
    never stopped and in which no hook raises, the terminal event is the
    success event if the engine returned, and the failure event carrying
    the engine's error text if it raised. *)
Theorem run_reports_engine_outcome (self : DownloadWorker.t)
    (ds : list progress_dict) :
  (forall e stop ps vid msg,
     run self (mkEngine ds (Some e)) stop <> ps ++ [finished vid true msg]) /\
  (snd (download self None 1 ds None) = None ->
   run self (mkEngine ds None) None =
     fst (download self None 1 ds None) ++
     [finished (video_id self) true "Download completed successfully!"] /\
   forall e,
     run self (mkEngine ds (Some e)) None =
       fst (download self None 1 ds None) ++
       [finished (video_id self) false ("Download failed: " +:+ e)]).
Proof.
  split.
  - intros e stop ps vid msg. unfold run. cbn [ticks outcome].
    destruct (is_running_at stop 0); [|now destruct ps].
    pose proof (download_exception self stop ds e 1) as Hx.
    destruct (download self stop 1 ds (Some e)) as [sigs [x|]];
      [|now cbn in Hx].
    intros E. apply app_inj_tail in E as [_ E]. discriminate.
  - intros Hok. unfold run. cbn [ticks outcome is_running_at]. split.
    + destruct (download self None 1 ds None) as [sigs x]. cbn in *. now subst x.
    + intros e. now rewrite (download_final self ds (Some e) 1 Hok).
Qed.

Lemma run_reports_engine_outcome_witness :
  run sample_worker failing_engine None =
    [progress "abc" (100 / 200 * 100) "2.0 KB/s" "2m 5s";
     progress "abc" (150 / 100 * 100) "0 B/s" "Unknown";
     finished "abc" false "Download failed: HTTP Error 403: Forbidden"].
Proof.
  exact (proj2 (proj2 (run_reports_engine_outcome sample_worker
                         [halfway_tick; overshoot_tick]) eq_refl)
               "HTTP Error 403: Forbidden").
Defined.

(** X6: a tick with status "downloading" that has no usable [total_bytes]
    (absent, [None] or zero) and whose [total_bytes_estimate] is present but
    [None] makes the hook raise a [TypeError]; a run meeting such a tick
    first emits no progress at all and ends in failure with that text,
    whatever the engine would have done next. *)
Theorem run_fails_on_unknown_estimate (self : DownloadWorker.t)
    (d : progress_dict) (rest : list progress_dict) (final : option string) :
  status d = "downloading" ->
  truthy (get_default (total_bytes d) PyNone) = false ->
  total_bytes_estimate d = Some PyNone ->
  _progress_hook self true d =
    Raise "'>' not supported between instances of 'NoneType' and 'int'" /\
  run self (mkEngine (d :: rest) final) None =
    [finished (video_id self) false
       "Download failed: '>' not supported between instances of 'NoneType' and 'int'"].
Proof.
  intros Hs Ht He.
  assert (Hh : _progress_hook self true d =
               Raise "'>' not supported between instances of 'NoneType' and 'int'").
  { unfold _progress_hook, percentage_of, total_of, py_or.
    cbn [negb]. now rewrite Hs, Ht, He. }
  split; [exact Hh|].
  unfold run. cbn [ticks outcome is_running_at download]. now rewrite Hh.
Qed.

Lemma run_fails_on_unknown_estimate_witness :
  run sample_worker (mkEngine [unknown_estimate_tick; halfway_tick] None) None =
    [finished "abc" false
       "Download failed: '>' not supported between instances of 'NoneType' and 'int'"].
Proof.
  exact (proj2 (run_fails_on_unknown_estimate sample_worker unknown_estimate_tick
                  [halfway_tick] None eq_refl eq_refl eq_refl)).
Defined.

End WorkerRunMore.

(** ** Labels for time and speed *)

Section Labels.

Import DownloadWorker.

Lemma format_time_fields (n : Z) :
  0 < n ->
  _format_time (PyNum (inject_Z n)) =
    if 0 <? n / 3600
    then str (n / 3600) +:+ "h " +:+ str ((n mod 3600) / 60) +:+ "m " +:+
         str (n mod 60) +:+ "s"
    else if 0 <? (n mod 3600) / 60
    then str ((n mod 3600) / 60) +:+ "m " +:+ str (n mod 60) +:+ "s"
    else str (n mod 60) +:+ "s".
Proof.
  intros Hn. unfold _format_time.
  rewrite truthy_inject_Z.
  destruct (Z.eqb_spec n 0) as [->|_]; [lia|]. cbn [negb orb].
  destruct (Qlt_le_dec (inject_Z n) 0) as [Hlt|_].
  { exfalso. change 0%Q with (inject_Z 0) in Hlt. rewrite <- Zlt_Qlt in Hlt. lia. }
  change 3600%Q with (inject_Z 3600). change 60%Q with (inject_Z 60).
  rewrite floordiv_inject_Z, int_inject_Z.
  rewrite (floordiv_comp _ _ _ (pymod_inject_Z n 3600 ltac:(lia))).
  rewrite floordiv_inject_Z, int_inject_Z.
  rewrite (int_comp _ _ (pymod_inject_Z n 60 ltac:(lia))), int_inject_Z.
  reflexivity.
Qed.

(** X7: the ETA label.  An absent, zero or negative ETA is "Unknown"; a
    positive whole number of seconds below a minute is "Ns", below an hour
    "Mm Ss", and from an hour on "Hh Mm Ss" with all three fields printed
    (none of them padded). *)
Theorem format_time_correct (n : Z) :
  _format_time PyNone = "Unknown" /\
  (n <= 0 -> _format_time (PyNum (inject_Z n)) = "Unknown") /\
  (0 < n < 60 -> _format_time (PyNum (inject_Z n)) = str n +:+ "s") /\
  (60 <= n < 3600 ->
   _format_time (PyNum (inject_Z n)) =
     str (n / 60) +:+ "m " +:+ str (n mod 60) +:+ "s") /\
  (3600 <= n ->
   _format_time (PyNum (inject_Z n)) =
     str (n / 3600) +:+ "h " +:+ str ((n mod 3600) / 60) +:+ "m " +:+
     str (n mod 60) +:+ "s").
Proof.
  split; [reflexivity|]. split; [|split; [|split]].
  - intros Hn. unfold _format_time. rewrite truthy_inject_Z.
    destruct (Z.eqb_spec n 0) as [->|Hne]; [reflexivity|]. cbn [negb orb].
    destruct (Qlt_le_dec (inject_Z n) 0) as [_|Hle]; [reflexivity|].
    exfalso. change 0%Q with (inject_Z 0) in Hle. rewrite <- Zle_Qle in Hle. lia.
  - intros Hn. rewrite format_time_fields by lia.
    rewrite (Z.div_small n 3600), (Z.mod_small n 3600), (Z.div_small n 60),
      (Z.mod_small n 60) by lia.
    reflexivity.
  - intros Hn. rewrite format_time_fields by lia.
    rewrite (Z.div_small n 3600), (Z.mod_small n 3600) by lia.
    assert (0 < n / 60) by (apply Z.div_str_pos; lia).
    destruct (Z.ltb_spec 0 (n / 60)); [|lia]. reflexivity.
  - intros Hn. rewrite format_time_fields by lia.
    assert (0 < n / 3600) by (apply Z.div_str_pos; lia).
    destruct (Z.ltb_spec 0 (n / 3600)); [|lia]. reflexivity.
Qed.

Lemma format_time_correct_witness :
  _format_time (PyNum (inject_Z 3725)) =
    str 1 +:+ "h " +:+ str 2 +:+ "m " +:+ str 5 +:+ "s".
Proof.
  exact (proj2 (proj2 (proj2 (proj2 (format_time_correct 3725))))
               ltac:(discriminate)).
Defined.

Lemma append_empty_r (s : string) : s +:+ "" = s.
Proof. induction s as [|c s IH]; cbn; [reflexivity|now rewrite IH]. Qed.

Lemma round_half_even_comp (a b : Q) :
  (a == b)%Q -> round_half_even a = round_half_even b.
Proof.
  intros H. unfold round_half_even.
  rewrite (Qfloor_comp a b H).
  assert (Hc : (a - inject_Z (Qfloor b) ?= 1 # 2)%Q =
               (b - inject_Z (Qfloor b) ?= 1 # 2)%Q).
  { apply Qcompare_comp; [now rewrite H|reflexivity]. }
  now rewrite Hc.
Qed.

(** [round_half_even] returns the nearest integer, the even one at a tie. *)
Lemma round_half_even_nearest (v : Q) : nearest_even v (round_half_even v).
Proof.
  unfold nearest_even, round_half_even.
  pose proof (Qfloor_le v) as Hlo. pose proof (Qlt_floor v) as Hhi.
  rewrite inject_Z_plus in Hhi. change (inject_Z 1) with 1%Q in Hhi.
  set (f := Qfloor v) in *.
  destruct (Qcompare_spec (v - inject_Z f) (1 # 2)) as [He|Hl|Hg].
  - assert (Hup : (Qabs (v - inject_Z (f + 1)) == 1 # 2)%Q).
    { rewrite inject_Z_plus. change (inject_Z 1) with 1%Q.
      rewrite Qabs_neg by lra. lra. }
    assert (Hdn : (Qabs (v - inject_Z f) == 1 # 2)%Q).
    { rewrite Qabs_pos by lra. lra. }
    destruct (Z.even f) eqn:Hev; right.
    + now split.
    + split; [exact Hup|]. rewrite Z.even_add, Hev. reflexivity.
  - left. rewrite Qabs_pos by lra. exact Hl.
  - left. rewrite inject_Z_plus. change (inject_Z 1) with 1%Q.
    rewrite Qabs_neg by lra. lra.
Qed.

(** ... and it is the only such integer. *)
Lemma nearest_even_unique (v : Q) (m : Z) :
  nearest_even v m -> m = round_half_even v.
Proof.
  intros Hm. unfold round_half_even.
  pose proof (Qfloor_le v) as Hlo. pose proof (Qlt_floor v) as Hhi.
  rewrite inject_Z_plus in Hhi. change (inject_Z 1) with 1%Q in Hhi.
  set (f := Qfloor v) in *.
  assert (Hle : (Qabs (v - inject_Z m) <= 1 # 2)%Q).
  { destruct Hm as [H|[H _]]; [now apply Qlt_le_weak|rewrite H; apply Qle_refl]. }
  apply Qabs_Qle_condition in Hle as [Hm1 Hm2].
  assert (Hcases : m = f \/ m = f + 1).
  { assert (H1 : (inject_Z (f + -1) < inject_Z m)%Q).
    { rewrite inject_Z_plus. change (inject_Z (-1)) with (-1 # 1)%Q. lra. }
    assert (H2 : (inject_Z m < inject_Z (f + 2))%Q).
    { rewrite inject_Z_plus. change (inject_Z 2) with 2%Q. lra. }
    rewrite <- Zlt_Qlt in H1, H2. lia. }
  destruct (Qcompare_spec (v - inject_Z f) (1 # 2)) as [He|Hl|Hg].
  - destruct Hm as [Hlt|[_ Hev]].
    + exfalso. apply Qabs_Qlt_condition in Hlt as [Ha Hb].
      destruct Hcases as [->| ->].
      * lra.
      * rewrite inject_Z_plus in Ha. change (inject_Z 1) with 1%Q in Ha. lra.
    + destruct Hcases as [->| ->]; [now rewrite Hev|].
      rewrite Z.even_add in Hev. destruct (Z.even f); [discriminate|reflexivity].
  - destruct Hcases as [->| ->]; [reflexivity|]. exfalso.
    rewrite inject_Z_plus in Hm1. change (inject_Z 1) with 1%Q in Hm1. lra.
  - destruct Hcases as [->| ->]; [|reflexivity]. exfalso. lra.
Qed.

(** X8: the speed label.  An absent or zero speed is "0 B/s"; every
    positive speed below 1024 is printed in whole bytes, as the integer
    nearest to it (at distance below one half, or at distance exactly one
    half and even), followed by " B/s"; such an integer always exists; so a
    whole number of bytes prints as itself, and the byte tier can print
    1024. *)
Theorem format_speed_bytes_tier (v : Q) :
  _format_speed PyNone = "0 B/s" /\
  ((v == 0)%Q -> _format_speed (PyNum v) = "0 B/s") /\
  ((0 < v)%Q -> (v < 1024)%Q ->
   (exists m : Z, nearest_even v m) /\
   (forall m : Z, nearest_even v m ->
      _format_speed (PyNum v) = str m +:+ " B/s")) /\
  (forall n : Z, 0 < n < 1024 ->
     _format_speed (PyNum (inject_Z n)) = str n +:+ " B/s") /\
  _format_speed (PyNum (2047 # 2)) = "1024 B/s".
Proof.
  assert (Htier : forall w m, (0 < w)%Q -> (w < 1024)%Q -> nearest_even w m ->
                    _format_speed (PyNum w) = str m +:+ " B/s").
  { intros w m Hpos Hlt Hm. unfold _format_speed, truthy.
    assert (Hnz : Qeq_bool w 0 = false).
    { apply not_true_is_false. intros Hz. apply Qeq_bool_iff in Hz.
      rewrite Hz in Hpos. now apply Qlt_irrefl in Hpos. }
    rewrite Hnz. cbn [negb].
    destruct (Qlt_le_dec w 1024) as [_|Hge];
      [|exfalso; now apply (Qlt_not_le _ _ Hlt)].
    unfold format_f.
    assert (Hle : Qle_bool 0 w = true)
      by (apply Qle_bool_iff; now apply Qlt_le_weak).
    rewrite Hle. cbn [Z.of_nat Z.pow String.append].
    change (10 ^ 0) with 1. rewrite Z.div_1_r.
    rewrite (round_half_even_comp (Qabs w * inject_Z (10 ^ Z.of_nat 0)) w).
    - rewrite append_empty_r. now rewrite <- (nearest_even_unique w m Hm).
    - rewrite Qabs_pos by now apply Qlt_le_weak.
      change (inject_Z (10 ^ Z.of_nat 0)) with 1%Q. ring. }
  split; [reflexivity|]. split; [|split; [|split]].
  - intros Hz. unfold _format_speed, truthy.
    apply Qeq_bool_iff in Hz. now rewrite Hz.
  - intros Hpos Hlt. split.
    + exists (round_half_even v). apply round_half_even_nearest.
    + intros m Hm. now apply Htier.
  - intros n Hn. apply Htier.
    + change 0%Q with (inject_Z 0). rewrite <- Zlt_Qlt. lia.
    + change 1024%Q with (inject_Z 1024). rewrite <- Zlt_Qlt. lia.
    + left. rewrite Qabs_pos by lra. lra.
  - apply (Htier (2047 # 2) 1024); [reflexivity|reflexivity|].
    right. split; reflexivity.
Qed.

Lemma format_speed_bytes_tier_witness :
  _format_speed (PyNum (5 # 2)) = str 2 +:+ " B/s".
Proof.
  refine (proj2 (proj1 (proj2 (proj2 (format_speed_bytes_tier (5 # 2))))
                   eq_refl eq_refl) 2 _).
  right. split; reflexivity.
Defined.

End Labels.

(** ** The queue and its view *)

Section QueueMore.

Import YouTubeDownloader.

Lemma handle_mode_ok (e : event) (s : YouTubeDownloader.t) :
  mode_ok s -> mode_ok (handle e s).
Proof.
  unfold mode_ok. intros Hs.
  assert (Hsq : forall s', same_queue s s' ->
                  viewing_single_in_queue s' = true -> is_queue_mode s' = true).
  { intros s' (_ & _ & -> & ->). exact Hs. }
  assert (Hrm : forall vid s0,
            (viewing_single_in_queue s0 = true -> is_queue_mode s0 = true) ->
            viewing_single_in_queue (_remove_from_queue vid s0) = true ->
            is_queue_mode (_remove_from_queue vid s0) = true).
  { intros vid s0 H0. unfold _remove_from_queue. state_simpl.
    destruct (Dict.get vid (queue_items s0)); state_simpl;
      match goal with |- context [if ?c then _ else _] => destruct c end;
      state_simpl; solve [discriminate|exact H0]. }
  assert (Hrms : forall vids s0,
            (viewing_single_in_queue s0 = true -> is_queue_mode s0 = true) ->
            viewing_single_in_queue
              (foldl (fun s vid => _remove_from_queue vid s) s0 vids) = true ->
            is_queue_mode
              (foldl (fun s vid => _remove_from_queue vid s) s0 vids) = true).
  { induction vids as [|vid vids IH]; intros s0 H0; [exact H0|].
    cbn [foldl]. apply IH, Hrm, H0. }
  destruct e as [v|vs|h|h|h| | | | |dir|o|sg]; cbn [handle].
  - unfold _on_video_info_fetched, _add_to_queue.
    destruct (is_queue_mode s) eqn:Hm;
      [|unfold _display_single_video, _clear_video_display; state_simpl;
        rewrite Hm; exact Hs].
    destruct (bool_decide _); cbn [snd]; [now rewrite Hm|].
    intros _. exact Hm.
  - intros _.
    assert (H : forall vs0 s0, is_queue_mode
                (foldl (fun s v => _add_queue_item v s) s0 vs0) = is_queue_mode s0).
    { induction vs0 as [|v0 vs0 IH]; intros s0; [reflexivity|].
      cbn [foldl]. now rewrite IH. }
    unfold _on_playlist_fetched. state_simpl. now rewrite H.
  - destruct (shown_item s h); [|exact Hs]. now apply Hrm.
  - destruct (shown_item s h); [|exact Hs]. apply Hsq.
    unfold checkbox_toggled.
    eapply same_queue_trans; [|apply selection_changed_same_queue].
    now repeat split.
  - destruct (shown_item s h); [|exact Hs]. unfold _on_queue_item_clicked.
    destruct (is_queue_mode s) eqn:Hm; cbn [negb]; [|now rewrite Hm in *].
    destruct (List.find _ _); [|now rewrite Hm]. intros _. exact Hm.
  - unfold _delete_selected. state_simpl. now apply Hrms.
  - apply Hsq, cancel_selection_same_queue.
  - unfold _back_to_queue.
    destruct (negb (viewing_single_in_queue s) || negb (is_queue_mode s));
      [exact Hs|].
    assert (H : forall vs0 s0, viewing_single_in_queue
                (foldl (fun s v => _add_queue_item v s) s0 vs0) =
                viewing_single_in_queue s0).
    { induction vs0 as [|v0 vs0 IH]; intros s0; [reflexivity|].
      cbn [foldl]. now rewrite IH. }
    rewrite H. discriminate.
  - unfold _toggle_mode. destruct (video_queue s); [exact Hs|].
    assert (H : forall vs0 s0, viewing_single_in_queue
                (foldl (fun s v => _add_queue_item v s) s0 vs0) =
                viewing_single_in_queue s0).
    { induction vs0 as [|v0 vs0 IH]; intros s0; [reflexivity|].
      cbn [foldl]. now rewrite IH. }
    state_simpl. destruct (negb (is_queue_mode s)); [rewrite H|]; discriminate.
  - apply Hsq. unfold _browse_output. destruct (String.eqb dir "");
      [apply same_queue_refl|now repeat split].
  - apply Hsq, start_download_same_queue.
  - destruct sg as [vid p sp et|vid ok msg]; cbn [deliver].
    + apply Hsq, on_download_progress_same_queue.
    + unfold _on_download_finished.
      set (s1 := set_active_downloads _ s).
      set (s2 := if ok then _ else _).
      assert (H2 : same_queue s s2).
      { eapply (same_queue_trans _ s1); [now repeat split|].
        subst s2. destruct ok; apply with_item_same_queue. }
      destruct H2 as (_ & _ & Hm & Hv).
      assert (H2 : viewing_single_in_queue s2 = true -> is_queue_mode s2 = true)
        by (rewrite Hm, Hv; exact Hs).
      destruct (active_downloads s2 <=? 0); [|exact H2].
      match goal with |- context [if all_success ?x then _ else _] =>
        destruct (all_success x) end; [|exact H2].
      match goal with |- context [if bulk_view ?x then _ else _] =>
        destruct (bulk_view x) end; [|exact H2].
      apply Hrms. exact H2.
Qed.

(** X9: in every state the window reaches from start-up, every id under
    which a queue item is registered is the id of a queued record, and the
    single view of a queue item is only ever open in queue mode. *)
Theorem reachable_view_consistent (s : YouTubeDownloader.t) :
  reachable s ->
  (forall k, k ∈ Dict.keys (queue_items s) -> k ∈ queued_ids s) /\
  (viewing_single_in_queue s = true -> is_queue_mode s = true).
Proof.
  intros Hr. split; [exact (proj1 (reachable_registered s Hr))|].
  destruct Hr as (dir & es & ->). unfold run_events.
  assert (H0 : mode_ok (init dir)) by (intros H; discriminate H).
  revert H0. generalize (init dir). induction es as [|e es IH]; intros s Hs.
  - exact Hs.
  - cbn [foldl]. now apply IH, handle_mode_ok.
Qed.

Lemma reachable_view_consistent_witness :
  reachable mixed_view_window /\
  is_queue_mode mixed_view_window = true.
Proof.
  assert (Hr : reachable mixed_view_window).
  { unfold mixed_view_window, playlist_window, fresh_window.
    do 2 apply reachable_run_events. apply reachable_init. }
  split; [exact Hr|].
  apply (proj2 (reachable_view_consistent mixed_view_window Hr)).
  vm_compute. reflexivity.
Defined.

(** X10: as long as no fetched playlist lists a video twice, the selected
    ids are ids of queued records in every state the window reaches,
    whatever the user and the workers do. *)
Theorem selection_within_queue (dir : string) (es : list event) :
  Forall distinct_ids es ->
  forall k, k ∈ selected_videos (run_events es (init dir)) ->
            k ∈ queued_ids (run_events es (init dir)).
Proof.
  intros Hes k. now apply selection_subset_when_ids_distinct.
Qed.

Lemma selection_within_queue_witness :
  "bbb" ∈ queued_ids (run_events ticked_events (init "/home/user/Downloads")).
Proof.
  apply (selection_within_queue "/home/user/Downloads" ticked_events).
  - unfold ticked_events. repeat constructor; cbn;
      intros H; apply list_elem_of_In in H; cbn in H;
      repeat (destruct H as [H|H]; [discriminate H|]); exact H.
  - assert (E : selected_videos
                  (run_events ticked_events (init "/home/user/Downloads")) =
                {["bbb"]} ∪ ∅)
      by (vm_compute; reflexivity).
    rewrite E. apply elem_of_union_l, elem_of_singleton. reflexivity.
Defined.

End QueueMore.

(** ** Removing records *)

Section RemoveMore.

Import YouTubeDownloader.

Lemma remove_from_queue_queue (vid : string) (s : YouTubeDownloader.t) :
  video_queue (_remove_from_queue vid s) =
  List.filter (fun v => negb (String.eqb (video_id v) vid)) (video_queue s).
Proof.
  unfold _remove_from_queue. state_simpl.
  destruct (Dict.get vid (queue_items s)); state_simpl;
    match goal with |- context [if ?c then _ else _] => destruct c end;
    reflexivity.
Qed.

Lemma remove_from_queue_selected (vid : string) (s : YouTubeDownloader.t) :
  selected_videos (_remove_from_queue vid s) = selected_videos s ∖ {[vid]}.
Proof.
  unfold _remove_from_queue. state_simpl.
  destruct (Dict.get vid (queue_items s)); state_simpl;
    match goal with |- context [if ?c then _ else _] => destruct c end;
    reflexivity.
Qed.

Lemma remove_from_queue_items (vid : string) (s : YouTubeDownloader.t) :
  queue_items (_remove_from_queue vid s) = Dict.del vid (queue_items s).
Proof.
  assert (Hnone : forall d : list (string * nat),
            Dict.get vid d = None -> Dict.del vid d = d).
  { induction d as [|[k h] d IH]; cbn; [reflexivity|].
    destruct (String.eqb vid k); [discriminate|]. intros H. now rewrite IH. }
  unfold _remove_from_queue. state_simpl.
  destruct (Dict.get vid (queue_items s)) eqn:Hg; state_simpl;
    match goal with |- context [if ?c then _ else _] => destruct c end;
    state_simpl; try reflexivity; now rewrite Hnone.
Qed.

Lemma filter_absent (vid : string) (q : list VideoInfo) :
  vid ∉ video_id <$> q ->
  List.filter (fun v => negb (String.eqb (video_id v) vid)) q = q.
Proof.
  induction q as [|v q IH]; cbn; [reflexivity|].
  rewrite not_elem_of_cons. intros [Hne Hq].
  destruct (String.eqb_spec (video_id v) vid); [congruence|]. cbn.
  now rewrite IH.
Qed.

(** X11: removing a record.  Afterwards the id is neither queued nor
    selected; every other id is queued and selected exactly as before, and
    the remaining records keep their order; removing an id that is not
    queued leaves the queue as it is; and when the queue becomes empty the
    window falls back to single mode with the download button disabled. *)
Theorem remove_from_queue_effect (vid : string) (s : YouTubeDownloader.t) :
  (vid ∉ queued_ids (_remove_from_queue vid s)) /\
  (vid ∉ selected_videos (_remove_from_queue vid s)) /\
  video_queue (_remove_from_queue vid s) =
    List.filter (fun v => negb (String.eqb (video_id v) vid)) (video_queue s) /\
  (forall k, k <> vid ->
     (k ∈ selected_videos (_remove_from_queue vid s) <-> k ∈ selected_videos s)) /\
  (vid ∉ queued_ids s ->
   video_queue (_remove_from_queue vid s) = video_queue s) /\
  (video_queue (_remove_from_queue vid s) = [] ->
   is_queue_mode (_remove_from_queue vid s) = false /\
   viewing_single_in_queue (_remove_from_queue vid s) = false /\
   download_btn_enabled (_remove_from_queue vid s) = false).
Proof.
  destruct (remove_from_queue_both vid s) as [H1 H2].
  split; [exact H1|]. split; [exact H2|].
  split; [apply remove_from_queue_queue|]. split; [|split].
  - intros k Hne. rewrite remove_from_queue_selected, elem_of_difference,
      elem_of_singleton. tauto.
  - intros Hn. rewrite remove_from_queue_queue. now apply filter_absent.
  - rewrite remove_from_queue_queue. unfold _remove_from_queue. state_simpl.
    set (q := List.filter _ (video_queue s)). intros Hq.
    destruct (Dict.get vid (queue_items s)); state_simpl;
      rewrite Hq; cbn; now repeat split.
Qed.

Lemma remove_from_queue_effect_witness :
  (video_id video_d ∉ queued_ids playlist_window) /\
  video_queue (_remove_from_queue (video_id video_d) playlist_window) =
    video_queue playlist_window.
Proof.
  assert (Hn : video_id video_d ∉ queued_ids playlist_window).
  { intros H. apply list_elem_of_In in H. cbn in H.
    repeat (destruct H as [H|H]; [discriminate H|]). exact H. }
  split; [exact Hn|].
  exact (proj1 (proj2 (proj2 (proj2 (proj2
           (remove_from_queue_effect (video_id video_d) playlist_window))))) Hn).
Defined.

Lemma filter_twice {A : Type} (p q : A -> bool) (l : list A) :
  List.filter p (List.filter q l) = List.filter (fun x => q x && p x) l.
Proof.
  induction l as [|x l IH]; cbn; [reflexivity|].
  destruct (q x); cbn; [destruct (p x)|]; now rewrite IH.
Qed.

Lemma remove_all_queue (vids : list string) (s : YouTubeDownloader.t) :
  video_queue (foldl (fun s vid => _remove_from_queue vid s) s vids) =
  List.filter (fun v => bool_decide (video_id v ∉ vids)) (video_queue s).
Proof.
  revert s. induction vids as [|vid vids IH]; intros s; cbn [foldl].
  - symmetry. apply forallb_filter_id, forallb_forall. intros v _.
    apply bool_decide_eq_true. apply not_elem_of_nil.
  - rewrite IH, remove_from_queue_queue, filter_twice.
    apply List.filter_ext. intros v.
    destruct (String.eqb_spec (video_id v) vid) as [E|Hne]; cbn.
    + symmetry. apply bool_decide_eq_false. intros Hn. apply Hn. rewrite E. now left.
    + apply bool_decide_ext. rewrite not_elem_of_cons. tauto.
Qed.

Lemma remove_all_items (vids : list string) (s : YouTubeDownloader.t) (k : string) :
  k ∈ Dict.keys (queue_items (foldl (fun s vid => _remove_from_queue vid s) s vids))
  <-> k ∈ Dict.keys (queue_items s) /\ k ∉ vids.
Proof.
  revert s. induction vids as [|vid vids IH]; intros s; cbn [foldl].
  - split; [intros H; split; [exact H|apply not_elem_of_nil]|tauto].
  - rewrite IH, remove_from_queue_items, dict_keys_del, not_elem_of_cons. tauto.
Qed.

(** X12: deleting the selection removes exactly the queued records whose id
    is selected: the queue afterwards is the old queue without them, in the
    old order, and the selection is empty. *)
Theorem delete_selected_effect (s : YouTubeDownloader.t) :
  video_queue (_delete_selected s) =
    List.filter (fun v => bool_decide (video_id v ∉ selected_videos s))
                (video_queue s) /\
  selected_videos (_delete_selected s) = ∅ /\
  (forall k, k ∈ Dict.keys (queue_items (_delete_selected s)) <->
             k ∈ Dict.keys (queue_items s) /\ k ∉ selected_videos s).
Proof.
  unfold _delete_selected. state_simpl. split; [|split; [reflexivity|]].
  - rewrite remove_all_queue. apply List.filter_ext. intros v.
    apply bool_decide_ext. now rewrite elem_of_elements.
  - intros k. rewrite remove_all_items. now rewrite elem_of_elements.
Qed.

End RemoveMore.

(** ** Rebuilding the queue view *)

Section RebuildView.

Import YouTubeDownloader.

Lemma dict_keys_set_new {V : Type} (k : string) (v : V) (d : list (string * V)) :
  k ∉ Dict.keys d -> Dict.keys (Dict.set k v d) = Dict.keys d ++ [k].
Proof.
  unfold Dict.keys. induction d as [|[k0 v0] d IH]; cbn; [reflexivity|].
  rewrite not_elem_of_cons. intros [Hne Hd].
  destruct (String.eqb_spec k k0); [congruence|]. cbn. now rewrite IH.
Qed.

(** What adding items leaves alone. *)
Lemma add_queue_items_frame (vs : list VideoInfo) (s : YouTubeDownloader.t) :
  video_queue (foldl (fun s v => _add_queue_item v s) s vs) = video_queue s /\
  is_queue_mode (foldl (fun s v => _add_queue_item v s) s vs) = is_queue_mode s /\
  viewing_single_in_queue (foldl (fun s v => _add_queue_item v s) s vs) =
    viewing_single_in_queue s /\
  selected_videos (foldl (fun s v => _add_queue_item v s) s vs) =
    selected_videos s /\
  download_btn_enabled (foldl (fun s v => _add_queue_item v s) s vs) =
    download_btn_enabled s.
Proof.
  revert s. induction vs as [|v vs IH]; intros s; [now repeat split|].
  cbn [foldl]. destruct (IH (_add_queue_item v s)) as (-> & -> & -> & -> & ->).
  now repeat split.
Qed.

Lemma add_queue_items_keys (vs : list VideoInfo) (s : YouTubeDownloader.t) :
  NoDup (video_id <$> vs) ->
  (forall k, k ∈ video_id <$> vs -> k ∉ Dict.keys (queue_items s)) ->
  Dict.keys (queue_items (foldl (fun s v => _add_queue_item v s) s vs)) =
  Dict.keys (queue_items s) ++ (video_id <$> vs).
Proof.
  revert s. induction vs as [|v vs IH]; intros s Hn Hfresh.
  - cbn. now rewrite app_nil_r.
  - cbn [foldl]. rewrite fmap_cons in Hn, Hfresh.
    apply NoDup_cons in Hn as [Hv Hn].
    assert (Hk : Dict.keys (queue_items (_add_queue_item v s)) =
                 Dict.keys (queue_items s) ++ [video_id v]).
    { unfold _add_queue_item. state_simpl. apply dict_keys_set_new.
      apply Hfresh. now left. }
    rewrite IH; [|exact Hn|].
    + rewrite Hk, fmap_cons, <- app_assoc. reflexivity.
    + intros k Hin. rewrite Hk, not_elem_of_app. split.
      * apply Hfresh. now right.
      * rewrite list_elem_of_singleton. intros ->. now apply Hv.
Qed.

(** Later additions do not disturb an item registered earlier. *)
Lemma add_queue_items_keep (vs : list VideoInfo) (s : YouTubeDownloader.t)
    (k : string) (h : nat) :
  Dict.get k (queue_items s) = Some h -> (h < next_handle s)%nat ->
  k ∉ video_id <$> vs ->
  item_of (foldl (fun s v => _add_queue_item v s) s vs) k = item_of s k.
Proof.
  revert s. induction vs as [|v vs IH]; intros s Hg Hh Hk; [reflexivity|].
  cbn [foldl]. rewrite fmap_cons, not_elem_of_cons in Hk. destruct Hk as [Hne Hk].
  assert (Hg' : Dict.get k (queue_items (_add_queue_item v s)) = Some h).
  { unfold _add_queue_item. state_simpl. rewrite dict_get_set.
    apply String.eqb_neq in Hne. now rewrite Hne. }
  rewrite (IH (_add_queue_item v s) Hg'); [| |exact Hk].
  - unfold item_of. rewrite Hg', Hg. unfold _add_queue_item. state_simpl.
    rewrite lookup_insert_ne by lia. reflexivity.
  - unfold _add_queue_item. state_simpl. lia.
Qed.

Lemma add_queue_items_item_of (vs : list VideoInfo) (s : YouTubeDownloader.t)
    (v : VideoInfo) :
  NoDup (video_id <$> vs) -> v ∈ vs ->
  item_of (foldl (fun s v => _add_queue_item v s) s vs) (video_id v) =
    Some (VideoQueueItem.init v).
Proof.
  revert s. induction vs as [|v0 vs IH]; intros s Hn Hv.
  - now apply elem_of_nil in Hv.
  - cbn [foldl]. rewrite fmap_cons in Hn. apply NoDup_cons in Hn as [Hv0 Hn].
    apply elem_of_cons in Hv as [->|Hv]; [|now apply IH].
    rewrite (add_queue_items_keep vs (_add_queue_item v0 s) (video_id v0)
               (next_handle s)); [| | |exact Hv0].
    + unfold item_of, _add_queue_item. state_simpl.
      rewrite dict_get_set, String.eqb_refl. now rewrite lookup_insert_eq.
    + unfold _add_queue_item. state_simpl.
      now rewrite dict_get_set, String.eqb_refl.
    + unfold _add_queue_item. state_simpl. lia.
Qed.

(** Clearing the display and adding an item per queued record. *)
Lemma rebuild_view (s : YouTubeDownloader.t) :
  NoDup (queued_ids s) ->
  Dict.keys (queue_items (foldl (fun s v => _add_queue_item v s)
                                (_clear_video_display s) (video_queue s))) =
    queued_ids s /\
  (forall v, v ∈ video_queue s ->
     item_of (foldl (fun s v => _add_queue_item v s)
                    (_clear_video_display s) (video_queue s)) (video_id v) =
       Some (VideoQueueItem.init v)).
Proof.
  intros Hn. split.
  - rewrite add_queue_items_keys; [reflexivity|exact Hn|].
    intros k _. apply not_elem_of_nil.
  - intros v Hv. now apply add_queue_items_item_of.
Qed.

(** X13: switching modes.  With an empty queue the button does nothing.
    Otherwise it flips the mode, keeps the queue, leaves the single view of
    a queue item and empties the selection; switching to single mode
    registers no queue item, and switching to queue mode (queued ids being
    distinct) registers exactly one fresh item per queued record, in queue
    order. *)
Theorem toggle_mode_effect (s : YouTubeDownloader.t) :
  (video_queue s = [] -> _toggle_mode s = s) /\
  (video_queue s <> [] ->
   is_queue_mode (_toggle_mode s) = negb (is_queue_mode s) /\
   viewing_single_in_queue (_toggle_mode s) = false /\
   video_queue (_toggle_mode s) = video_queue s /\
   selected_videos (_toggle_mode s) = ∅) /\
  (video_queue s <> [] -> is_queue_mode s = true ->
   queue_items (_toggle_mode s) = []) /\
  (video_queue s <> [] -> is_queue_mode s = false -> NoDup (queued_ids s) ->
   Dict.keys (queue_items (_toggle_mode s)) = queued_ids s /\
   forall v, v ∈ video_queue s ->
     item_of (_toggle_mode s) (video_id v) = Some (VideoQueueItem.init v)).
Proof.
  unfold _toggle_mode. split; [intros ->; reflexivity|].
  destruct (video_queue s) as [|first rest] eqn:Hq.
  { split; [congruence|]. split; congruence. }
  rewrite <- Hq. state_simpl. split; [|split].
  - intros _. destruct (is_queue_mode s); cbn [negb].
    + now repeat split.
    + match goal with |- context [foldl _ ?x ?l] =>
        destruct (add_queue_items_frame l x) as (-> & -> & -> & -> & _) end.
      now repeat split.
  - intros _ ->. reflexivity.
  - intros _ -> Hn. cbn [negb].
    exact (rebuild_view
             (set_viewing_single_in_queue false (set_is_queue_mode true s)) Hn).
Qed.

Lemma toggle_mode_effect_witness :
  Dict.keys (queue_items (_toggle_mode (_toggle_mode playlist_window))) =
    ["aaa"; "bbb"; "ccc"].
Proof.
  refine (proj1 (proj2 (proj2 (proj2
            (toggle_mode_effect (_toggle_mode playlist_window)))) _ _ _)).
  - vm_compute. discriminate.
  - vm_compute. reflexivity.
  - assert (E : queued_ids (_toggle_mode playlist_window) = ["aaa"; "bbb"; "ccc"])
      by (vm_compute; reflexivity).
    rewrite E. repeat constructor;
      intros H; apply list_elem_of_In in H; cbn in H;
      repeat (destruct H as [H|H]; [discriminate H|]); exact H.
Defined.

Lemma find_queued (vid : string) (q : list VideoInfo) :
  vid ∈ video_id <$> q ->
  exists v, List.find (fun v => String.eqb (video_id v) vid) q = Some v.
Proof.
  induction q as [|v q IH]; cbn.
  - intros H. now apply elem_of_nil in H.
  - destruct (String.eqb_spec (video_id v) vid); [now exists v|].
    rewrite elem_of_cons. intros [?|H]; [congruence|auto].
Qed.

(** X14: opening a queue item and going back.  From queue mode, with
    distinct queued ids, opening the single view of a queued record and then
    pressing the back button restores the queue view with the same queue
    and one registered item per record in queue order; but the selection is
    empty and every item is a fresh one, so earlier ticks and download
    status labels are gone. *)
Theorem open_item_and_back (s : YouTubeDownloader.t) (vid : string) :
  is_queue_mode s = true -> vid ∈ queued_ids s -> NoDup (queued_ids s) ->
  viewing_single_in_queue (_on_queue_item_clicked vid s) = true /\
  queue_items (_on_queue_item_clicked vid s) = [] /\
  video_queue (_back_to_queue (_on_queue_item_clicked vid s)) = video_queue s /\
  bulk_view (_back_to_queue (_on_queue_item_clicked vid s)) = true /\
  selected_videos (_back_to_queue (_on_queue_item_clicked vid s)) = ∅ /\
  Dict.keys (queue_items (_back_to_queue (_on_queue_item_clicked vid s))) =
    queued_ids s /\
  (forall v, v ∈ video_queue s ->
     item_of (_back_to_queue (_on_queue_item_clicked vid s)) (video_id v) =
       Some (VideoQueueItem.init v)).
Proof.
  intros Hm Hv Hn. unfold _on_queue_item_clicked. rewrite Hm. cbn [negb].
  destruct (find_queued vid (video_queue s) Hv) as (v0 & ->).
  split; [reflexivity|]. split; [reflexivity|].
  unfold _back_to_queue.
  set (s1 := _display_single_video v0 _).
  assert (H1 : viewing_single_in_queue s1 = true /\ is_queue_mode s1 = true /\
               video_queue s1 = video_queue s) by (now repeat split).
  destruct H1 as (Hv1 & Hm1 & Hq1). rewrite Hv1, Hm1. cbn [negb orb].
  match goal with |- context [foldl _ ?x ?l] =>
    destruct (add_queue_items_frame l x) as (Ef1 & Ef2 & Ef3 & Ef4 & _) end.
  unfold bulk_view. rewrite Ef1, Ef2, Ef3, Ef4.
  split; [exact Hq1|].
  split; [unfold _clear_video_display; state_simpl; now rewrite Hm1|].
  split; [reflexivity|].
  assert (Hn1 : NoDup (queued_ids (set_viewing_single_in_queue false s1)))
    by (unfold queued_ids; state_simpl; now rewrite Hq1).
  destruct (rebuild_view (set_viewing_single_in_queue false s1) Hn1) as [Hk Hi].
  split.
  - etransitivity; [exact Hk|]. unfold queued_ids. state_simpl. now rewrite Hq1.
  - intros v Hin. apply Hi. state_simpl. now rewrite Hq1.
Qed.

Lemma open_item_and_back_witness :
  selected_videos
    (_back_to_queue
       (_on_queue_item_clicked "bbb" (run_events ticked_events fresh_window))) = ∅.
Proof.
  refine (proj1 (proj2 (proj2 (proj2 (proj2
            (open_item_and_back (run_events ticked_events fresh_window) "bbb"
               _ _ _)))))).
  - vm_compute. reflexivity.
  - apply list_elem_of_In. vm_compute. auto.
  - assert (E : queued_ids (run_events ticked_events fresh_window) =
                ["aaa"; "bbb"; "ccc"]) by (vm_compute; reflexivity).
    rewrite E. repeat constructor;
      intros H; apply list_elem_of_In in H; cbn in H;
      repeat (destruct H as [H|H]; [discriminate H|]); exact H.
Defined.

(** X15: a fetched playlist replaces the queue by its records, switches to
    the bulk queue view, empties the selection and enables the download
    button exactly when the playlist is not empty; if its ids are distinct,
    one fresh item is registered per record, in playlist order.  An empty
    playlist thus leaves the window in queue mode with nothing queued. *)
Theorem playlist_fetched_effect (videos : list VideoInfo)
    (s : YouTubeDownloader.t) :
  video_queue (_on_playlist_fetched videos s) = videos /\
  bulk_view (_on_playlist_fetched videos s) = true /\
  selected_videos (_on_playlist_fetched videos s) = ∅ /\
  download_btn_enabled (_on_playlist_fetched videos s) =
    negb (Nat.eqb (List.length videos) 0) /\
  (NoDup (video_id <$> videos) ->
   Dict.keys (queue_items (_on_playlist_fetched videos s)) = video_id <$> videos /\
   forall v, v ∈ videos ->
     item_of (_on_playlist_fetched videos s) (video_id v) =
       Some (VideoQueueItem.init v)).
Proof.
  unfold _on_playlist_fetched, bulk_view. state_simpl.
  match goal with |- context [foldl _ ?x ?l] =>
    destruct (add_queue_items_frame l x) as (Ef1 & Ef2 & Ef3 & Ef4 & _) end.
  rewrite Ef1, Ef2, Ef3, Ef4.
  split; [reflexivity|]. split; [reflexivity|]. split; [reflexivity|].
  split; [now destruct videos|].
  intros Hn. split.
  - rewrite add_queue_items_keys; [reflexivity|exact Hn|].
    intros k _. apply not_elem_of_nil.
  - intros v Hv. unfold item_of. state_simpl.
    now apply (add_queue_items_item_of videos).
Qed.

Lemma playlist_fetched_effect_witness :
  item_of (_on_playlist_fetched [video_a; video_b] single_window) "bbb" =
    Some (VideoQueueItem.init video_b).
Proof.
  refine (proj2 (proj2 (proj2 (proj2 (proj2
            (playlist_fetched_effect [video_a; video_b] single_window)))) _)
            video_b _).
  - repeat constructor;
      intros H; apply list_elem_of_In in H; cbn in H;
      repeat (destruct H as [H|H]; [discriminate H|]); exact H.
  - apply list_elem_of_In. cbn. auto.
Defined.

End RebuildView.

(** ** Starting and finishing a batch *)

Section BatchMore.

Import YouTubeDownloader.

Lemma start_workers_progress (o : download_options) (vs : list VideoInfo)
    (s : YouTubeDownloader.t) (k : string) :
  download_progress (foldl (fun s video => start_worker o video s) s vs) !! k =
    if bool_decide (k ∈ video_id <$> vs) then Some 0%Q
    else download_progress s !! k.
Proof.
  revert s. induction vs as [|v vs IH]; intros s; cbn [foldl].
  - rewrite bool_decide_eq_false_2; [reflexivity|apply not_elem_of_nil].
  - rewrite IH, fmap_cons. unfold start_worker. state_simpl.
    destruct (bool_decide_reflect (k ∈ video_id <$> vs)) as [Hin|Hn].
    + rewrite bool_decide_eq_true_2; [reflexivity|now right].
    + destruct (decide (video_id v = k)) as [->|Hne].
      * rewrite lookup_insert_eq, bool_decide_eq_true_2; [reflexivity|now left].
      * rewrite lookup_insert_ne by assumption.
        rewrite bool_decide_eq_false_2; [reflexivity|].
        rewrite not_elem_of_cons. split; [congruence|assumption].
Qed.

(** X16: pressing the download button with an empty queue does nothing at
    all.  Otherwise the progress map is rebuilt from scratch: afterwards it
    holds 0 for the id of every record of the batch and has no other key,
    whatever it held before; the bar is shown at 0 and the button is
    disabled. *)
Theorem start_download_resets_progress (o : download_options)
    (s : YouTubeDownloader.t) :
  (video_queue s = [] -> _start_download o s = s) /\
  (video_queue s <> [] ->
   (forall k, download_progress (_start_download o s) !! k =
              if bool_decide (k ∈ video_id <$> batch_records s)
              then Some 0%Q else None) /\
   progress_bar_value (_start_download o s) = 0 /\
   progress_bar_visible (_start_download o s) = true /\
   download_btn_enabled (_start_download o s) = false).
Proof.
  unfold _start_download, batch_records. split; [now intros ->|].
  destruct (video_queue s) as [|first rest] eqn:Hq; [congruence|]. intros _.
  destruct (bulk_view s).
  - assert (Hfr : forall vs s0,
              progress_bar_value (foldl (fun s video => start_worker o video s) s0 vs)
                = progress_bar_value s0 /\
              progress_bar_visible (foldl (fun s video => start_worker o video s) s0 vs)
                = progress_bar_visible s0 /\
              download_btn_enabled (foldl (fun s video => start_worker o video s) s0 vs)
                = download_btn_enabled s0).
    { induction vs as [|v vs IH]; intros s0; [now repeat split|].
      cbn [foldl]. destruct (IH (start_worker o v s0)) as (-> & -> & ->).
      now repeat split. }
    split; [|apply Hfr].
    intros k. rewrite start_workers_progress. state_simpl. rewrite Hq.
    destruct (bool_decide _); [reflexivity|apply lookup_empty].
  - split; [|now repeat split].
    intros k. unfold start_worker. state_simpl. cbn [take fmap list_fmap].
    destruct (decide (video_id first = k)) as [->|Hne].
    + rewrite lookup_insert_eq, bool_decide_eq_true_2; [reflexivity|now left].
    + rewrite lookup_insert_ne by assumption.
      rewrite bool_decide_eq_false_2; [apply lookup_empty|].
      rewrite list_elem_of_singleton. congruence.
Qed.

Lemma start_download_resets_progress_witness :
  download_progress (_start_download sample_options overshoot_window) !! "aaa" =
    Some 0%Q.
Proof.
  assert (Hq : video_queue overshoot_window <> [])
    by (vm_compute; discriminate).
  rewrite (proj1 (proj2 (start_download_resets_progress sample_options
                           overshoot_window) Hq) "aaa").
  rewrite bool_decide_eq_true_2; [reflexivity|].
  replace (batch_records overshoot_window) with [video_a]
    by (vm_compute; reflexivity).
  apply list_elem_of_In. cbn. auto.
Defined.

(** X17: worker signals and the queue.  A progress event never changes the
    queue, the registry of items or the mode; neither does a terminal event
    that arrives outside the bulk view or while another task is still
    active.  Only the last terminal event of a bulk batch can remove
    records. *)
Theorem signals_keep_queue (sg : signal) (s : YouTubeDownloader.t) :
  is_progress sg = true \/ bulk_view s = false \/ 1 < active_downloads s ->
  video_queue (deliver sg s) = video_queue s /\
  queue_items (deliver sg s) = queue_items s /\
  is_queue_mode (deliver sg s) = is_queue_mode s /\
  viewing_single_in_queue (deliver sg s) = viewing_single_in_queue s.
Proof.
  intros H. destruct sg as [vid p sp et|vid ok msg]; cbn [deliver].
  { apply on_download_progress_same_queue. }
  destruct H as [H|H]; [discriminate H|].
  unfold _on_download_finished.
  set (s1 := set_active_downloads _ s).
  set (s2 := if ok then _ else _).
  assert (H2 : same_queue s s2 /\ active_downloads s2 = active_downloads s - 1).
  { subst s2. destruct ok;
      match goal with |- context [with_item ?v ?f ?x] =>
        pose proof (with_item_same_queue v f x) as Hsq;
        destruct (with_item_same_batch v f x) as (Hsa & _) end;
      (split; [eapply (same_queue_trans _ s1); [now repeat split|exact Hsq]
              |rewrite Hsa; reflexivity]). }
  destruct H2 as (Hsq & Hact).
  destruct (Z.leb_spec (active_downloads s2) 0) as [Hle|_]; [|exact Hsq].
  match goal with |- context [if all_success ?x then _ else _] =>
    destruct (all_success x) end; [|exact Hsq].
  destruct H as [Hb|Ha]; [|lia].
  match goal with |- context [if bulk_view ?x then _ else _] =>
    replace (bulk_view x) with false end; [exact Hsq|].
  destruct Hsq as (_ & _ & Hm & Hv).
  unfold bulk_view in *. state_simpl. now rewrite Hm, Hv.
Qed.

Lemma signals_keep_queue_witness :
  video_queue
    (deliver (finished "aaa" true "Download completed successfully!")
             (_start_download sample_options playlist_window)) =
  video_queue (_start_download sample_options playlist_window).
Proof.
  apply signals_keep_queue. right. right. vm_compute. reflexivity.
Defined.

(** X18: the verdict when the last task fails.  When the last terminal
    event of a batch reports failure for a task whose record is queued and
    has a registered queue item, the window announces "Downloads completed
    with some errors. Check individual statuses.", removes nothing from the
    queue, enables the download button again, and the item registered under
    that id afterwards is the same item with the label "✗ Failed: " followed
    by the message with every occurrence of "Download failed: " removed. *)
Theorem last_failure_verdict (vid : string) (msg : string)
    (s : YouTubeDownloader.t) (it : VideoQueueItem.t) :
  active_downloads s <= 1 ->
  vid ∈ queued_ids s -> item_of s vid = Some it ->
  video_queue (_on_download_finished vid false msg s) = video_queue s /\
  status_label (_on_download_finished vid false msg s) =
    "Downloads completed with some errors. Check individual statuses." /\
  download_btn_enabled (_on_download_finished vid false msg s) = true /\
  exists it',
    item_of (_on_download_finished vid false msg s) vid = Some it' /\
    VideoQueueItem.status_label it' =
      "✗ Failed: " +:+ replace msg "Download failed: " "" /\
    VideoQueueItem.video_info it' = VideoQueueItem.video_info it /\
    VideoQueueItem.checkbox it' = VideoQueueItem.checkbox it.
Proof.
  intros Ha Hin Hit. unfold _on_download_finished.
  set (s1 := set_active_downloads _ s).
  set (f := VideoQueueItem.mark_failed _).
  set (s2 := with_item vid f s1).
  destruct (with_item_same_queue vid f s1) as (Hq & Hi & _).
  destruct (with_item_same_batch vid f s1) as (Hact & _).
  fold s2 in Hq, Hi, Hact.
  assert (Hit2 : item_of s2 vid = Some (f it)).
  { unfold item_of in *. rewrite Hi. subst s2. unfold with_item. subst s1.
    state_simpl. destruct (Dict.get vid (queue_items s)) as [h|]; [|discriminate].
    destruct (widgets s !! h) as [[it0|v0]|]; try discriminate.
    injection Hit as ->. state_simpl. now rewrite lookup_insert_eq. }
  destruct (Z.leb_spec (active_downloads s2) 0) as [_|Hgt];
    [|rewrite Hact in Hgt; subst s1; state_simpl_in Hgt; lia].
  match goal with |- context [if all_success ?x then _ else _] =>
    assert (Hall : all_success x = false) end.
  { apply not_true_is_false. intros Hall.
    apply list_elem_of_fmap in Hin as (v & Hv & Hvin).
    pose proof (proj1 (all_success_iff _) Hall v (f it)) as Hl.
    assert (Hlabel : startswith (VideoQueueItem.status_label (f it)) "✓" = true).
    { apply Hl.
      - state_simpl. now rewrite Hq.
      - rewrite <- Hv. exact Hit2. }
    subst f. cbn in Hlabel. discriminate. }
  rewrite Hall. state_simpl. rewrite Hq.
  split; [reflexivity|]. split; [reflexivity|]. split; [reflexivity|].
  exists (f it). split; [|now repeat split].
  unfold item_of in *. state_simpl. exact Hit2.
Qed.

Lemma last_failure_verdict_witness :
  status_label
    (_on_download_finished "aaa" false "Download failed: timed out"
       one_left_window) =
    "Downloads completed with some errors. Check individual statuses." /\
  exists it',
    item_of (_on_download_finished "aaa" false "Download failed: timed out"
               one_left_window) "aaa" = Some it' /\
    VideoQueueItem.status_label it' = "✗ Failed: timed out".
Proof.
  destruct (last_failure_verdict "aaa" "Download failed: timed out"
              one_left_window (VideoQueueItem.init video_a))
    as (_ & Hs & _ & it' & Hit & Hl & _).
  - vm_compute. discriminate.
  - apply list_elem_of_In. vm_compute. auto.
  - vm_compute. reflexivity.
  - split; [exact Hs|]. exists it'. split; [exact Hit|exact Hl].
Defined.

(** In the bulk view too the verdict reads only the labels of the items
    that are still registered: when the item of the failed task is deleted
    before the batch ends, the batch is announced as a full success. *)
Example deleted_failure_scenario :
  status_label deleted_failure_window = "All 3 downloads completed successfully!" /\
  dialogs deleted_failure_window =
    [information "Success" "All 3 downloads completed successfully!"] /\
  video_queue deleted_failure_window = [].
Proof. vm_compute. auto. Qed.

End BatchMore.

(** ** The end of a successful bulk batch *)

Section SuccessMore.

Import YouTubeDownloader.

Lemma with_item_item_of (vid k : string)
    (f : VideoQueueItem.t -> VideoQueueItem.t) (s : YouTubeDownloader.t)
    (it' : VideoQueueItem.t) :
  item_of (with_item vid f s) k = Some it' ->
  (exists it, it' = f it) \/ item_of s k = Some it'.
Proof.
  unfold with_item, item_of.
  destruct (Dict.get vid (queue_items s)) as [h|]; [|now right].
  destruct (widgets s !! h) as [[it|v]|] eqn:Hw; try (now right).
  state_simpl. destruct (Dict.get k (queue_items s)) as [h'|]; [|discriminate].
  destruct (decide (h = h')) as [<-|Hne].
  - rewrite lookup_insert_eq. intros [= <-]. left. now exists it.
  - rewrite lookup_insert_ne by assumption. now right.
Qed.

Lemma with_item_item_of_same (vid : string)
    (f : VideoQueueItem.t -> VideoQueueItem.t) (s : YouTubeDownloader.t)
    (it' : VideoQueueItem.t) :
  item_of (with_item vid f s) vid = Some it' -> exists it, it' = f it.
Proof.
  unfold with_item, item_of.
  destruct (Dict.get vid (queue_items s)) as [h|] eqn:Hg;
    [|rewrite Hg; discriminate].
  destruct (widgets s !! h) as [[it|v]|] eqn:Hw.
  - state_simpl. rewrite Hg, lookup_insert_eq. intros [= <-]. now exists it.
  - rewrite Hg, Hw. discriminate.
  - rewrite Hg, Hw. discriminate.
Qed.

Lemma remove_all_frame (vids : list string) (s : YouTubeDownloader.t) :
  status_label (foldl (fun s vid => _remove_from_queue vid s) s vids) =
    status_label s /\
  dialogs (foldl (fun s vid => _remove_from_queue vid s) s vids) = dialogs s.
Proof.
  revert s. induction vids as [|vid vids IH]; intros s; [now split|].
  cbn [foldl]. destruct (IH (_remove_from_queue vid s)) as [-> ->].
  unfold _remove_from_queue. state_simpl.
  destruct (Dict.get vid (queue_items s)); state_simpl;
    match goal with |- context [if ?c then _ else _] => destruct c end;
    now split.
Qed.

(** X19: the end of a successful bulk batch.  In the bulk view, when the
    last terminal event reports success and the label of every other
    registered item of a queued record carries the success mark, the window
    announces "All N downloads completed successfully!" (N being the batch
    size), shows the success dialog, unregisters every queue item and
    removes from the queue exactly the records that had one. *)
Theorem last_success_clears_queue (vid : string) (msg : string)
    (s : YouTubeDownloader.t) :
  bulk_view s = true -> active_downloads s <= 1 ->
  (forall v it, v ∈ video_queue s -> video_id v <> vid ->
     item_of s (video_id v) = Some it ->
     startswith (VideoQueueItem.status_label it) "✓" = true) ->
  status_label (_on_download_finished vid true msg s) =
    "All " +:+ str (total_downloads s) +:+ " downloads completed successfully!" /\
  dialogs (_on_download_finished vid true msg s) =
    dialogs s ++
    [information "Success"
       ("All " +:+ str (total_downloads s) +:+
        " downloads completed successfully!")] /\
  queue_items (_on_download_finished vid true msg s) = [] /\
  video_queue (_on_download_finished vid true msg s) =
    List.filter (fun v => bool_decide (video_id v ∉ Dict.keys (queue_items s)))
                (video_queue s).
Proof.
  intros Hb Ha Hothers. unfold _on_download_finished.
  set (s1 := set_active_downloads _ s).
  set (f := VideoQueueItem.mark_completed).
  set (s2 := with_item vid f s1).
  destruct (with_item_same_queue vid f s1) as (Hq & Hi & Hm & Hv).
  destruct (with_item_same_batch vid f s1) as (Hact & Htot & _).
  fold s2 in Hq, Hi, Hm, Hv, Hact, Htot.
  assert (Hd : dialogs s2 = dialogs s).
  { subst s2. unfold with_item.
    destruct (Dict.get vid (queue_items s1)) as [h|]; [|reflexivity].
    destruct (widgets s1 !! h) as [[it|v]|]; reflexivity. }
  destruct (Z.leb_spec (active_downloads s2) 0) as [_|Hgt];
    [|rewrite Hact in Hgt; subst s1; state_simpl_in Hgt; lia].
  match goal with |- context [if all_success ?x then _ else _] =>
    assert (Hall : all_success x = true) end.
  { apply all_success_iff. intros v it' Hin Hit. state_simpl_in Hin.
    rewrite Hq in Hin.
    assert (Hit2 : item_of s2 (video_id v) = Some it') by exact Hit.
    destruct (String.eqb_spec (video_id v) vid) as [E|Hne].
    - rewrite E in Hit2. apply with_item_item_of_same in Hit2 as (it & ->).
      reflexivity.
    - apply with_item_item_of in Hit2 as [(it & ->)|Hit1]; [reflexivity|].
      apply (Hothers v it' Hin Hne). exact Hit1. }
  rewrite Hall. state_simpl.
  replace (bulk_view _) with true
    by (unfold bulk_view in *; state_simpl; now rewrite Hm, Hv).
  match goal with |- context [foldl ?g ?x ?l] =>
    destruct (remove_all_frame l x) as [Hsl Hdl];
    pose proof (remove_all_queue l x) as Hrq;
    pose proof (remove_all_items l x) as Hri;
    set (sf := foldl g x l) in * end.
  rewrite Hsl, Hdl, Hrq. state_simpl. rewrite Htot, Hd, Hq, Hi.
  split; [reflexivity|]. split; [reflexivity|]. split; [|reflexivity].
  destruct (queue_items sf) as [|[k h] d'] eqn:Ed; [reflexivity|].
  exfalso. destruct (proj1 (Hri k)) as [Hin Hnot].
  - now left.
  - apply Hnot. exact Hin.
Qed.

Lemma last_success_clears_queue_witness :
  video_queue
    (_on_download_finished "aaa" true "Download completed successfully!"
       one_left_window) = [].
Proof.
  assert (H : forall v it, v ∈ video_queue one_left_window ->
              video_id v <> "aaa" ->
              item_of one_left_window (video_id v) = Some it ->
              startswith (VideoQueueItem.status_label it) "✓" = true).
  { intros v it Hv Hne Hit. apply list_elem_of_In in Hv.
    vm_compute in Hv. destruct Hv as [<-|[<-|[<-|[]]]].
    - exfalso. now apply Hne.
    - vm_compute in Hit. injection Hit as <-. reflexivity.
    - vm_compute in Hit. injection Hit as <-. reflexivity. }
  rewrite (proj2 (proj2 (proj2
             (last_success_clears_queue "aaa" "Download completed successfully!"
                one_left_window eq_refl ltac:(vm_compute; discriminate) H)))).
  vm_compute. reflexivity.
Defined.

End SuccessMore.

(** ** From the fetcher to the workers *)

Section FetchToWorkers.

Import YouTubeDownloader.

(** X20: a video fetched in single mode replaces everything: whatever was
    queued, selected or registered before, the queue afterwards holds
    exactly the fetched record, nothing is selected or registered, the
    download button is enabled, and pressing it starts exactly one worker,
    for that record. *)
Theorem single_fetch_replaces_queue (v : VideoInfo) (o : download_options)
    (s : YouTubeDownloader.t) :
  is_queue_mode s = false ->
  video_queue (_on_video_info_fetched v s) = [v] /\
  selected_videos (_on_video_info_fetched v s) = ∅ /\
  queue_items (_on_video_info_fetched v s) = [] /\
  download_btn_enabled (_on_video_info_fetched v s) = true /\
  download_workers (_start_download o (_on_video_info_fetched v s)) =
    [DownloadWorker.mk (video_id v) (output_directory s)
       (opt_format_type o) (opt_quality o) (opt_container_format o)] /\
  active_downloads (_start_download o (_on_video_info_fetched v s)) = 1.
Proof.
  intros Hm. unfold _on_video_info_fetched. rewrite Hm.
  repeat (split; [reflexivity|]).
  unfold _start_download, bulk_view, _display_single_video, _clear_video_display.
  state_simpl. rewrite Hm. cbn [andb]. now split.
Qed.

Lemma single_fetch_replaces_queue_witness :
  video_queue (_on_video_info_fetched video_d orphan_window) = [video_d].
Proof.
  refine (proj1 (single_fetch_replaces_queue video_d sample_options
                   orphan_window _)).
  vm_compute. reflexivity.
Defined.

Lemma start_download_bulk_workers (o : download_options)
    (s : YouTubeDownloader.t) :
  bulk_view s = true -> video_queue s <> [] ->
  download_workers (_start_download o s) =
    (fun v => new_worker o v s) <$> video_queue s.
Proof.
  intros Hb Hq. unfold _start_download.
  destruct (video_queue s) as [|first rest] eqn:Eq; [congruence|].
  rewrite Hb.
  match goal with |- context [foldl _ ?x ?l] =>
    destruct (start_workers_fold o l x) as (Hw & _) end.
  rewrite Hw. state_simpl. now rewrite Eq.
Qed.

Lemma collect_ids (entries : list (option entry_dict)) :
  video_id <$> FetcherRun.collect entries =
  (fun e => FetcherRun.get_str (entry_id e) "") <$> omap id entries.
Proof.
  induction entries as [|[e|] rest IH]; cbn; [reflexivity| |exact IH].
  now rewrite IH.
Qed.

(** X21: from a playlist to its workers.  When the engine reports a
    playlist, the fetcher emits one signal carrying one record per non-null
    entry, in playlist order, with the id reported for it (the empty string
    when none is) and the thumbnail address built from that id.  Handing
    the signal to the window and pressing the download button then starts
    one worker per such entry, in the same order; if no entry is left, the
    button does nothing. *)
Theorem playlist_to_workers (entries : list (option entry_dict))
    (o : download_options) (s : YouTubeDownloader.t) :
  FetcherRun.run (PlaylistResult entries) =
    [FetcherRun.playlist_fetched (FetcherRun.collect entries)] /\
  List.length (FetcherRun.collect entries) =
    List.length (omap id entries) /\
  Forall (fun v => thumbnail_url v =
                   "https://i.ytimg.com/vi/" +:+ video_id v +:+ "/hqdefault.jpg")
         (FetcherRun.collect entries) /\
  (FetcherRun.collect entries <> [] ->
   DownloadWorker.video_id <$>
     download_workers
       (_start_download o
          (_on_playlist_fetched (FetcherRun.collect entries) s)) =
   (fun e => FetcherRun.get_str (entry_id e) "") <$> omap id entries) /\
  (FetcherRun.collect entries = [] ->
   _start_download o (_on_playlist_fetched (FetcherRun.collect entries) s) =
   _on_playlist_fetched (FetcherRun.collect entries) s).
Proof.
  split; [reflexivity|]. split; [|split; [|split]].
  - rewrite <- (length_fmap video_id), collect_ids. now rewrite length_fmap.
  - induction entries as [|[e|] rest IH]; cbn; [constructor| |exact IH].
    constructor; [reflexivity|exact IH].
  - intros Hne. rewrite <- collect_ids.
    destruct (playlist_fetched_effect (FetcherRun.collect entries) s)
      as (Hq & Hb & _).
    rewrite start_download_bulk_workers by (rewrite ?Hq; assumption).
    rewrite Hq, <- list_fmap_compose. reflexivity.
  - intros ->. reflexivity.
Qed.

Lemma playlist_to_workers_witness :
  DownloadWorker.video_id <$>
    download_workers
      (_start_download sample_options
         (_on_playlist_fetched (FetcherRun.collect sample_entries)
            failed_single_window)) = ["aaa"; ""].
Proof.
  refine (proj1 (proj2 (proj2 (proj2
            (playlist_to_workers sample_entries sample_options
               failed_single_window)))) _).
  discriminate.
Defined.

End FetchToWorkers.

(** ** The options the window offers *)

Section OfferedOptions.

Import DownloadWorker.

(** X22: every combination of video quality and container that the combo
    boxes offer gives a well-formed request: the selector is the merge of
    best video and audio for "highest", "worst" for "144p", and for every
    other quality the height-constrained selector for a numeric height; the
    merged output format is the chosen container, and a conversion step is
    added exactly when the container is not mp4. *)
Theorem offered_video_options (vid dir q c : string) :
  q ∈ Combo._update_quality_options true ->
  c ∈ Combo._update_format_options true ->
  ((q = "highest" /\
    format_string (mk vid dir (Combo.format_type true) q c) =
      "bestvideo+bestaudio/best") \/
   (q = "144p" /\
    format_string (mk vid dir (Combo.format_type true) q c) = "worst") \/
   (exists h, all_digits h = true /\ q = h +:+ "p" /\
      format_string (mk vid dir (Combo.format_type true) q c) =
        height_selector h)) /\
  DownloadOptions.merge_output_format (mk vid dir (Combo.format_type true) q c) =
    Some c /\
  DownloadOptions.postprocessors (mk vid dir (Combo.format_type true) q c) =
    (if String.eqb c "mp4" then []
     else [DownloadOptions.FFmpegVideoConvertor c]).
Proof.
  intros Hq Hc. apply list_elem_of_In in Hq, Hc. cbn in Hq, Hc.
  split; [|split].
  - destruct Hq as [<-|[<-|[<-|[<-|[<-|[<-|[<-|[]]]]]]]].
    + left. now split.
    + right. right. now exists "1080".
    + right. right. now exists "720".
    + right. right. now exists "480".
    + right. right. now exists "360".
    + right. right. now exists "240".
    + right. left. now split.
  - reflexivity.
  - destruct Hc as [<-|[<-|[<-|[<-|[<-|[]]]]]]; reflexivity.
Qed.

Lemma offered_video_options_witness :
  DownloadOptions.postprocessors
    (mk "abc" "/tmp" (Combo.format_type true) "480p" "mkv") =
  [DownloadOptions.FFmpegVideoConvertor "mkv"].
Proof.
  refine (proj2 (proj2 (offered_video_options "abc" "/tmp" "480p" "mkv" _ _)));
    apply list_elem_of_In; cbn; auto 10.
Defined.

(** X23: every combination of audio quality and container that the combo
    boxes offer asks for the best audio stream and exactly one extraction
    step, whose codec is the chosen container and whose bitrate is the
    number in the quality label: the default of 192 is never needed for an
    offered quality, and it is what any other quality text falls back to. *)
Theorem offered_audio_options (vid dir q c : string) :
  (q ∈ Combo._update_quality_options false ->
   c ∈ Combo._update_format_options false ->
   format_string (mk vid dir (Combo.format_type false) q c) = "bestaudio/best" /\
   DownloadOptions.merge_output_format
     (mk vid dir (Combo.format_type false) q c) = None /\
   exists b,
     q = b +:+ " kbps" /\ all_digits b = true /\
     DownloadOptions.postprocessors (mk vid dir (Combo.format_type false) q c) =
       [DownloadOptions.FFmpegExtractAudio c b]) /\
  (q ∉ Combo._update_quality_options false ->
   DownloadOptions.postprocessors (mk vid dir (Combo.format_type false) q c) =
     [DownloadOptions.FFmpegExtractAudio c "192"]).
Proof.
  split.
  - intros Hq Hc. apply list_elem_of_In in Hq. cbn in Hq.
    split; [reflexivity|]. split; [reflexivity|].
    destruct Hq as [<-|[<-|[<-|[<-|[<-|[]]]]]].
    + now exists "320".
    + now exists "256".
    + now exists "192".
    + now exists "128".
    + now exists "96".
  - intros Hq. unfold DownloadOptions.postprocessors, DownloadOptions.bitrate.
    cbn [format_type quality container_format Combo.format_type String.eqb
         Ascii.eqb Bool.eqb].
    cbn [Combo._update_quality_options] in Hq.
    unfold DownloadOptions.quality_map. cbn [Dict.get].
    repeat match goal with
    | |- context [String.eqb q ?k] =>
        destruct (String.eqb_spec q k) as [->|_];
          [exfalso; apply Hq; apply list_elem_of_In; cbn; auto 10|]
    end.
    reflexivity.
Qed.

Lemma offered_audio_options_witness :
  DownloadOptions.postprocessors
    (mk "abc" "/tmp" (Combo.format_type false) "128 kbps" "opus") =
  [DownloadOptions.FFmpegExtractAudio "opus" "128"].
Proof.
  destruct (proj1 (offered_audio_options "abc" "/tmp" "128 kbps" "opus"))
    as (_ & _ & b & _ & _ & _); [apply list_elem_of_In; cbn; auto 10..|].
  reflexivity.
Defined.

End OfferedOptions.

(** ** Cancelling the selection *)

Section CancelSelection.

Import YouTubeDownloader.

Lemma set_selected_widgets (h' h : nat) (s : YouTubeDownloader.t)
    (it : VideoQueueItem.t) :
  widgets s !! h = Some (ItemWidget it) ->
  exists it',
    widgets (set_selected h' false s) !! h = Some (ItemWidget it') /\
    VideoQueueItem.video_info it' = VideoQueueItem.video_info it /\
    (h' = h \/ VideoQueueItem.checkbox it = false ->
     VideoQueueItem.checkbox it' = false).
Proof.
  intros Hw. unfold set_selected.
  destruct (widgets s !! h') as [[it0|v0]|] eqn:Hw';
    try (exists it; split; [assumption|split; [reflexivity|]];
         intros [->|H]; [congruence|exact H]).
  assert (H : exists it',
            <[h' := ItemWidget
                      (VideoQueueItem.mk (VideoQueueItem.video_info it0) false false
                         (VideoQueueItem.progress_bar_visible it0)
                         (VideoQueueItem.progress_bar_value it0)
                         (VideoQueueItem.status_label_visible it0)
                         (VideoQueueItem.status_label it0))]> (widgets s) !! h
              = Some (ItemWidget it') /\
            VideoQueueItem.video_info it' = VideoQueueItem.video_info it /\
            (h' = h \/ VideoQueueItem.checkbox it = false ->
             VideoQueueItem.checkbox it' = false)).
  { destruct (decide (h' = h)) as [->|Hne].
    - rewrite lookup_insert_eq. eexists. split; [reflexivity|].
      rewrite Hw in Hw'. injection Hw' as <-. now split.
    - rewrite lookup_insert_ne by assumption. exists it.
      split; [assumption|]. split; [reflexivity|]. intros [?|?]; congruence. }
  destruct (Bool.eqb _ _); [exact H|].
  unfold _on_item_selection_changed. state_simpl. exact H.
Qed.

Lemma cancel_fold_unticks (vids : list string) (s : YouTubeDownloader.t)
    (h : nat) (it : VideoQueueItem.t) (vid : string) :
  widgets s !! h = Some (ItemWidget it) ->
  Dict.get vid (queue_items s) = Some h ->
  vid ∈ vids \/ VideoQueueItem.checkbox it = false ->
  exists it',
    widgets (foldl (fun s vid =>
                      match Dict.get vid (queue_items s) with
                      | Some h => set_selected h false s
                      | None => s
                      end) s vids) !! h = Some (ItemWidget it') /\
    VideoQueueItem.video_info it' = VideoQueueItem.video_info it /\
    VideoQueueItem.checkbox it' = false.
Proof.
  revert s it. induction vids as [|v vids IH]; intros s it Hw Hg Hor.
  - exists it. destruct Hor as [Hin|Hc]; [now apply elem_of_nil in Hin|].
    now repeat split.
  - cbn [foldl].
    destruct (Dict.get v (queue_items s)) as [h'|] eqn:Hg'.
    + destruct (set_selected_widgets h' h s it Hw) as (it1 & Hw1 & Hv1 & Hc1).
      destruct (set_selected_same_queue h' false s) as (_ & Hi1 & _).
      destruct (IH (set_selected h' false s) it1 Hw1) as (it' & Hw' & Hv' & Hc').
      * now rewrite Hi1.
      * destruct Hor as [Hin|Hc]; [|right; apply Hc1; now right].
        apply elem_of_cons in Hin as [->|Hin]; [|now left].
        right. apply Hc1. left. congruence.
      * exists it'. split; [exact Hw'|]. split; [congruence|exact Hc'].
    + apply IH; [assumption..|].
      destruct Hor as [Hin|Hc]; [|now right].
      apply elem_of_cons in Hin as [->|Hin]; [congruence|now left].
Qed.

(** X24: cancelling the selection empties it, unticks the check box of
    every queue item registered under a selected id, and changes neither
    the queue, nor the registry, nor the mode. *)
Theorem cancel_selection_effect (s : YouTubeDownloader.t) :
  selected_videos (_cancel_selection s) = ∅ /\
  video_queue (_cancel_selection s) = video_queue s /\
  queue_items (_cancel_selection s) = queue_items s /\
  is_queue_mode (_cancel_selection s) = is_queue_mode s /\
  (forall vid it, vid ∈ selected_videos s -> item_of s vid = Some it ->
     exists it', item_of (_cancel_selection s) vid = Some it' /\
                 VideoQueueItem.checkbox it' = false /\
                 VideoQueueItem.video_info it' = VideoQueueItem.video_info it).
Proof.
  destruct (cancel_selection_same_queue s) as (Hq & Hi & Hm & _).
  split; [reflexivity|]. split; [exact Hq|]. split; [exact Hi|].
  split; [exact Hm|].
  intros vid it Hsel Hit. unfold item_of in *. rewrite Hi.
  destruct (Dict.get vid (queue_items s)) as [h|] eqn:Hg; [|discriminate].
  destruct (widgets s !! h) as [[it0|v0]|] eqn:Hw; try discriminate.
  injection Hit as ->.
  destruct (cancel_fold_unticks (elements (selected_videos s)) s h it vid Hw Hg)
    as (it' & Hw' & Hv' & Hc').
  { left. now apply elem_of_elements. }
  exists it'. unfold _cancel_selection. state_simpl. rewrite Hw'. now repeat split.
Qed.

Lemma cancel_selection_effect_witness :
  exists it',
    item_of (_cancel_selection (run_events ticked_events fresh_window)) "bbb" =
      Some it' /\
    VideoQueueItem.checkbox it' = false.
Proof.
  destruct (proj2 (proj2 (proj2 (proj2
              (cancel_selection_effect (run_events ticked_events fresh_window)))))
              "bbb"
              (VideoQueueItem.mk video_b false true false 0 false ""))
    as (it' & H1 & H2 & _).
  - assert (E : selected_videos (run_events ticked_events fresh_window) =
                {["bbb"]} ∪ ∅) by (vm_compute; reflexivity).
    rewrite E. apply elem_of_union_l, elem_of_singleton. reflexivity.
  - vm_compute. reflexivity.
  - exists it'. split; [exact H1|exact H2].
Defined.

End CancelSelection.
